(** * CGchallenge: the audio layer and the scene build layer

    A shallow embedding of [AudioLayer.cpp] and [SceneBuildLayer.cpp].

    The two files are glue code over an engine that lives outside the
    repository (florp, entt, glm, the audio engine).  The code is embedded
    as it is written, statement by statement, in a state-and-exception monad
    over a [World]; the engine side is a small model of what its operations
    do to the objects the code can observe:

    - every call into the engine or the standard library is appended to a
      log, with its arguments;
    - any such call may throw: the world says which call (by its position in
      the log) throws what;
    - objects held through [Sptr] or a raw pointer live in heaps, a pointer
      being an index in its heap; an invalid pointer, or a use of the
      engine outside its contract, ends the run as [Undefined];
    - floating-point arithmetic done by glm is kept symbolic ([fexpr]);
      only the equality of [float] values, which the texture cache relies
      on, is the IEEE one. *)

From Stdlib Require Import String ZArith Lia Bool Arith List.
From Stdlib Require Import Floats.SpecFloat.
Import ListNotations.
Open Scope string_scope.
Open Scope list_scope.

Set Implicit Arguments.

(* ===================================================================== *)
(** ** glm values *)
(* ===================================================================== *)

(** A C++ [float]: an IEEE 754 value. *)
Definition float := spec_float.

(** [a == b] on floats: no NaN equals anything, itself included. *)
Definition float_eqb (a b : float) : bool := SFeqb a b.

Definition is_nan (a : float) : bool :=
  match a with S754_nan => true | _ => false end.

(** A float-valued expression as the source writes it.  [FLit n d] is the
    decimal literal [n/d] ([0.1f] is [FLit 1 10]), [FVal] a value received
    at run time, [FOfInt] the conversion of an [int]. *)
Inductive fexpr : Type :=
| FLit (n : Z) (d : positive)
| FVal (f : float)
| FOfInt (z : Z)
| FNeg (a : fexpr)
| FAdd (a b : fexpr)
| FMul (a b : fexpr)
| FDiv (a b : fexpr)
| FSin (a : fexpr)
| FCos (a : fexpr)
| FRadians (a : fexpr)
| FPi
| FTwoPi.

Definition vec3 : Type := fexpr * fexpr * fexpr.
Definition vec4 : Type := fexpr * fexpr * fexpr * fexpr.

(** [glm::vec3(s)] and [glm::vec4(s)] *)
Definition vec3_splat (s : fexpr) : vec3 := (s, s, s).
Definition vec4_splat (s : fexpr) : vec4 := (s, s, s, s).

(** [v / s] and [v * s] on a [glm::vec3] *)
Definition vec3_div (v : vec3) (s : fexpr) : vec3 :=
  let '(x, y, z) := v in (FDiv x s, FDiv y s, FDiv z s).
Definition vec3_mul (v : vec3) (s : fexpr) : vec3 :=
  let '(x, y, z) := v in (FMul x s, FMul y s, FMul z s).

(** A [glm::vec4] of run-time floats, the key type of the texture cache. *)
Definition color4 : Type := float * float * float * float.

(** [operator==] of [glm::vec4]: component-wise [==]. *)
Definition color4_eqb (a b : color4) : bool :=
  let '(ar, ag, ab, aa) := a in
  let '(br, bg, bb, ba) := b in
  float_eqb ar br && float_eqb ag bg && float_eqb ab bb && float_eqb aa ba.

Definition has_nan (c : color4) : bool :=
  let '(r, g, b, a) := c in is_nan r || is_nan g || is_nan b || is_nan a.

(** A [glm::mat4] built by [glm::perspective(fovy, aspect, near, far)]. *)
Inductive mat4 : Type :=
| perspective (fovy aspect near far : fexpr).

(* ===================================================================== *)
(** ** Engine data *)
(* ===================================================================== *)

(** Pointers are indices in the heap of their type. *)
Definition ptr := nat.
(** An [Sptr] that may be null. *)
Definition Sptr := option ptr.
(** [entt::entity] *)
Definition entity := nat.

Inductive RenderTargetAttachment := Color0 | Color1 | Color2 | Depth.
Inductive RenderTargetType := ColorRgb8 | ColorRgb10 | Depth32.

(** Modelled from the spec: the structs and objects of the engine
    ([RenderBufferDesc], [FrameBuffer], [Texture2D], [Shader], [Material],
    [MeshData], [Mesh]) are declared in the external engine, "not included
    in this repository".  Each has the fields and the state the code at
    hand writes or the calls it makes set.  A field holds [None] until it
    is written: the value a default constructor leaves there is the
    engine's. *)
Record RenderBufferDesc := {
  rb_ShaderReadable : option bool;
  rb_Attachment : option RenderTargetAttachment;
  rb_Format : option RenderTargetType
}.

Definition RenderBufferDesc_new : RenderBufferDesc :=
  {| rb_ShaderReadable := None; rb_Attachment := None; rb_Format := None |}.

Record FrameBuffer := {
  fb_width : Z;
  fb_height : Z;
  fb_samples : option Z;
  fb_attachments : list RenderBufferDesc;
  fb_validated : bool;
  fb_name : option string
}.

Inductive InternalFormat := RGBA8.
Inductive MagFilter := MagNearest.
Inductive MinFilter := MinNearest.
Inductive WrapMode := ClampToEdge.
Inductive PixelFormat := Rgba.
Inductive PixelType := PixelFloat.

Record Texture2dDescription := {
  td_Width : option Z;
  td_Height : option Z;
  td_Format : option InternalFormat;
  td_MagFilter : option MagFilter;
  td_MinFilter : option MinFilter;
  td_MipmapLevels : option Z;
  td_WrapS : option WrapMode;
  td_WrapT : option WrapMode
}.

Definition Texture2dDescription_new : Texture2dDescription :=
  {| td_Width := None; td_Height := None; td_Format := None;
     td_MagFilter := None; td_MinFilter := None; td_MipmapLevels := None;
     td_WrapS := None; td_WrapT := None |}.

(** [Data] points at the first float of a color: the pixel it designates. *)
Record Texture2dData := {
  tx_Width : option Z;
  tx_Height : option Z;
  tx_Format : option PixelFormat;
  tx_Type : option PixelType;
  tx_Data : option color4
}.

Definition Texture2dData_new : Texture2dData :=
  {| tx_Width := None; tx_Height := None; tx_Format := None;
     tx_Type := None; tx_Data := None |}.

(** A texture object: the file it was loaded from or the description it
    was made with, and the data set on it. *)
Record Texture2D := {
  tex_file : option (string * bool * bool * bool);
  tex_desc : option Texture2dDescription;
  tex_data : option Texture2dData
}.

Inductive ShaderStageType := VertexShader | FragmentShader.

Record Shader := {
  sh_parts : list (ShaderStageType * string);
  sh_linked : bool
}.

Inductive MaterialValue : Type :=
| MTexture (t : Sptr)
| MFloat (f : fexpr).

Record Material := {
  mat_shader : Sptr;
  mat_values : list (string * MaterialValue)
}.

(** What [ObjLoader::LoadObj] returns: the contents of a file, by name. *)
Record MeshData := {
  md_file : string;
  md_color : vec4
}.

(** What [MeshBuilder::Bake] builds. *)
Record Mesh := { mesh_data : MeshData }.

(* ===================================================================== *)
(** ** Components, entities, scenes *)
(* ===================================================================== *)

(** Modelled from the spec: the components and the behaviours
    ([CameraComponent.h], [ShadowLight.h], [PointLightComponent.h],
    [RotateBehaviour.h], [ControlBehaviour.h], [LightFlickerBehaviour.h] and
    the engine's [Transform] and [RenderableComponent]) are declared
    outside the sources at hand; the spec has them as "constructs
    populated with literal configuration values by this code".  A component
    has the fields the code assigns, a behaviour the arguments it is
    constructed with. *)
Record Transform := {
  tr_position : option vec3;
  tr_look_at : option (vec3 * vec3)
}.

Record RenderableComponent := {
  rc_Mesh : Sptr;
  rc_Material : Sptr
}.

Record CameraComponent := {
  cam_BackBuffer : Sptr;
  cam_FrontBuffer : Sptr;
  cam_IsMainCamera : option bool;
  cam_Projection : option mat4
}.

Record PointLightComponent := {
  pl_Color : option vec3;
  pl_Attenuation : option fexpr
}.

Record ShadowLight := {
  sl_ShadowBuffer : Sptr;
  sl_Projection : option mat4;
  sl_Attenuation : option fexpr;
  sl_Color : option vec3
}.

Inductive Behaviour : Type :=
| ControlBehaviour (v : vec3)
| RotateBehaviour (v : vec3)
| RandomBehaviour
| LightFlickerBehaviour (a b c : fexpr).

(** One row of the registry: the components an entity carries. *)
Record Entity := {
  e_transform : option Transform;
  e_renderable : option RenderableComponent;
  e_camera : option CameraComponent;
  e_pointlight : option PointLightComponent;
  e_shadowlight : option ShadowLight;
  e_behaviours : list Behaviour
}.

(** A scene: its registry, an entity being its index. *)
Record Scene := { entities : list Entity }.

Inductive ComponentKind :=
| KTransform | KRenderable | KCamera | KPointLight | KShadowLight.

(* ===================================================================== *)
(** ** Calls into the engine and the libraries *)
(* ===================================================================== *)

Module Ev.
Inductive Call : Type :=
| AudioEngine_Init
| AudioEngine_LoadSound (name : string) (a b c : bool)
| AudioEngine_PlaySound (name : string)
| AudioEngine_Shutdown
| AudioEngine_Update
| Application_Get
| Application_GetWindow
| Window_GetWidth
| Window_GetHeight
| SceneManager_RegisterScene (name : string)
| SceneManager_SetCurrentScene (name : string)
| ObjLoader_LoadObj (file : string) (color : vec4)
| MeshBuilder_Bake (data : MeshData)
| make_shared_Shader
| Shader_LoadPart (sh : ptr) (stage : ShaderStageType) (file : string)
| Shader_Link (sh : ptr)
| make_shared_Material (sh : ptr)
| Material_Set (m : ptr) (name : string) (v : MaterialValue)
| Texture2D_LoadFromFile (file : string) (a b c : bool)
| make_shared_Texture2D (desc : Texture2dDescription)
| Texture2D_SetData (t : ptr) (data : Texture2dData)
| make_shared_FrameBuffer (w h : Z) (samples : option Z)
| FrameBuffer_AddAttachment (fb : ptr) (desc : RenderBufferDesc)
| FrameBuffer_Validate (fb : ptr)
| FrameBuffer_SetDebugName (fb : ptr) (name : string)
| FrameBuffer_Clone (fb : ptr)
| Scene_CreateEntity (scene : ptr)
| Registry_assign (scene : ptr) (k : ComponentKind) (e : entity)
| Registry_get (scene : ptr) (k : ComponentKind) (e : entity)
| Transform_SetPosition (scene : ptr) (e : entity) (pos : vec3)
| Transform_LookAt (scene : ptr) (e : entity) (target up : vec3)
| Scene_AddBehaviour (scene : ptr) (e : entity) (b : Behaviour)
| unordered_map_find (key : color4)
| unordered_map_index (key : color4).
End Ev.

(** What a call throws. *)
Inductive Exception : Type :=
| EngineError (what : string).

(* ===================================================================== *)
(** ** The world *)
(* ===================================================================== *)

Record World := {
  (** the calls made so far, the latest first *)
  log : list Ev.Call;
  (** the calls that throw: position in the log (the first call ever made
      has position 0) and what is thrown *)
  faults : list (nat * Exception);
  (** width and height of the application window *)
  window : Z * Z;
  framebuffers : list FrameBuffer;
  shaders : list Shader;
  materials : list Material;
  textures : list Texture2D;
  meshes : list Mesh;
  scenes : list Scene;
  (** the scene manager: names of registered scenes, the current scene *)
  scene_names : list (string * ptr);
  current_scene : option ptr;
  (** the function-local static of [CreateSolidTexture] *)
  cache : list (color4 * Sptr);
  (** memory an [entt::entity*] of the caller can point into *)
  cells : list entity
}.

Definition set_log (f : list Ev.Call -> list Ev.Call) (w : World) : World :=
  {| log := f (log w); faults := faults w; window := window w;
     framebuffers := framebuffers w; shaders := shaders w;
     materials := materials w; textures := textures w; meshes := meshes w;
     scenes := scenes w; scene_names := scene_names w;
     current_scene := current_scene w; cache := cache w; cells := cells w |}.

Definition set_framebuffers (f : list FrameBuffer -> list FrameBuffer) (w : World) : World :=
  {| log := log w; faults := faults w; window := window w;
     framebuffers := f (framebuffers w); shaders := shaders w;
     materials := materials w; textures := textures w; meshes := meshes w;
     scenes := scenes w; scene_names := scene_names w;
     current_scene := current_scene w; cache := cache w; cells := cells w |}.

Definition set_shaders (f : list Shader -> list Shader) (w : World) : World :=
  {| log := log w; faults := faults w; window := window w;
     framebuffers := framebuffers w; shaders := f (shaders w);
     materials := materials w; textures := textures w; meshes := meshes w;
     scenes := scenes w; scene_names := scene_names w;
     current_scene := current_scene w; cache := cache w; cells := cells w |}.

Definition set_materials (f : list Material -> list Material) (w : World) : World :=
  {| log := log w; faults := faults w; window := window w;
     framebuffers := framebuffers w; shaders := shaders w;
     materials := f (materials w); textures := textures w; meshes := meshes w;
     scenes := scenes w; scene_names := scene_names w;
     current_scene := current_scene w; cache := cache w; cells := cells w |}.

Definition set_textures (f : list Texture2D -> list Texture2D) (w : World) : World :=
  {| log := log w; faults := faults w; window := window w;
     framebuffers := framebuffers w; shaders := shaders w;
     materials := materials w; textures := f (textures w); meshes := meshes w;
     scenes := scenes w; scene_names := scene_names w;
     current_scene := current_scene w; cache := cache w; cells := cells w |}.

Definition set_meshes (f : list Mesh -> list Mesh) (w : World) : World :=
  {| log := log w; faults := faults w; window := window w;
     framebuffers := framebuffers w; shaders := shaders w;
     materials := materials w; textures := textures w; meshes := f (meshes w);
     scenes := scenes w; scene_names := scene_names w;
     current_scene := current_scene w; cache := cache w; cells := cells w |}.

Definition set_scenes (f : list Scene -> list Scene) (w : World) : World :=
  {| log := log w; faults := faults w; window := window w;
     framebuffers := framebuffers w; shaders := shaders w;
     materials := materials w; textures := textures w; meshes := meshes w;
     scenes := f (scenes w); scene_names := scene_names w;
     current_scene := current_scene w; cache := cache w; cells := cells w |}.

Definition set_scene_names (f : list (string * ptr) -> list (string * ptr)) (w : World) : World :=
  {| log := log w; faults := faults w; window := window w;
     framebuffers := framebuffers w; shaders := shaders w;
     materials := materials w; textures := textures w; meshes := meshes w;
     scenes := scenes w; scene_names := f (scene_names w);
     current_scene := current_scene w; cache := cache w; cells := cells w |}.

Definition set_current_scene (s : option ptr) (w : World) : World :=
  {| log := log w; faults := faults w; window := window w;
     framebuffers := framebuffers w; shaders := shaders w;
     materials := materials w; textures := textures w; meshes := meshes w;
     scenes := scenes w; scene_names := scene_names w;
     current_scene := s; cache := cache w; cells := cells w |}.

Definition set_cache (f : list (color4 * Sptr) -> list (color4 * Sptr)) (w : World) : World :=
  {| log := log w; faults := faults w; window := window w;
     framebuffers := framebuffers w; shaders := shaders w;
     materials := materials w; textures := textures w; meshes := meshes w;
     scenes := scenes w; scene_names := scene_names w;
     current_scene := current_scene w; cache := f (cache w); cells := cells w |}.

Definition set_cells (f : list entity -> list entity) (w : World) : World :=
  {| log := log w; faults := faults w; window := window w;
     framebuffers := framebuffers w; shaders := shaders w;
     materials := materials w; textures := textures w; meshes := meshes w;
     scenes := scenes w; scene_names := scene_names w;
     current_scene := current_scene w; cache := cache w; cells := f (cells w) |}.

(** The exception thrown by the call at position [n], if any. *)
Fixpoint fault_at (fs : list (nat * Exception)) (n : nat) : option Exception :=
  match fs with
  | [] => None
  | (i, e) :: fs' => if Nat.eqb i n then Some e else fault_at fs' n
  end.

(* ===================================================================== *)
(** ** The monad: state, exceptions, undefined behaviour *)
(* ===================================================================== *)

Inductive Outcome (A : Type) : Type :=
| Ok (a : A)
| Thrown (e : Exception)
| Undefined.
Arguments Ok {A} a.
Arguments Thrown {A} e.
Arguments Undefined {A}.

Definition M (A : Type) : Type := World -> Outcome A * World.

Definition ret {A} (a : A) : M A := fun w => (Ok a, w).

(** Sequencing: an exception leaves through every statement that follows,
    as a C++ exception does where there is no handler. *)
Definition bind {A B} (m : M A) (k : A -> M B) : M B :=
  fun w =>
    match m w with
    | (Ok a, w1) => k a w1
    | (Thrown e, w1) => (Thrown e, w1)
    | (Undefined, w1) => (Undefined, w1)
    end.

Notation "x <- m ;; k" := (bind m (fun x => k))
  (at level 61, m at next level, right associativity).
Notation "m ;; k" := (bind m (fun _ => k))
  (at level 61, right associativity).

Definition undefined {A} : M A := fun w => (Undefined, w).
Definition gets {A} (f : World -> A) : M A := fun w => (Ok (f w), w).
Definition modify (f : World -> World) : M unit := fun w => (Ok tt, f w).

(** A call into the engine: logged, then it throws if the world says so. *)
Definition call (c : Ev.Call) : M unit :=
  fun w =>
    let w1 := set_log (cons c) w in
    match fault_at (faults w) (length (log w)) with
    | Some e => (Thrown e, w1)
    | None => (Ok tt, w1)
    end.

(** [thrown r] is the exception a run ended with. *)
Definition thrown {A} (r : Outcome A) : option Exception :=
  match r with Thrown e => Some e | _ => None end.

(** The calls [tr], in the order they were made, took the log of [w] to
    that of [w']. *)
Definition performed (w w' : World) (tr : list Ev.Call) : Prop :=
  log w' = rev tr ++ log w.

(* ===================================================================== *)
(** ** Heaps *)
(* ===================================================================== *)

(** Apply [f] to the element at index [p]. *)
Fixpoint upd {T} (p : nat) (f : T -> T) (l : list T) : list T :=
  match l, p with
  | [], _ => []
  | x :: t, 0 => f x :: t
  | x :: t, S p' => x :: upd p' f t
  end.

(** A heap of the world: how to read it and how to change it. *)
Record Heap (T : Type) := {
  view : World -> list T;
  over : (list T -> list T) -> World -> World
}.

Definition framebufferH : Heap FrameBuffer :=
  {| view := framebuffers; over := set_framebuffers |}.
Definition shaderH : Heap Shader :=
  {| view := shaders; over := set_shaders |}.
Definition materialH : Heap Material :=
  {| view := materials; over := set_materials |}.
Definition textureH : Heap Texture2D :=
  {| view := textures; over := set_textures |}.
Definition meshH : Heap Mesh :=
  {| view := meshes; over := set_meshes |}.
Definition sceneH : Heap Scene :=
  {| view := scenes; over := set_scenes |}.

(** A new object: the next index of its heap.  A heap keeps every object
    made, also one whose last owner is gone: it tells which objects have
    been made and what they were given, not which are alive. *)
Definition new {T} (H : Heap T) (o : T) : M ptr :=
  fun w => (Ok (length (view H w)), over H (fun h => h ++ [o]) w).

Definition read {T} (H : Heap T) (p : ptr) : M T :=
  fun w =>
    match nth_error (view H w) p with
    | Some o => (Ok o, w)
    | None => (Undefined, w)
    end.

Definition update {T} (H : Heap T) (p : ptr) (f : T -> T) : M unit :=
  _ <- read H p ;;
  modify (over H (upd p f)).

(* ===================================================================== *)
(** ** The audio engine: only its calls are observable *)
(* ===================================================================== *)

(** Modelled from the spec: "an external audio engine API", of which the
    code at hand shows the calls and nothing else. *)
Definition AudioEngine_Init : M unit := call Ev.AudioEngine_Init.
Definition AudioEngine_LoadSound (name : string) (a b c : bool) : M unit :=
  call (Ev.AudioEngine_LoadSound name a b c).
Definition AudioEngine_PlaySound (name : string) : M unit :=
  call (Ev.AudioEngine_PlaySound name).
Definition AudioEngine_Shutdown : M unit := call Ev.AudioEngine_Shutdown.
Definition AudioEngine_Update : M unit := call Ev.AudioEngine_Update.

(* ===================================================================== *)
(** ** The application and its window *)
(* ===================================================================== *)

(** [Application::Get()] and [GetWindow()] return pointers, which the code
    dereferences as they come.  The application and its window are taken
    to exist: every world has a window, the two calls are logged and may
    throw, and the pointers they return are not values of the embedding.
    No run is [Undefined] for want of an application or a window. *)
Definition Application_Get : M unit := call Ev.Application_Get.
Definition Application_GetWindow : M unit := call Ev.Application_GetWindow.
Definition Window_GetWidth : M Z :=
  call Ev.Window_GetWidth ;; gets (fun w => fst (window w)).
Definition Window_GetHeight : M Z :=
  call Ev.Window_GetHeight ;; gets (fun w => snd (window w)).

(* ===================================================================== *)
(** ** Scene manager, meshes, shaders, materials, textures, framebuffers *)
(* ===================================================================== *)

Fixpoint lookup_name (name : string) (l : list (string * ptr)) : option ptr :=
  match l with
  | [] => None
  | (n, p) :: l' => if String.eqb n name then Some p else lookup_name name l'
  end.

(** Modelled from the spec: the "scene manager, mesh/material/shader/texture
    factories, ECS registry, behaviour attachment" are the external
    engine's.  Each operation below logs its call and does to the objects
    the least the code at hand relies on: a factory makes a new object, a
    setter records what it is given, and a scene is "a container of
    entities and their components".

    [SceneManager::RegisterScene(name)]: a new, empty scene under [name]. *)
Definition SceneManager_RegisterScene (name : string) : M ptr :=
  call (Ev.SceneManager_RegisterScene name) ;;
  s <- new sceneH {| entities := [] |} ;;
  modify (set_scene_names (cons (name, s))) ;;
  ret s.

Definition SceneManager_SetCurrentScene (name : string) : M unit :=
  call (Ev.SceneManager_SetCurrentScene name) ;;
  found <- gets (fun w => lookup_name name (scene_names w)) ;;
  match found with
  | Some s => modify (set_current_scene (Some s))
  | None => undefined
  end.

Definition ObjLoader_LoadObj (file : string) (color : vec4) : M MeshData :=
  call (Ev.ObjLoader_LoadObj file color) ;;
  ret {| md_file := file; md_color := color |}.

Definition MeshBuilder_Bake (data : MeshData) : M ptr :=
  call (Ev.MeshBuilder_Bake data) ;;
  new meshH {| mesh_data := data |}.

Definition make_shared_Shader : M ptr :=
  call Ev.make_shared_Shader ;;
  new shaderH {| sh_parts := []; sh_linked := false |}.

Definition Shader_LoadPart (sh : ptr) (stage : ShaderStageType) (file : string) : M unit :=
  call (Ev.Shader_LoadPart sh stage file) ;;
  update shaderH sh (fun o =>
    {| sh_parts := sh_parts o ++ [(stage, file)]; sh_linked := sh_linked o |}).

Definition Shader_Link (sh : ptr) : M unit :=
  call (Ev.Shader_Link sh) ;;
  update shaderH sh (fun o => {| sh_parts := sh_parts o; sh_linked := true |}).

Definition make_shared_Material (sh : ptr) : M ptr :=
  call (Ev.make_shared_Material sh) ;;
  new materialH {| mat_shader := Some sh; mat_values := [] |}.

(** Bind [name] to [v]: replace the value it has, or add it. *)
Fixpoint set_value (name : string) (v : MaterialValue)
    (l : list (string * MaterialValue)) : list (string * MaterialValue) :=
  match l with
  | [] => [(name, v)]
  | (n, v') :: l' =>
      if String.eqb n name then (n, v) :: l' else (n, v') :: set_value name v l'
  end.

Definition Material_Set (m : ptr) (name : string) (v : MaterialValue) : M unit :=
  call (Ev.Material_Set m name v) ;;
  update materialH m (fun o =>
    {| mat_shader := mat_shader o; mat_values := set_value name v (mat_values o) |}).

Definition Texture2D_LoadFromFile (file : string) (a b c : bool) : M ptr :=
  call (Ev.Texture2D_LoadFromFile file a b c) ;;
  new textureH {| tex_file := Some (file, a, b, c); tex_desc := None; tex_data := None |}.

Definition make_shared_Texture2D (desc : Texture2dDescription) : M ptr :=
  call (Ev.make_shared_Texture2D desc) ;;
  new textureH {| tex_file := None; tex_desc := Some desc; tex_data := None |}.

Definition Texture2D_SetData (t : ptr) (data : Texture2dData) : M unit :=
  call (Ev.Texture2D_SetData t data) ;;
  update textureH t (fun o =>
    {| tex_file := tex_file o; tex_desc := tex_desc o; tex_data := Some data |}).

Definition make_shared_FrameBuffer (w h : Z) (samples : option Z) : M ptr :=
  call (Ev.make_shared_FrameBuffer w h samples) ;;
  new framebufferH
    {| fb_width := w; fb_height := h; fb_samples := samples;
       fb_attachments := []; fb_validated := false; fb_name := None |}.

Definition FrameBuffer_AddAttachment (fb : ptr) (desc : RenderBufferDesc) : M unit :=
  call (Ev.FrameBuffer_AddAttachment fb desc) ;;
  update framebufferH fb (fun o =>
    {| fb_width := fb_width o; fb_height := fb_height o; fb_samples := fb_samples o;
       fb_attachments := fb_attachments o ++ [desc];
       fb_validated := fb_validated o; fb_name := fb_name o |}).

Definition FrameBuffer_Validate (fb : ptr) : M unit :=
  call (Ev.FrameBuffer_Validate fb) ;;
  update framebufferH fb (fun o =>
    {| fb_width := fb_width o; fb_height := fb_height o; fb_samples := fb_samples o;
       fb_attachments := fb_attachments o;
       fb_validated := true; fb_name := fb_name o |}).

Definition FrameBuffer_SetDebugName (fb : ptr) (name : string) : M unit :=
  call (Ev.FrameBuffer_SetDebugName fb name) ;;
  update framebufferH fb (fun o =>
    {| fb_width := fb_width o; fb_height := fb_height o; fb_samples := fb_samples o;
       fb_attachments := fb_attachments o;
       fb_validated := fb_validated o; fb_name := Some name |}).

(** [Clone]: a new framebuffer of the same size, samples and attachments. *)
Definition FrameBuffer_Clone (fb : ptr) : M ptr :=
  call (Ev.FrameBuffer_Clone fb) ;;
  o <- read framebufferH fb ;;
  new framebufferH
    {| fb_width := fb_width o; fb_height := fb_height o; fb_samples := fb_samples o;
       fb_attachments := fb_attachments o;
       fb_validated := fb_validated o; fb_name := None |}.

(* ===================================================================== *)
(** ** The registry *)
(* ===================================================================== *)

(** A component type: where an entity keeps it and what a freshly assigned
    one holds. *)
Record Component (T : Type) := {
  kind : ComponentKind;
  cget : Entity -> option T;
  cset : option T -> Entity -> Entity;
  cnew : T
}.

Definition TransformC : Component Transform :=
  {| kind := KTransform;
     cget := e_transform;
     cset := fun c e =>
       {| e_transform := c; e_renderable := e_renderable e; e_camera := e_camera e;
          e_pointlight := e_pointlight e; e_shadowlight := e_shadowlight e;
          e_behaviours := e_behaviours e |};
     cnew := {| tr_position := None; tr_look_at := None |} |}.

Definition RenderableC : Component RenderableComponent :=
  {| kind := KRenderable;
     cget := e_renderable;
     cset := fun c e =>
       {| e_transform := e_transform e; e_renderable := c; e_camera := e_camera e;
          e_pointlight := e_pointlight e; e_shadowlight := e_shadowlight e;
          e_behaviours := e_behaviours e |};
     cnew := {| rc_Mesh := None; rc_Material := None |} |}.

Definition CameraC : Component CameraComponent :=
  {| kind := KCamera;
     cget := e_camera;
     cset := fun c e =>
       {| e_transform := e_transform e; e_renderable := e_renderable e; e_camera := c;
          e_pointlight := e_pointlight e; e_shadowlight := e_shadowlight e;
          e_behaviours := e_behaviours e |};
     cnew := {| cam_BackBuffer := None; cam_FrontBuffer := None;
                cam_IsMainCamera := None; cam_Projection := None |} |}.

Definition PointLightC : Component PointLightComponent :=
  {| kind := KPointLight;
     cget := e_pointlight;
     cset := fun c e =>
       {| e_transform := e_transform e; e_renderable := e_renderable e;
          e_camera := e_camera e;
          e_pointlight := c; e_shadowlight := e_shadowlight e;
          e_behaviours := e_behaviours e |};
     cnew := {| pl_Color := None; pl_Attenuation := None |} |}.

Definition ShadowLightC : Component ShadowLight :=
  {| kind := KShadowLight;
     cget := e_shadowlight;
     cset := fun c e =>
       {| e_transform := e_transform e; e_renderable := e_renderable e;
          e_camera := e_camera e;
          e_pointlight := e_pointlight e; e_shadowlight := c;
          e_behaviours := e_behaviours e |};
     cnew := {| sl_ShadowBuffer := None; sl_Projection := None;
                sl_Attenuation := None; sl_Color := None |} |}.

(** A C++ reference to a component: the entity of the scene that owns it. *)
Record Ref := { ref_scene : ptr; ref_entity : entity }.

(** Change entity [e] of scene [s]; [f] answers [None] where the engine's
    contract is broken. *)
Definition with_entity (s : ptr) (e : entity) (f : Entity -> option Entity) : M unit :=
  sc <- read sceneH s ;;
  match nth_error (entities sc) e with
  | None => undefined
  | Some en =>
      match f en with
      | None => undefined
      | Some en' =>
          modify (over sceneH
            (upd s (fun sc' => {| entities := upd e (fun _ => en') (entities sc') |})))
      end
  end.

(** [scene->CreateEntity()]: a new entity, which the scene gives a
    [Transform]. *)
Definition Scene_CreateEntity (s : ptr) : M entity :=
  call (Ev.Scene_CreateEntity s) ;;
  sc <- read sceneH s ;;
  update sceneH s (fun sc' =>
    {| entities := entities sc' ++
         [ {| e_transform := Some (cnew TransformC); e_renderable := None;
              e_camera := None; e_pointlight := None; e_shadowlight := None;
              e_behaviours := [] |} ] |}) ;;
  ret (length (entities sc)).

(** [scene->Registry().assign<T>(e)], the accessor [Registry()] included:
    [e] must not carry a [T] yet. *)
Definition Registry_assign {T} (C : Component T) (s : ptr) (e : entity) : M Ref :=
  call (Ev.Registry_assign s (kind C) e) ;;
  with_entity s e (fun en =>
    match cget C en with
    | None => Some (cset C (Some (cnew C)) en)
    | Some _ => None
    end) ;;
  ret {| ref_scene := s; ref_entity := e |}.

(** [scene->Registry().get<T>(e)], the accessor included: [e] must carry
    a [T]. *)
Definition Registry_get {T} (C : Component T) (s : ptr) (e : entity) : M Ref :=
  call (Ev.Registry_get s (kind C) e) ;;
  with_entity s e (fun en =>
    match cget C en with
    | Some _ => Some en
    | None => None
    end) ;;
  ret {| ref_scene := s; ref_entity := e |}.

(** A write through a reference, [r.Field = v]. *)
Definition write {T} (C : Component T) (r : Ref) (f : T -> T) : M unit :=
  with_entity (ref_scene r) (ref_entity r) (fun en =>
    match cget C en with
    | Some c => Some (cset C (Some (f c)) en)
    | None => None
    end).

Definition Transform_SetPosition (t : Ref) (pos : vec3) : M unit :=
  call (Ev.Transform_SetPosition (ref_scene t) (ref_entity t) pos) ;;
  write TransformC t (fun c =>
    {| tr_position := Some pos; tr_look_at := tr_look_at c |}).

Definition Transform_LookAt (t : Ref) (target up : vec3) : M unit :=
  call (Ev.Transform_LookAt (ref_scene t) (ref_entity t) target up) ;;
  write TransformC t (fun c =>
    {| tr_position := tr_position c; tr_look_at := Some (target, up) |}).

Definition Scene_AddBehaviour (s : ptr) (e : entity) (b : Behaviour) : M unit :=
  call (Ev.Scene_AddBehaviour s e b) ;;
  with_entity s e (fun en =>
    Some {| e_transform := e_transform en; e_renderable := e_renderable en;
            e_camera := e_camera en; e_pointlight := e_pointlight en;
            e_shadowlight := e_shadowlight en;
            e_behaviours := e_behaviours en ++ [b] |}).

(** [*p = e] for an [entt::entity* p]. *)
Definition store_entity (p : ptr) (e : entity) : M unit :=
  fun w =>
    if Nat.ltb p (length (cells w))
    then (Ok tt, set_cells (upd p (fun _ => e)) w)
    else (Undefined, w).

(* ===================================================================== *)
(** ** [std::unordered_map<glm::vec4, Texture2D::Sptr>] *)
(* ===================================================================== *)

(** The position of the entry whose key equals [k].  Keys that are equal
    hash alike, so the hash plays no part in which entry is found. *)
Fixpoint um_find (k : color4) (m : list (color4 * Sptr)) : option nat :=
  match m with
  | [] => None
  | (k', _) :: m' =>
      if color4_eqb k' k then Some 0
      else match um_find k m' with Some i => Some (S i) | None => None end
  end.

(** [cache.find(k)] *)
Definition cache_find (k : color4) : M (option nat) :=
  call (Ev.unordered_map_find k) ;;
  gets (fun w => um_find k (cache w)).

(** [cache[k]]: the entry of [k], added with a null pointer when there is
    none; the result designates the mapped value. *)
Definition cache_index (k : color4) : M nat :=
  call (Ev.unordered_map_index k) ;;
  found <- gets (fun w => um_find k (cache w)) ;;
  match found with
  | Some i => ret i
  | None =>
      n <- gets (fun w => length (cache w)) ;;
      modify (set_cache (fun m => m ++ [(k, None)])) ;;
      ret n
  end.

(** Reading and assigning the mapped value [cache[k]] designates. *)
Definition cache_load (i : nat) : M Sptr :=
  fun w =>
    match nth_error (cache w) i with
    | Some (_, v) => (Ok v, w)
    | None => (Undefined, w)
    end.

Definition cache_store (i : nat) (v : Sptr) : M unit :=
  modify (set_cache (upd i (fun kv => (fst kv, v)))).

(* ===================================================================== *)
(** ** AudioLayer.cpp *)
(* ===================================================================== *)

Module AudioLayer.

Definition Initialize : M unit :=
  AudioEngine_Init ;;
  AudioEngine_LoadSound "AH.wav" false true true ;;
  AudioEngine_PlaySound "AH.wav".

Definition Shutdown : M unit :=
  AudioEngine_Shutdown.

Definition Update : M unit :=
  AudioEngine_Update.

End AudioLayer.

(* ===================================================================== *)
(** ** SceneBuildLayer.cpp *)
(* ===================================================================== *)

(** Assignments to the fields of the structs the code fills in. *)
Definition set_rb_ShaderReadable (v : bool) (d : RenderBufferDesc) :=
  {| rb_ShaderReadable := Some v; rb_Attachment := rb_Attachment d;
     rb_Format := rb_Format d |}.
Definition set_rb_Attachment (v : RenderTargetAttachment) (d : RenderBufferDesc) :=
  {| rb_ShaderReadable := rb_ShaderReadable d; rb_Attachment := Some v;
     rb_Format := rb_Format d |}.
Definition set_rb_Format (v : RenderTargetType) (d : RenderBufferDesc) :=
  {| rb_ShaderReadable := rb_ShaderReadable d; rb_Attachment := rb_Attachment d;
     rb_Format := Some v |}.

Definition set_sl_ShadowBuffer (v : Sptr) (l : ShadowLight) :=
  {| sl_ShadowBuffer := v; sl_Projection := sl_Projection l;
     sl_Attenuation := sl_Attenuation l; sl_Color := sl_Color l |}.
Definition set_sl_Projection (v : mat4) (l : ShadowLight) :=
  {| sl_ShadowBuffer := sl_ShadowBuffer l; sl_Projection := Some v;
     sl_Attenuation := sl_Attenuation l; sl_Color := sl_Color l |}.
Definition set_sl_Attenuation (v : fexpr) (l : ShadowLight) :=
  {| sl_ShadowBuffer := sl_ShadowBuffer l; sl_Projection := sl_Projection l;
     sl_Attenuation := Some v; sl_Color := sl_Color l |}.
Definition set_sl_Color (v : vec3) (l : ShadowLight) :=
  {| sl_ShadowBuffer := sl_ShadowBuffer l; sl_Projection := sl_Projection l;
     sl_Attenuation := sl_Attenuation l; sl_Color := Some v |}.

Definition set_rc_Mesh (v : Sptr) (r : RenderableComponent) :=
  {| rc_Mesh := v; rc_Material := rc_Material r |}.
Definition set_rc_Material (v : Sptr) (r : RenderableComponent) :=
  {| rc_Mesh := rc_Mesh r; rc_Material := v |}.

Definition set_cam_BackBuffer (v : Sptr) (c : CameraComponent) :=
  {| cam_BackBuffer := v; cam_FrontBuffer := cam_FrontBuffer c;
     cam_IsMainCamera := cam_IsMainCamera c; cam_Projection := cam_Projection c |}.
Definition set_cam_FrontBuffer (v : Sptr) (c : CameraComponent) :=
  {| cam_BackBuffer := cam_BackBuffer c; cam_FrontBuffer := v;
     cam_IsMainCamera := cam_IsMainCamera c; cam_Projection := cam_Projection c |}.
Definition set_cam_IsMainCamera (v : bool) (c : CameraComponent) :=
  {| cam_BackBuffer := cam_BackBuffer c; cam_FrontBuffer := cam_FrontBuffer c;
     cam_IsMainCamera := Some v; cam_Projection := cam_Projection c |}.
Definition set_cam_Projection (v : mat4) (c : CameraComponent) :=
  {| cam_BackBuffer := cam_BackBuffer c; cam_FrontBuffer := cam_FrontBuffer c;
     cam_IsMainCamera := cam_IsMainCamera c; cam_Projection := Some v |}.

Definition set_pl_Color (v : vec3) (l : PointLightComponent) :=
  {| pl_Color := Some v; pl_Attenuation := pl_Attenuation l |}.
Definition set_pl_Attenuation (v : fexpr) (l : PointLightComponent) :=
  {| pl_Color := pl_Color l; pl_Attenuation := Some v |}.

Definition set_td_Width (v : Z) (d : Texture2dDescription) :=
  {| td_Width := Some v; td_Height := td_Height d; td_Format := td_Format d;
     td_MagFilter := td_MagFilter d; td_MinFilter := td_MinFilter d;
     td_MipmapLevels := td_MipmapLevels d; td_WrapS := td_WrapS d;
     td_WrapT := td_WrapT d |}.
Definition set_td_Height (v : Z) (d : Texture2dDescription) :=
  {| td_Width := td_Width d; td_Height := Some v; td_Format := td_Format d;
     td_MagFilter := td_MagFilter d; td_MinFilter := td_MinFilter d;
     td_MipmapLevels := td_MipmapLevels d; td_WrapS := td_WrapS d;
     td_WrapT := td_WrapT d |}.
Definition set_td_Format (v : InternalFormat) (d : Texture2dDescription) :=
  {| td_Width := td_Width d; td_Height := td_Height d; td_Format := Some v;
     td_MagFilter := td_MagFilter d; td_MinFilter := td_MinFilter d;
     td_MipmapLevels := td_MipmapLevels d; td_WrapS := td_WrapS d;
     td_WrapT := td_WrapT d |}.
Definition set_td_MagFilter (v : MagFilter) (d : Texture2dDescription) :=
  {| td_Width := td_Width d; td_Height := td_Height d; td_Format := td_Format d;
     td_MagFilter := Some v; td_MinFilter := td_MinFilter d;
     td_MipmapLevels := td_MipmapLevels d; td_WrapS := td_WrapS d;
     td_WrapT := td_WrapT d |}.
Definition set_td_MinFilter (v : MinFilter) (d : Texture2dDescription) :=
  {| td_Width := td_Width d; td_Height := td_Height d; td_Format := td_Format d;
     td_MagFilter := td_MagFilter d; td_MinFilter := Some v;
     td_MipmapLevels := td_MipmapLevels d; td_WrapS := td_WrapS d;
     td_WrapT := td_WrapT d |}.
Definition set_td_MipmapLevels (v : Z) (d : Texture2dDescription) :=
  {| td_Width := td_Width d; td_Height := td_Height d; td_Format := td_Format d;
     td_MagFilter := td_MagFilter d; td_MinFilter := td_MinFilter d;
     td_MipmapLevels := Some v; td_WrapS := td_WrapS d; td_WrapT := td_WrapT d |}.
Definition set_td_WrapS (v : WrapMode) (d : Texture2dDescription) :=
  {| td_Width := td_Width d; td_Height := td_Height d; td_Format := td_Format d;
     td_MagFilter := td_MagFilter d; td_MinFilter := td_MinFilter d;
     td_MipmapLevels := td_MipmapLevels d; td_WrapS := Some v;
     td_WrapT := td_WrapT d |}.
Definition set_td_WrapT (v : WrapMode) (d : Texture2dDescription) :=
  {| td_Width := td_Width d; td_Height := td_Height d; td_Format := td_Format d;
     td_MagFilter := td_MagFilter d; td_MinFilter := td_MinFilter d;
     td_MipmapLevels := td_MipmapLevels d; td_WrapS := td_WrapS d;
     td_WrapT := Some v |}.

Definition set_tx_Width (v : Z) (d : Texture2dData) :=
  {| tx_Width := Some v; tx_Height := tx_Height d; tx_Format := tx_Format d;
     tx_Type := tx_Type d; tx_Data := tx_Data d |}.
Definition set_tx_Height (v : Z) (d : Texture2dData) :=
  {| tx_Width := tx_Width d; tx_Height := Some v; tx_Format := tx_Format d;
     tx_Type := tx_Type d; tx_Data := tx_Data d |}.
Definition set_tx_Format (v : PixelFormat) (d : Texture2dData) :=
  {| tx_Width := tx_Width d; tx_Height := tx_Height d; tx_Format := Some v;
     tx_Type := tx_Type d; tx_Data := tx_Data d |}.
Definition set_tx_Type (v : PixelType) (d : Texture2dData) :=
  {| tx_Width := tx_Width d; tx_Height := tx_Height d; tx_Format := tx_Format d;
     tx_Type := Some v; tx_Data := tx_Data d |}.
Definition set_tx_Data (v : color4) (d : Texture2dData) :=
  {| tx_Width := tx_Width d; tx_Height := tx_Height d; tx_Format := tx_Format d;
     tx_Type := tx_Type d; tx_Data := Some v |}.

(** Float literals of the source. *)
Definition lit (n : Z) : fexpr := FLit n 1.

(** [ShadowLight& CreateShadowCaster(scene, entityOut, pos, target, up,
    distance, fov, bufferSize, name)]; a null [entityOut] or [name] is
    [None]. *)
Definition CreateShadowCaster (scene : ptr) (entityOut : option ptr)
    (pos target up : vec3) (distance fov : fexpr) (bufferSize : Z * Z)
    (name : option string) : M Ref :=
  let depth := RenderBufferDesc_new in
  let depth := set_rb_ShaderReadable true depth in
  let depth := set_rb_Attachment Depth depth in
  let depth := set_rb_Format Depth32 depth in
  shadowBuffer <- make_shared_FrameBuffer (fst bufferSize) (snd bufferSize) None ;;
  FrameBuffer_AddAttachment shadowBuffer depth ;;
  FrameBuffer_Validate shadowBuffer ;;
  match name with
  | Some n => FrameBuffer_SetDebugName shadowBuffer n
  | None => ret tt
  end ;;
  entity <- Scene_CreateEntity scene ;;
  light <- Registry_assign ShadowLightC scene entity ;;
  write ShadowLightC light (set_sl_ShadowBuffer (Some shadowBuffer)) ;;
  write ShadowLightC light (set_sl_Projection
    (perspective (FRadians fov)
       (FDiv (FOfInt (fst bufferSize)) (FOfInt (snd bufferSize)))
       (FLit 25 100) distance)) ;;
  write ShadowLightC light (set_sl_Attenuation (FDiv (lit 1) distance)) ;;
  write ShadowLightC light (set_sl_Color (vec3_splat (lit 1))) ;;
  t <- Registry_get TransformC scene entity ;;
  Transform_SetPosition t pos ;;
  Transform_LookAt t target up ;;
  match entityOut with
  | Some p => store_entity p entity
  | None => ret tt
  end ;;
  ret light.

(** [Texture2D::Sptr CreateSolidTexture(glm::vec4 color)] *)
Definition CreateSolidTexture (color : color4) : M Sptr :=
  found <- cache_find color ;;
  match found with
  | Some _ =>
      i <- cache_index color ;;
      cache_load i
  | None =>
      let desc := Texture2dDescription_new in
      let desc := set_td_Height 1 desc in
      let desc := set_td_Width 1 desc in
      let desc := set_td_Format RGBA8 desc in
      let desc := set_td_MagFilter MagNearest desc in
      let desc := set_td_MinFilter MinNearest desc in
      let desc := set_td_MipmapLevels 1 desc in
      let desc := set_td_WrapT ClampToEdge desc in
      let desc := set_td_WrapS ClampToEdge desc in
      let data := Texture2dData_new in
      let data := set_tx_Height 1 data in
      let data := set_tx_Width 1 data in
      let data := set_tx_Format Rgba data in
      let data := set_tx_Type PixelFloat data in
      let data := set_tx_Data color data in
      result <- make_shared_Texture2D desc ;;
      Texture2D_SetData result data ;;
      i <- cache_index color ;;
      cache_store i (Some result) ;;
      ret (Some result)
  end.

(** [for (int i = i0; i < bound; i++) body]; [fuel] bounds the number of
    iterations. *)
Fixpoint for_int (fuel : nat) (i bound : Z) (body : Z -> M unit) : M unit :=
  match fuel with
  | O => ret tt
  | S fuel' =>
      if Z.ltb i bound
      then body i ;; for_int fuel' (i + 1)%Z bound body
      else ret tt
  end.

Module SceneBuilder.

Definition numMonkeys : Z := 6.
(** [glm::two_pi<float>() / numMonkeys] *)
Definition step : fexpr := FDiv FTwoPi (FOfInt numMonkeys).

(** The body of the loop over the point lights. *)
Definition point_light (scene : ptr) (i : Z) : M unit :=
  entity <- Scene_CreateEntity scene ;;
  light <- Registry_assign PointLightC scene entity ;;
  write PointLightC light (set_pl_Color
    (vec3_mul
       (vec3_div
          (FAdd (FSin (FMul (FOfInt (- i)) step)) (lit 1),
           FAdd (FCos (FMul (FOfInt (- i)) step)) (lit 1),
           FAdd (FSin (FAdd (FMul (FOfInt (- i)) step) FPi)) (lit 1))
          (lit 2))
       (FLit 1 10))) ;;
  write PointLightC light (set_pl_Attenuation (FDiv (lit 1) (lit 10))) ;;
  t <- Registry_get TransformC scene entity ;;
  Transform_SetPosition t
    (FMul (FCos (FMul step (FOfInt i))) (lit 20),
     lit 2,
     FMul (FSin (FMul step (FOfInt i))) (lit 20)) ;;
  Scene_AddBehaviour scene entity (LightFlickerBehaviour (lit 2) (FLit 6 10) (FLit 12 10)).

(** [SceneBuilder::Initialize].  Its locals go when it returns, and with
    them the objects nothing else owns; the heaps keep those objects, and
    [held_materials], [held_textures] and [held_shaders] below tell what a
    scene still leads to. *)
Definition Initialize : M unit :=
  Application_Get ;;

  scene <- SceneManager_RegisterScene "main" ;;
  SceneManager_SetCurrentScene "main" ;;

  data <- ObjLoader_LoadObj "paddle.obj" (vec4_splat (lit 1)) ;;
  data2 <- ObjLoader_LoadObj "ball.obj" (vec4_splat (lit 1)) ;;

  shader <- make_shared_Shader ;;
  Shader_LoadPart shader VertexShader "shaders/lighting.vs.glsl" ;;
  Shader_LoadPart shader FragmentShader "shaders/forward.fs.glsl" ;;
  Shader_Link shader ;;

  emissiveShader <- make_shared_Shader ;;
  Shader_LoadPart emissiveShader VertexShader "shaders/lighting.vs.glsl" ;;
  Shader_LoadPart emissiveShader FragmentShader "shaders/forward-emissive.fs.glsl" ;;
  Shader_Link emissiveShader ;;

  monkeyMat <- make_shared_Material emissiveShader ;;
  tex <- Texture2D_LoadFromFile "matrix.png" false true true ;;
  Material_Set monkeyMat "s_Albedo" (MTexture (Some tex)) ;;
  tex <- Texture2D_LoadFromFile "monkey_emissive.png" false true true ;;
  Material_Set monkeyMat "s_Emissive" (MTexture (Some tex)) ;;
  Material_Set monkeyMat "a_EmissiveStrength" (MFloat (lit 4)) ;;

  paddleMat <- make_shared_Material emissiveShader ;;
  tex <- Texture2D_LoadFromFile "marble.png" false true true ;;
  Material_Set paddleMat "s_Albedo" (MTexture (Some tex)) ;;
  tex <- Texture2D_LoadFromFile "monkey_emissive.png" false true true ;;
  Material_Set paddleMat "s_Emissive" (MTexture (Some tex)) ;;
  Material_Set paddleMat "a_EmissiveStrength" (MFloat (lit 10)) ;;

  marbleMat <- make_shared_Material shader ;;
  tex <- Texture2D_LoadFromFile "marble.png" false true true ;;
  Material_Set marbleMat "s_Albedo" (MTexture (Some tex)) ;;

  mat2 <- make_shared_Material emissiveShader ;;
  tex <- Texture2D_LoadFromFile "polka.png" false true true ;;
  Material_Set mat2 "s_Albedo" (MTexture (Some tex)) ;;
  tex <- Texture2D_LoadFromFile "polka.png" false true true ;;
  Material_Set mat2 "s_Emissive" (MTexture (Some tex)) ;;
  Material_Set mat2 "a_EmissiveStrength" (MFloat (lit 1)) ;;

  (* The central monkey *)
  test <- Scene_CreateEntity scene ;;
  renderable <- Registry_assign RenderableC scene test ;;
  mesh <- MeshBuilder_Bake data2 ;;
  write RenderableC renderable (set_rc_Mesh (Some mesh)) ;;
  write RenderableC renderable (set_rc_Material (Some paddleMat)) ;;
  _ <- Registry_get TransformC scene test ;;
  Scene_AddBehaviour scene test (ControlBehaviour (vec3_splat (lit 1))) ;;

  (* The central monkey 2 *)
  test <- Scene_CreateEntity scene ;;
  renderable <- Registry_assign RenderableC scene test ;;
  mesh <- MeshBuilder_Bake data ;;
  write RenderableC renderable (set_rc_Mesh (Some mesh)) ;;
  write RenderableC renderable (set_rc_Material (Some monkeyMat)) ;;
  _ <- Registry_get TransformC scene test ;;
  Scene_AddBehaviour scene test (RotateBehaviour (lit 45, lit 45, lit 45)) ;;
  Scene_AddBehaviour scene test RandomBehaviour ;;

  (* The central monkey 3 *)
  test <- Scene_CreateEntity scene ;;
  renderable <- Registry_assign RenderableC scene test ;;
  mesh <- MeshBuilder_Bake data ;;
  write RenderableC renderable (set_rc_Mesh (Some mesh)) ;;
  write RenderableC renderable (set_rc_Material (Some monkeyMat)) ;;
  _ <- Registry_get TransformC scene test ;;
  Scene_AddBehaviour scene test (RotateBehaviour (lit (-45), lit (-45), lit (-45))) ;;
  Scene_AddBehaviour scene test RandomBehaviour ;;

  (* Creates our main camera *)
  let mainColor := RenderBufferDesc_new in
  let mainColor := set_rb_ShaderReadable true mainColor in
  let mainColor := set_rb_Attachment Color0 mainColor in
  let mainColor := set_rb_Format ColorRgb8 mainColor in

  let normalBuffer := RenderBufferDesc_new in
  let normalBuffer := set_rb_ShaderReadable true normalBuffer in
  let normalBuffer := set_rb_Attachment Color1 normalBuffer in
  let normalBuffer := set_rb_Format ColorRgb10 normalBuffer in

  let emissiveBuffer := RenderBufferDesc_new in
  let emissiveBuffer := set_rb_ShaderReadable true emissiveBuffer in
  let emissiveBuffer := set_rb_Attachment Color2 emissiveBuffer in
  let emissiveBuffer := set_rb_Format ColorRgb10 emissiveBuffer in

  let depth := RenderBufferDesc_new in
  let depth := set_rb_ShaderReadable true depth in
  let depth := set_rb_Attachment Depth depth in
  let depth := set_rb_Format Depth32 depth in

  (* the arguments of the constructor, whose order of evaluation C++ leaves
     open, from left to right *)
  Application_GetWindow ;;
  width <- Window_GetWidth ;;
  Application_GetWindow ;;
  height <- Window_GetHeight ;;
  buffer <- make_shared_FrameBuffer width height (Some 4%Z) ;;
  FrameBuffer_AddAttachment buffer mainColor ;;
  FrameBuffer_AddAttachment buffer normalBuffer ;;
  FrameBuffer_AddAttachment buffer emissiveBuffer ;;
  FrameBuffer_AddAttachment buffer depth ;;
  FrameBuffer_Validate buffer ;;
  FrameBuffer_SetDebugName buffer "MainBuffer" ;;

  camera <- Scene_CreateEntity scene ;;
  cam <- Registry_assign CameraC scene camera ;;
  write CameraC cam (set_cam_BackBuffer (Some buffer)) ;;
  front <- FrameBuffer_Clone buffer ;;
  write CameraC cam (set_cam_FrontBuffer (Some front)) ;;
  write CameraC cam (set_cam_IsMainCamera true) ;;
  write CameraC cam (set_cam_Projection
    (perspective (FRadians (lit 60)) (lit 1) (FLit 1 10) (lit 1000))) ;;

  camTransform <- Registry_get TransformC scene camera ;;
  Transform_SetPosition camTransform (lit 0, lit 10, lit 5) ;;
  Transform_LookAt camTransform (FOfInt 0, FOfInt 0, FOfInt 0) (FOfInt 0, FOfInt 1, FOfInt 0) ;;

  _ <- Registry_assign RenderableC scene camera ;;

  for_int (Z.to_nat (1 - 0)) 0 1 (point_light scene).

End SceneBuilder.

(* ===================================================================== *)
(** ** Worlds to run the code in *)
(* ===================================================================== *)

(** No call throws. *)
Definition no_faults (w : World) : Prop := faults w = [].

(** A world just started: nothing allocated, a window of the given size. *)
Definition start (fs : list (nat * Exception)) (win : Z * Z) : World :=
  {| log := []; faults := fs; window := win;
     framebuffers := []; shaders := []; materials := []; textures := [];
     meshes := []; scenes := []; scene_names := []; current_scene := None;
     cache := []; cells := [] |}.

(* ===================================================================== *)
(** ** Reading a scene *)
(* ===================================================================== *)

(** The object an [Sptr] designates. *)
Definition deref {T} (heap : list T) (p : Sptr) : option T :=
  match p with
  | Some i => nth_error heap i
  | None => None
  end.

(** The scene registered under [name]. *)
Definition scene_named (name : string) (w : World) : option Scene :=
  deref (scenes w) (lookup_name name (scene_names w)).

(** The entities of a registry that carry a component of type [C], with
    that component, in the order of the registry. *)
Fixpoint carrying_from {T} (C : Component T) (i : entity) (l : list Entity)
    : list (entity * T) :=
  match l with
  | [] => []
  | en :: l' =>
      match cget C en with
      | Some c => (i, c) :: carrying_from C (S i) l'
      | None => carrying_from C (S i) l'
      end
  end.

Definition carrying {T} (C : Component T) (sc : Scene) : list (entity * T) :=
  carrying_from C 0 (entities sc).

(** An entity carries a light: a [PointLightComponent] or a [ShadowLight]. *)
Definition is_light (en : Entity) : bool :=
  match e_pointlight en, e_shadowlight en with
  | None, None => false
  | _, _ => true
  end.

(** The mesh data an entity renders, through its [RenderableComponent]. *)
Definition mesh_of (w : World) (en : Entity) : option MeshData :=
  match e_renderable en with
  | Some r => option_map mesh_data (deref (meshes w) (rc_Mesh r))
  | None => None
  end.

(** *** The configuration of a scene: its entities with every pointer
    replaced by the object it designates. *)

Inductive ValueConfig : Type :=
| VTexture (t : option Texture2D)
| VFloat (v : fexpr).

Record MaterialConfig := {
  mc_shader : option Shader;
  mc_values : list (string * ValueConfig)
}.

Record RenderableConfig := {
  rcf_mesh : option Mesh;
  rcf_material : option MaterialConfig
}.

Record CameraConfig := {
  cc_back : option FrameBuffer;
  cc_front : option FrameBuffer;
  cc_main : option bool;
  cc_projection : option mat4
}.

Record ShadowLightConfig := {
  slc_buffer : option FrameBuffer;
  slc_projection : option mat4;
  slc_attenuation : option fexpr;
  slc_color : option vec3
}.

Record EntityConfig := {
  ec_transform : option Transform;
  ec_renderable : option RenderableConfig;
  ec_camera : option CameraConfig;
  ec_pointlight : option PointLightComponent;
  ec_shadowlight : option ShadowLightConfig;
  ec_behaviours : list Behaviour
}.

Definition value_config (w : World) (v : MaterialValue) : ValueConfig :=
  match v with
  | MTexture t => VTexture (deref (textures w) t)
  | MFloat x => VFloat x
  end.

Definition material_config (w : World) (m : Material) : MaterialConfig :=
  {| mc_shader := deref (shaders w) (mat_shader m);
     mc_values := map (fun nv => (fst nv, value_config w (snd nv))) (mat_values m) |}.

Definition renderable_config (w : World) (r : RenderableComponent) : RenderableConfig :=
  {| rcf_mesh := deref (meshes w) (rc_Mesh r);
     rcf_material := option_map (material_config w) (deref (materials w) (rc_Material r)) |}.

Definition camera_config (w : World) (c : CameraComponent) : CameraConfig :=
  {| cc_back := deref (framebuffers w) (cam_BackBuffer c);
     cc_front := deref (framebuffers w) (cam_FrontBuffer c);
     cc_main := cam_IsMainCamera c;
     cc_projection := cam_Projection c |}.

Definition shadowlight_config (w : World) (l : ShadowLight) : ShadowLightConfig :=
  {| slc_buffer := deref (framebuffers w) (sl_ShadowBuffer l);
     slc_projection := sl_Projection l;
     slc_attenuation := sl_Attenuation l;
     slc_color := sl_Color l |}.

Definition entity_config (w : World) (en : Entity) : EntityConfig :=
  {| ec_transform := e_transform en;
     ec_renderable := option_map (renderable_config w) (e_renderable en);
     ec_camera := option_map (camera_config w) (e_camera en);
     ec_pointlight := e_pointlight en;
     ec_shadowlight := option_map (shadowlight_config w) (e_shadowlight en);
     ec_behaviours := e_behaviours en |}.

Definition scene_config (name : string) (w : World) : option (list EntityConfig) :=
  option_map (fun sc => map (entity_config w) (entities sc)) (scene_named name w).

(** *** What a run supplies to the engine

    Everything a run from [w] to [w'] has configured: the scene "main" and
    every framebuffer, shader, material, texture and mesh made during the
    run, attached to an entity or not, each with the values the run gave
    it, a pointer being replaced by the object it designates. *)
Record Supplied := {
  su_scene : option (list EntityConfig);
  su_framebuffers : list FrameBuffer;
  su_shaders : list Shader;
  su_materials : list MaterialConfig;
  su_textures : list Texture2D;
  su_meshes : list Mesh
}.

Definition supplied (w w' : World) : Supplied :=
  {| su_scene := scene_config "main" w';
     su_framebuffers := skipn (length (framebuffers w)) (framebuffers w');
     su_shaders := skipn (length (shaders w)) (shaders w');
     su_materials :=
       map (material_config w') (skipn (length (materials w)) (materials w'));
     su_textures := skipn (length (textures w)) (textures w');
     su_meshes := skipn (length (meshes w)) (meshes w') |}.

(** A framebuffer, and a configuration, with the width and the height of
    every framebuffer replaced by those of [win]; nothing else changes. *)
Definition resized (win : Z * Z) (fb : FrameBuffer) : FrameBuffer :=
  {| fb_width := fst win; fb_height := snd win; fb_samples := fb_samples fb;
     fb_attachments := fb_attachments fb; fb_validated := fb_validated fb;
     fb_name := fb_name fb |}.

Definition resized_camera (win : Z * Z) (c : CameraConfig) : CameraConfig :=
  {| cc_back := option_map (resized win) (cc_back c);
     cc_front := option_map (resized win) (cc_front c);
     cc_main := cc_main c;
     cc_projection := cc_projection c |}.

Definition resized_shadowlight (win : Z * Z) (l : ShadowLightConfig) : ShadowLightConfig :=
  {| slc_buffer := option_map (resized win) (slc_buffer l);
     slc_projection := slc_projection l;
     slc_attenuation := slc_attenuation l;
     slc_color := slc_color l |}.

Definition resized_entity (win : Z * Z) (e : EntityConfig) : EntityConfig :=
  {| ec_transform := ec_transform e;
     ec_renderable := ec_renderable e;
     ec_camera := option_map (resized_camera win) (ec_camera e);
     ec_pointlight := ec_pointlight e;
     ec_shadowlight := option_map (resized_shadowlight win) (ec_shadowlight e);
     ec_behaviours := ec_behaviours e |}.

Definition with_size (win : Z * Z) (s : Supplied) : Supplied :=
  {| su_scene := option_map (map (resized_entity win)) (su_scene s);
     su_framebuffers := map (resized win) (su_framebuffers s);
     su_shaders := su_shaders s;
     su_materials := su_materials s;
     su_textures := su_textures s;
     su_meshes := su_meshes s |}.

(** The back and the front buffer of every camera of a configuration. *)
Definition camera_buffers (c : option (list EntityConfig)) : list (option FrameBuffer) :=
  match c with
  | Some l =>
      flat_map (fun e => match ec_camera e with
                         | Some k => [cc_back k; cc_front k]
                         | None => []
                         end) l
  | None => []
  end.

(** The calls that create an entity, a mesh, a material or a light. *)
Definition creates (c : Ev.Call) : bool :=
  match c with
  | Ev.Scene_CreateEntity _ => true
  | Ev.ObjLoader_LoadObj _ _ => true
  | Ev.MeshBuilder_Bake _ => true
  | Ev.make_shared_Material _ => true
  | Ev.Registry_assign _ KPointLight _ => true
  | Ev.Registry_assign _ KShadowLight _ => true
  | _ => false
  end.

(* ===================================================================== *)
(** ** What [SceneBuilder::Initialize] leaves behind *)
(* ===================================================================== *)

(** The world after a run of [SceneBuilder::Initialize] in which no call
    throws, in terms of the world before: [s], [sh], [mt], [tx], [ms], [fb]
    are the first free indices of the heaps of scenes, shaders, materials,
    textures, meshes and framebuffers. *)
Module Expected.

Definition white : vec4 := vec4_splat (lit 1).
Definition paddle : MeshData := {| md_file := "paddle.obj"; md_color := white |}.
Definition ball : MeshData := {| md_file := "ball.obj"; md_color := white |}.

Definition attachment (a : RenderTargetAttachment) (t : RenderTargetType) : RenderBufferDesc :=
  {| rb_ShaderReadable := Some true; rb_Attachment := Some a; rb_Format := Some t |}.

Definition attachments : list RenderBufferDesc :=
  [attachment Color0 ColorRgb8; attachment Color1 ColorRgb10;
   attachment Color2 ColorRgb10; attachment Depth Depth32].

Definition light_color : vec3 :=
  (FMul (FDiv (FAdd (FSin (FMul (FOfInt 0) SceneBuilder.step)) (lit 1)) (lit 2)) (FLit 1 10),
   FMul (FDiv (FAdd (FCos (FMul (FOfInt 0) SceneBuilder.step)) (lit 1)) (lit 2)) (FLit 1 10),
   FMul (FDiv (FAdd (FSin (FAdd (FMul (FOfInt 0) SceneBuilder.step) FPi)) (lit 1)) (lit 2))
     (FLit 1 10)).

Definition light_position : vec3 :=
  (FMul (FCos (FMul SceneBuilder.step (FOfInt 0))) (lit 20),
   lit 2,
   FMul (FSin (FMul SceneBuilder.step (FOfInt 0))) (lit 20)).

Definition flicker : Behaviour := LightFlickerBehaviour (lit 2) (FLit 6 10) (FLit 12 10).

Definition origin : vec3 := (FOfInt 0, FOfInt 0, FOfInt 0).
Definition up : vec3 := (FOfInt 0, FOfInt 1, FOfInt 0).

Definition trace (s sh mt tx ms fb : ptr) (win : Z * Z) : list Ev.Call :=
  [ Ev.Application_Get;
    Ev.SceneManager_RegisterScene "main";
    Ev.SceneManager_SetCurrentScene "main";
    Ev.ObjLoader_LoadObj "paddle.obj" white;
    Ev.ObjLoader_LoadObj "ball.obj" white;
    Ev.make_shared_Shader;
    Ev.Shader_LoadPart sh VertexShader "shaders/lighting.vs.glsl";
    Ev.Shader_LoadPart sh FragmentShader "shaders/forward.fs.glsl";
    Ev.Shader_Link sh;
    Ev.make_shared_Shader;
    Ev.Shader_LoadPart (sh + 1) VertexShader "shaders/lighting.vs.glsl";
    Ev.Shader_LoadPart (sh + 1) FragmentShader "shaders/forward-emissive.fs.glsl";
    Ev.Shader_Link (sh + 1);
    Ev.make_shared_Material (sh + 1);
    Ev.Texture2D_LoadFromFile "matrix.png" false true true;
    Ev.Material_Set mt "s_Albedo" (MTexture (Some tx));
    Ev.Texture2D_LoadFromFile "monkey_emissive.png" false true true;
    Ev.Material_Set mt "s_Emissive" (MTexture (Some (tx + 1)));
    Ev.Material_Set mt "a_EmissiveStrength" (MFloat (lit 4));
    Ev.make_shared_Material (sh + 1);
    Ev.Texture2D_LoadFromFile "marble.png" false true true;
    Ev.Material_Set (mt + 1) "s_Albedo" (MTexture (Some (tx + 2)));
    Ev.Texture2D_LoadFromFile "monkey_emissive.png" false true true;
    Ev.Material_Set (mt + 1) "s_Emissive" (MTexture (Some (tx + 3)));
    Ev.Material_Set (mt + 1) "a_EmissiveStrength" (MFloat (lit 10));
    Ev.make_shared_Material sh;
    Ev.Texture2D_LoadFromFile "marble.png" false true true;
    Ev.Material_Set (mt + 2) "s_Albedo" (MTexture (Some (tx + 4)));
    Ev.make_shared_Material (sh + 1);
    Ev.Texture2D_LoadFromFile "polka.png" false true true;
    Ev.Material_Set (mt + 3) "s_Albedo" (MTexture (Some (tx + 5)));
    Ev.Texture2D_LoadFromFile "polka.png" false true true;
    Ev.Material_Set (mt + 3) "s_Emissive" (MTexture (Some (tx + 6)));
    Ev.Material_Set (mt + 3) "a_EmissiveStrength" (MFloat (lit 1));
    Ev.Scene_CreateEntity s;
    Ev.Registry_assign s KRenderable 0;
    Ev.MeshBuilder_Bake ball;
    Ev.Registry_get s KTransform 0;
    Ev.Scene_AddBehaviour s 0 (ControlBehaviour (vec3_splat (lit 1)));
    Ev.Scene_CreateEntity s;
    Ev.Registry_assign s KRenderable 1;
    Ev.MeshBuilder_Bake paddle;
    Ev.Registry_get s KTransform 1;
    Ev.Scene_AddBehaviour s 1 (RotateBehaviour (lit 45, lit 45, lit 45));
    Ev.Scene_AddBehaviour s 1 RandomBehaviour;
    Ev.Scene_CreateEntity s;
    Ev.Registry_assign s KRenderable 2;
    Ev.MeshBuilder_Bake paddle;
    Ev.Registry_get s KTransform 2;
    Ev.Scene_AddBehaviour s 2 (RotateBehaviour (lit (-45), lit (-45), lit (-45)));
    Ev.Scene_AddBehaviour s 2 RandomBehaviour;
    Ev.Application_GetWindow;
    Ev.Window_GetWidth;
    Ev.Application_GetWindow;
    Ev.Window_GetHeight;
    Ev.make_shared_FrameBuffer (fst win) (snd win) (Some 4%Z);
    Ev.FrameBuffer_AddAttachment fb (attachment Color0 ColorRgb8);
    Ev.FrameBuffer_AddAttachment fb (attachment Color1 ColorRgb10);
    Ev.FrameBuffer_AddAttachment fb (attachment Color2 ColorRgb10);
    Ev.FrameBuffer_AddAttachment fb (attachment Depth Depth32);
    Ev.FrameBuffer_Validate fb;
    Ev.FrameBuffer_SetDebugName fb "MainBuffer";
    Ev.Scene_CreateEntity s;
    Ev.Registry_assign s KCamera 3;
    Ev.FrameBuffer_Clone fb;
    Ev.Registry_get s KTransform 3;
    Ev.Transform_SetPosition s 3 (lit 0, lit 10, lit 5);
    Ev.Transform_LookAt s 3 origin up;
    Ev.Registry_assign s KRenderable 3;
    Ev.Scene_CreateEntity s;
    Ev.Registry_assign s KPointLight 4;
    Ev.Registry_get s KTransform 4;
    Ev.Transform_SetPosition s 4 light_position;
    Ev.Scene_AddBehaviour s 4 flicker ].

Definition main_buffer (win : Z * Z) (name : option string) : FrameBuffer :=
  {| fb_width := fst win; fb_height := snd win; fb_samples := Some 4%Z;
     fb_attachments := attachments; fb_validated := true; fb_name := name |}.

Definition new_framebuffers (win : Z * Z) : list FrameBuffer :=
  [main_buffer win (Some "MainBuffer"); main_buffer win None].

Definition new_shaders : list Shader :=
  [ {| sh_parts := [(VertexShader, "shaders/lighting.vs.glsl");
                    (FragmentShader, "shaders/forward.fs.glsl")];
       sh_linked := true |};
    {| sh_parts := [(VertexShader, "shaders/lighting.vs.glsl");
                    (FragmentShader, "shaders/forward-emissive.fs.glsl")];
       sh_linked := true |} ].

Definition new_materials (sh tx : ptr) : list Material :=
  [ {| mat_shader := Some (sh + 1);
       mat_values := [("s_Albedo", MTexture (Some tx));
                      ("s_Emissive", MTexture (Some (tx + 1)));
                      ("a_EmissiveStrength", MFloat (lit 4))] |};
    {| mat_shader := Some (sh + 1);
       mat_values := [("s_Albedo", MTexture (Some (tx + 2)));
                      ("s_Emissive", MTexture (Some (tx + 3)));
                      ("a_EmissiveStrength", MFloat (lit 10))] |};
    {| mat_shader := Some sh;
       mat_values := [("s_Albedo", MTexture (Some (tx + 4)))] |};
    {| mat_shader := Some (sh + 1);
       mat_values := [("s_Albedo", MTexture (Some (tx + 5)));
                      ("s_Emissive", MTexture (Some (tx + 6)));
                      ("a_EmissiveStrength", MFloat (lit 1))] |} ].

Definition from_file (file : string) : Texture2D :=
  {| tex_file := Some (file, false, true, true); tex_desc := None; tex_data := None |}.

Definition new_textures : list Texture2D :=
  [ from_file "matrix.png"; from_file "monkey_emissive.png"; from_file "marble.png";
    from_file "monkey_emissive.png"; from_file "marble.png"; from_file "polka.png";
    from_file "polka.png" ].

Definition new_meshes : list Mesh :=
  [ {| mesh_data := ball |}; {| mesh_data := paddle |}; {| mesh_data := paddle |} ].

Definition plain : Transform := {| tr_position := None; tr_look_at := None |}.

Definition rendered (mesh material : ptr) (bs : list Behaviour) : Entity :=
  {| e_transform := Some plain;
     e_renderable := Some {| rc_Mesh := Some mesh; rc_Material := Some material |};
     e_camera := None; e_pointlight := None; e_shadowlight := None;
     e_behaviours := bs |}.

Definition main_camera (fb : ptr) : CameraComponent :=
  {| cam_BackBuffer := Some fb; cam_FrontBuffer := Some (fb + 1);
     cam_IsMainCamera := Some true;
     cam_Projection :=
       Some (perspective (FRadians (lit 60)) (lit 1) (FLit 1 10) (lit 1000)) |}.

Definition main_scene (mt ms fb : ptr) : Scene :=
  {| entities :=
     [ rendered ms (mt + 1) [ControlBehaviour (vec3_splat (lit 1))];
       rendered (ms + 1) mt [RotateBehaviour (lit 45, lit 45, lit 45); RandomBehaviour];
       rendered (ms + 2) mt
         [RotateBehaviour (lit (-45), lit (-45), lit (-45)); RandomBehaviour];
       {| e_transform :=
            Some {| tr_position := Some (lit 0, lit 10, lit 5);
                    tr_look_at := Some (origin, up) |};
          e_renderable := Some {| rc_Mesh := None; rc_Material := None |};
          e_camera := Some (main_camera fb);
          e_pointlight := None; e_shadowlight := None; e_behaviours := [] |};
       {| e_transform :=
            Some {| tr_position := Some light_position; tr_look_at := None |};
          e_renderable := None; e_camera := None;
          e_pointlight :=
            Some {| pl_Color := Some light_color;
                    pl_Attenuation := Some (FDiv (lit 1) (lit 10)) |};
          e_shadowlight := None;
          e_behaviours := [flicker] |} ] |}.

Definition world (w : World) : World :=
  let s := length (scenes w) in
  let sh := length (shaders w) in
  let mt := length (materials w) in
  let tx := length (textures w) in
  let ms := length (meshes w) in
  let fb := length (framebuffers w) in
  {| log := rev (trace s sh mt tx ms fb (window w)) ++ log w;
     faults := faults w;
     window := window w;
     framebuffers := framebuffers w ++ new_framebuffers (window w);
     shaders := shaders w ++ new_shaders;
     materials := materials w ++ new_materials sh tx;
     textures := textures w ++ new_textures;
     meshes := meshes w ++ new_meshes;
     scenes := scenes w ++ [main_scene mt ms fb];
     scene_names := ("main", s) :: scene_names w;
     current_scene := Some s;
     cache := cache w;
     cells := cells w |}.

End Expected.

(* ===================================================================== *)
(** ** Exceptions and the calls of a run *)
(* ===================================================================== *)

(** Position [i] is that of a call made between [w] and [w']. *)
Definition made (w w' : World) (i : nat) : Prop :=
  length (log w) <= i < length (log w').

(** [m] handles no exception: a call of [m] that throws ends [m] at once
    with what it threw, and [m] ends with an exception only when one of
    its calls threw it. *)
Definition propagates {A} (m : M A) : Prop :=
  forall w : World,
    (forall i e, made w (snd (m w)) i -> fault_at (faults w) i = Some e ->
       thrown (fst (m w)) = Some e /\ S i = length (log (snd (m w)))) /\
    (forall e, thrown (fst (m w)) = Some e ->
       exists i, made w (snd (m w)) i /\ fault_at (faults w) i = Some e).

(** The invariant behind [propagates], closed under [bind]: the faults are
    left alone, the log only grows, and of the calls made only the last
    can have thrown, which it did exactly when the run ended with that
    exception. *)
Definition transparent {A} (m : M A) : Prop :=
  forall w r w', m w = (r, w') ->
    faults w' = faults w /\
    (exists tr, log w' = tr ++ log w /\ (thrown r <> None -> tr <> [])) /\
    (forall i, made w w' i ->
       fault_at (faults w) i =
       if Nat.eqb (S i) (length (log w')) then thrown r else None).

(** [m] makes no call and throws nothing. *)
Definition silent {A} (m : M A) : Prop :=
  forall w,
    log (snd (m w)) = log w /\ faults (snd (m w)) = faults w /\
    thrown (fst (m w)) = None.

(** A world in which the second call made throws. *)
Definition missing_file : Exception := EngineError "file not found".
Definition second_call_throws : World := start [(1, missing_file)] (800, 600)%Z.

(** A color with a NaN component. *)
Definition nan_color : color4 :=
  (S754_nan, S754_zero false, S754_zero false, S754_zero false).

(** Opaque red, [glm::vec4(1.0f, 0.0f, 0.0f, 1.0f)]. *)
Definition one : float := S754_finite false 8388608 (-23).
Definition red : color4 := (one, S754_zero false, S754_zero false, one).

(** A caller of [CreateShadowCaster]: one scene, one [entt::entity]
    variable to receive the entity. *)
Definition one_scene : World :=
  {| log := []; faults := []; window := (800, 600)%Z;
     framebuffers := []; shaders := []; materials := []; textures := [];
     meshes := []; scenes := [ {| entities := [] |} ];
     scene_names := [("main", 0)]; current_scene := Some 0;
     cache := []; cells := [7] |}.

(** [p] is null or points to an [entt::entity] of the caller. *)
Definition valid_out (w : World) (p : option ptr) : Prop :=
  match p with
  | Some i => i < length (cells w)
  | None => True
  end.

(* ===================================================================== *)
(** ** What the two helpers leave behind *)
(* ===================================================================== *)

(** The texture [CreateSolidTexture] makes for a color, and the world after
    a call that finds the color in the cache or does not. *)
Definition solid_desc : Texture2dDescription :=
  {| td_Width := Some 1%Z; td_Height := Some 1%Z; td_Format := Some RGBA8;
     td_MagFilter := Some MagNearest; td_MinFilter := Some MinNearest;
     td_MipmapLevels := Some 1%Z;
     td_WrapS := Some ClampToEdge; td_WrapT := Some ClampToEdge |}.

Definition solid_data (c : color4) : Texture2dData :=
  {| tx_Width := Some 1%Z; tx_Height := Some 1%Z; tx_Format := Some Rgba;
     tx_Type := Some PixelFloat; tx_Data := Some c |}.

Definition solid_texture (c : color4) : Texture2D :=
  {| tex_file := None; tex_desc := Some solid_desc; tex_data := Some (solid_data c) |}.

Definition after_hit (c : color4) (w : World) : World :=
  set_log (fun l => Ev.unordered_map_index c :: Ev.unordered_map_find c :: l) w.

Definition after_miss (c : color4) (w : World) : World :=
  set_cache (fun m => m ++ [(c, Some (length (textures w)))])
    (set_textures (fun h => h ++ [solid_texture c])
       (set_log (fun l =>
          Ev.unordered_map_index c
          :: Ev.Texture2D_SetData (length (textures w)) (solid_data c)
          :: Ev.make_shared_Texture2D solid_desc
          :: Ev.unordered_map_find c :: l) w)).

(** The light and the entity [CreateShadowCaster] makes, [fb] being the
    shadow buffer, and the calls it makes. *)
Definition shadow_light (fb : ptr) (distance fov : fexpr) (bufferSize : Z * Z) : ShadowLight :=
  {| sl_ShadowBuffer := Some fb;
     sl_Projection :=
       Some (perspective (FRadians fov)
               (FDiv (FOfInt (fst bufferSize)) (FOfInt (snd bufferSize)))
               (FLit 25 100) distance);
     sl_Attenuation := Some (FDiv (lit 1) distance);
     sl_Color := Some (vec3_splat (lit 1)) |}.

Definition shadow_caster (fb : ptr) (pos target up : vec3) (distance fov : fexpr)
    (bufferSize : Z * Z) : Entity :=
  {| e_transform := Some {| tr_position := Some pos; tr_look_at := Some (target, up) |};
     e_renderable := None; e_camera := None; e_pointlight := None;
     e_shadowlight := Some (shadow_light fb distance fov bufferSize);
     e_behaviours := [] |}.

Definition shadow_caster_trace (scene : ptr) (e : entity) (fb : ptr)
    (pos target up : vec3) (bufferSize : Z * Z) (name : option string) : list Ev.Call :=
  [ Ev.make_shared_FrameBuffer (fst bufferSize) (snd bufferSize) None;
    Ev.FrameBuffer_AddAttachment fb (Expected.attachment Depth Depth32);
    Ev.FrameBuffer_Validate fb ] ++
  match name with
  | Some n => [Ev.FrameBuffer_SetDebugName fb n]
  | None => []
  end ++
  [ Ev.Scene_CreateEntity scene;
    Ev.Registry_assign scene KShadowLight e;
    Ev.Registry_get scene KTransform e;
    Ev.Transform_SetPosition scene e pos;
    Ev.Transform_LookAt scene e target up ].

(** The width of the back buffer of the first camera of a configuration. *)
Definition back_buffer_width (c : option (list EntityConfig)) : option Z :=
  match c with
  | Some l =>
      match flat_map (fun e => match ec_camera e with Some k => [k] | None => [] end) l with
      | k :: _ => option_map fb_width (cc_back k)
      | [] => None
      end
  | None => None
  end.


(* ===================================================================== *)
(** ** Sequences of calls, frames and invariants *)
(* ===================================================================== *)

(** The callers of the six functions are not among the sources: the
    sequences below ([times], [session], [each]) only put calls of the
    functions one after the other. *)

(** The same world with other faults. *)
Definition set_faults (fs : list (nat * Exception)) (w : World) : World :=
  {| log := log w; faults := fs; window := window w;
     framebuffers := framebuffers w; shaders := shaders w;
     materials := materials w; textures := textures w; meshes := meshes w;
     scenes := scenes w; scene_names := scene_names w;
     current_scene := current_scene w; cache := cache w; cells := cells w |}.

(** [m], [n] times in a row. *)
Fixpoint times (n : nat) (m : M unit) : M unit :=
  match n with
  | O => ret tt
  | S n' => m ;; times n' m
  end.

(** The three functions of the audio layer one after the other:
    [Initialize], [Update] [frames] times, [Shutdown]. *)
Definition session (frames : nat) : M unit :=
  AudioLayer.Initialize ;;
  times frames AudioLayer.Update ;;
  AudioLayer.Shutdown.

(** One call of [f] after the other, on the elements of [l]. *)
Fixpoint each {A B} (f : A -> M B) (l : list A) : M (list B) :=
  match l with
  | [] => ret []
  | x :: l' =>
      y <- f x ;;
      ys <- each f l' ;;
      ret (y :: ys)
  end.

(** Every pointer in the cache is non-null and designates a texture. *)
Definition cache_ok (w : World) : Prop :=
  forall k v, In (k, v) (cache w) ->
    exists t, v = Some t /\ t < length (textures w).

(** Black, with a positive and with a negative zero for red. *)
Definition black : color4 :=
  (S754_zero false, S754_zero false, S754_zero false, one).
Definition black_negative_zero : color4 :=
  (S754_zero true, S754_zero false, S754_zero false, one).

(** The shadow buffer [CreateShadowCaster] makes, and the world after a
    call in which nothing throws. *)
Definition shadow_buffer (bufferSize : Z * Z) (name : option string) : FrameBuffer :=
  {| fb_width := fst bufferSize; fb_height := snd bufferSize; fb_samples := None;
     fb_attachments :=
       [ {| rb_ShaderReadable := Some true; rb_Attachment := Some Depth;
            rb_Format := Some Depth32 |} ];
     fb_validated := true; fb_name := name |}.

Definition after_shadow_caster (scene : ptr) (entityOut : option ptr)
    (pos target up : vec3) (distance fov : fexpr) (bufferSize : Z * Z)
    (name : option string) (sc : Scene) (w : World) : World :=
  {| log := rev (shadow_caster_trace scene (length (entities sc))
                   (length (framebuffers w)) pos target up bufferSize name) ++ log w;
     faults := faults w; window := window w;
     framebuffers := framebuffers w ++ [shadow_buffer bufferSize name];
     shaders := shaders w; materials := materials w; textures := textures w;
     meshes := meshes w;
     scenes :=
       upd scene
         (fun _ =>
            {| entities := entities sc ++
                 [shadow_caster (length (framebuffers w)) pos target up distance fov
                    bufferSize] |})
         (scenes w);
     scene_names := scene_names w; current_scene := current_scene w;
     cache := cache w;
     cells := match entityOut with
              | Some p => upd p (fun _ => length (entities sc)) (cells w)
              | None => cells w
              end |}.

(** [m] keeps the relation [R] between the world it starts in and the one
    it ends in, however it ends. *)
Definition preserves (R : World -> World -> Prop) {A} (m : M A) : Prop :=
  forall w, R w (snd (m w)).

(** [m] keeps [R] unless it returns. *)
Definition unless_ok (R : World -> World -> Prop) {A} (m : M A) : Prop :=
  forall w, (exists a, fst (m w) = Ok a) \/ R w (snd (m w)).


(** The scene manager is as it was and no scene has gone. *)
Definition same_manager (w w' : World) : Prop :=
  scene_names w' = scene_names w /\
  current_scene w' = current_scene w /\
  length (scenes w) <= length (scenes w').

(** Which calls throw has no bearing on what [m] does as long as none
    does: from a run of [m] that returns, the run in the same world with
    other faults returns the same, or ends with an exception. *)
Definition steady {A} (m : M A) : Prop :=
  forall w fs a w',
    m w = (Ok a, w') ->
    m (set_faults fs w) = (Ok a, set_faults fs w') \/
    exists e w'', m (set_faults fs w) = (Thrown e, w'').

Definition same_cache (w w' : World) : Prop := cache w' = cache w.

(** *** Scenes whose pointers all lead somewhere *)

Definition is_some {T} (o : option T) : bool :=
  match o with Some _ => true | None => false end.

Definition has_stage (s : ShaderStageType) (sh : Shader) : bool :=
  existsb (fun p => match fst p, s with
                    | VertexShader, VertexShader => true
                    | FragmentShader, FragmentShader => true
                    | _, _ => false
                    end) (sh_parts sh).

(** The shader of a material exists, has both stages and is linked; its
    textures exist. *)
Definition material_ready (w : World) (m : Material) : bool :=
  match deref (shaders w) (mat_shader m) with
  | Some sh => sh_linked sh && has_stage VertexShader sh && has_stage FragmentShader sh
  | None => false
  end &&
  forallb (fun nv => match snd nv with
                     | MTexture t => is_some (deref (textures w) t)
                     | MFloat _ => true
                     end) (mat_values m).

Definition buffer_ready (w : World) (p : Sptr) : bool :=
  match deref (framebuffers w) p with
  | Some fb => fb_validated fb
  | None => false
  end.

(** A renderable has a mesh and a ready material, or neither; the buffers
    of a camera and of a shadow light exist and are validated. *)
Definition entity_ready (w : World) (en : Entity) : bool :=
  match e_renderable en with
  | Some r =>
      match rc_Mesh r, rc_Material r with
      | None, None => true
      | Some _, Some _ =>
          is_some (deref (meshes w) (rc_Mesh r)) &&
          match deref (materials w) (rc_Material r) with
          | Some m => material_ready w m
          | None => false
          end
      | _, _ => false
      end
  | None => true
  end &&
  match e_camera en with
  | Some c => buffer_ready w (cam_BackBuffer c) && buffer_ready w (cam_FrontBuffer c)
  | None => true
  end &&
  match e_shadowlight en with
  | Some l => buffer_ready w (sl_ShadowBuffer l)
  | None => true
  end.

(** The materials the entities of a scene are rendered with, and the
    textures a list of materials refers to. *)
Definition used_materials (sc : Scene) : list ptr :=
  flat_map (fun en => match e_renderable en with
                      | Some r => match rc_Material r with Some m => [m] | None => [] end
                      | None => []
                      end) (entities sc).

Definition material_textures (ms : list Material) : list ptr :=
  flat_map (fun m =>
    flat_map (fun nv => match snd nv with
                        | MTexture (Some t) => [t]
                        | _ => []
                        end) (mat_values m)) ms.

(** *** What is held once a function has returned

    A [shared_ptr] local goes with its function.  Of the objects a function
    has made and returned to nobody, those alive afterwards are the ones a
    scene leads to, through the components of its entities and their
    materials, or the texture cache. *)

(** The objects the pointers [ps] designate in [heap]. *)
Definition designated {T} (heap : list T) (ps : list ptr) : list T :=
  flat_map (fun p => match nth_error heap p with
                     | Some o => [o]
                     | None => []
                     end) ps.

Definition material_shaders (ms : list Material) : list ptr :=
  flat_map (fun m => match mat_shader m with Some s => [s] | None => [] end) ms.

Definition cached_textures (w : World) : list ptr :=
  flat_map (fun kv => match snd kv with Some t => [t] | None => [] end) (cache w).

(** The materials the entities of the scenes are rendered with; the
    textures and the shaders of these materials, and the cached textures. *)
Definition held_materials (w : World) : list ptr :=
  flat_map used_materials (scenes w).

Definition held_textures (w : World) : list ptr :=
  material_textures (designated (materials w) (held_materials w)) ++
  cached_textures w.

Definition held_shaders (w : World) : list ptr :=
  material_shaders (designated (materials w) (held_materials w)).

(** Every pointer held designates an object that has been made. *)
Definition held_in_range (w : World) : Prop :=
  Forall (fun p => p < length (materials w)) (held_materials w) /\
  Forall (fun p => p < length (textures w)) (held_textures w) /\
  Forall (fun p => p < length (shaders w)) (held_shaders w).

(** The calls on the shader [sh]. *)
Definition on_shader (sh : ptr) (c : Ev.Call) : bool :=
  match c with
  | Ev.Shader_LoadPart p _ _ => Nat.eqb p sh
  | Ev.Shader_Link p => Nat.eqb p sh
  | _ => false
  end.

(** The calls that make a material, and those that set a value on the
    material [m]; the textures set on [m]. *)
Definition makes_material (c : Ev.Call) : bool :=
  match c with
  | Ev.make_shared_Material _ => true
  | _ => false
  end.

Definition sets_on (m : ptr) (c : Ev.Call) : bool :=
  match c with
  | Ev.Material_Set p _ _ => Nat.eqb p m
  | _ => false
  end.

Definition textures_set_on (m : ptr) (tr : list Ev.Call) : list ptr :=
  flat_map (fun c => match c with
                     | Ev.Material_Set _ _ (MTexture (Some t)) => [t]
                     | _ => []
                     end) (filter (sets_on m) tr).

(** A world in which [SceneBuilder::Initialize] has run once. *)
Definition built_once : World := snd (SceneBuilder.Initialize one_scene).

(** A world in which loading the first mesh, the fourth call of
    [SceneBuilder::Initialize], throws. *)
Definition paddle_missing : World := start [(3, missing_file)] (800, 600)%Z.

(** Every entry of the cache leads to the one-pixel texture of its key. *)
Definition cache_solid (w : World) : Prop :=
  forall k v, In (k, v) (cache w) ->
    exists t, v = Some t /\ nth_error (textures w) t = Some (solid_texture k).

(* ===================================================================== *)
(** ** Running the code symbolically *)
(* ===================================================================== *)

Arguments set_log _ _ /.
Arguments set_framebuffers _ _ /.
Arguments set_shaders _ _ /.
Arguments set_materials _ _ /.
Arguments set_textures _ _ /.
Arguments set_meshes _ _ /.
Arguments set_scenes _ _ /.
Arguments set_scene_names _ _ /.
Arguments set_current_scene _ _ /.
Arguments set_cache _ _ /.
Arguments set_cells _ _ /.
Arguments bind : simpl never.
Arguments ret : simpl never.
Arguments undefined : simpl never.
Arguments gets : simpl never.
Arguments modify : simpl never.
Arguments call : simpl never.
Arguments new : simpl never.
Arguments read : simpl never.
Arguments update : simpl never.
Arguments store_entity : simpl never.
Arguments cache_find : simpl never.
Arguments cache_index : simpl never.
Arguments cache_load : simpl never.
Arguments cache_store : simpl never.
Arguments Application_Get : simpl never.
Arguments Application_GetWindow : simpl never.
Arguments Window_GetWidth : simpl never.
Arguments Window_GetHeight : simpl never.
Arguments SceneManager_RegisterScene : simpl never.
Arguments SceneManager_SetCurrentScene : simpl never.
Arguments ObjLoader_LoadObj : simpl never.
Arguments MeshBuilder_Bake : simpl never.
Arguments make_shared_Shader : simpl never.
Arguments Shader_LoadPart : simpl never.
Arguments Shader_Link : simpl never.
Arguments make_shared_Material : simpl never.
Arguments Material_Set : simpl never.
Arguments Texture2D_LoadFromFile : simpl never.
Arguments make_shared_Texture2D : simpl never.
Arguments Texture2D_SetData : simpl never.
Arguments make_shared_FrameBuffer : simpl never.
Arguments FrameBuffer_AddAttachment : simpl never.
Arguments FrameBuffer_Validate : simpl never.
Arguments FrameBuffer_SetDebugName : simpl never.
Arguments FrameBuffer_Clone : simpl never.
Arguments with_entity : simpl never.
Arguments Scene_CreateEntity : simpl never.
Arguments Registry_assign : simpl never.
Arguments Registry_get : simpl never.
Arguments write : simpl never.
Arguments Transform_SetPosition : simpl never.
Arguments Transform_LookAt : simpl never.
Arguments Scene_AddBehaviour : simpl never.
Arguments SceneBuilder.point_light : simpl never.

Unset Implicit Arguments.

Lemma nth_error_plus {T} (l r : list T) (k : nat) :
  nth_error (l ++ r) (length l + k) = nth_error r k.
Proof. induction l; cbn; auto. Qed.

Lemma upd_plus {T} (g : T -> T) (l r : list T) (k : nat) :
  upd (length l + k) g (l ++ r) = l ++ upd k g r.
Proof. induction l; cbn; [reflexivity | now rewrite IHl]. Qed.

Lemma run_bind {A B} (m : M A) (k : A -> M B) w a w1 res :
  m w = (Ok a, w1) -> k a w1 = res -> bind m k w = res.
Proof. unfold bind; intros -> ->; reflexivity. Qed.

Lemma run_call c w :
  fault_at (faults w) (length (log w)) = None ->
  call c w = (Ok tt, set_log (cons c) w).
Proof. unfold call; intros ->; reflexivity. Qed.

Lemma run_read {T} (H : Heap T) w l r k x :
  view H w = l ++ r -> nth_error r k = Some x ->
  read H (length l + k) w = (Ok x, w).
Proof. unfold read; intros -> E; now rewrite nth_error_plus, E. Qed.

Lemma upd_here {T} (g : T -> T) (l r : list T) (x : T) :
  upd (length l) g (l ++ x :: r) = l ++ g x :: r.
Proof. induction l; cbn; [reflexivity | now rewrite IHl]. Qed.

Lemma run_cache_load i w k v :
  nth_error (cache w) i = Some (k, v) -> cache_load i w = (Ok v, w).
Proof. unfold cache_load; intros ->; reflexivity. Qed.

Lemma run_store_entity p e w :
  p < length (cells w) ->
  store_entity p e w = (Ok tt, set_cells (upd p (fun _ => e)) w).
Proof.
  unfold store_entity; intros H.
  apply Nat.ltb_lt in H; rewrite H; reflexivity.
Qed.

(** Heaps are kept in the form [old ++ new] and pointers in the form
    [length old + k]. *)
Ltac tidy :=
  cbv beta; cbn;
  repeat (progress (rewrite ?length_app, <- ?app_assoc, ?upd_plus, ?upd_here,
                      ?nth_error_plus);
          cbn).

(** One statement after the other, on a world in which no call throws;
    [t] puts the goal in order after each statement. *)
Ltac run_by t :=
  lazymatch goal with
  | |- bind _ _ _ = _ => eapply run_bind; [ run_by t | t; run_by t ]
  | |- ret _ _ = _ => reflexivity
  | |- gets _ _ = _ => reflexivity
  | |- modify _ _ = _ => reflexivity
  | |- undefined _ = _ => fail "the run is undefined"
  | |- call _ _ = _ => apply run_call; reflexivity
  | |- new _ _ _ = _ => reflexivity
  | |- read _ _ _ = _ => eapply run_read; reflexivity
  | |- store_entity _ _ _ = _ => apply run_store_entity; assumption
  | |- cache_load _ _ = _ => eapply run_cache_load; cbn; eassumption
  | |- ?m ?w = ?r => let m' := eval red in m in change (m' w = r); run_by t
  end.

Ltac run := run_by tidy.

Lemma Initialize_run (w : World) :
  no_faults w -> SceneBuilder.Initialize w = (Ok tt, Expected.world w).
Proof.
  unfold no_faults, Expected.world; destruct w; cbn [faults]; intros ->.
  cbn [log window framebuffers shaders materials textures meshes scenes
       scene_names current_scene cache cells].
  rewrite <- (app_nil_r framebuffers0), <- (app_nil_r shaders0),
    <- (app_nil_r materials0), <- (app_nil_r textures0),
    <- (app_nil_r meshes0), <- (app_nil_r scenes0).
  unfold SceneBuilder.Initialize.
  eapply eq_trans; [ run | ].
  rewrite !app_nil_r, !Nat.add_0_r.
  reflexivity.
Qed.

Lemma nth_error_here {T} (l r : list T) (x : T) :
  nth_error (l ++ x :: r) (length l) = Some x.
Proof. induction l; cbn; auto. Qed.

Lemma Expected_main (w : World) :
  scene_named "main" (Expected.world w) =
  Some (Expected.main_scene (length (materials w)) (length (meshes w))
          (length (framebuffers w))).
Proof.
  unfold scene_named, Expected.world; cbn.
  apply nth_error_here.
Qed.

(* ===================================================================== *)
(** ** AudioLayer *)
(* ===================================================================== *)

(** C1. [AudioLayer::Initialize] calls [AudioEngine::Init()], then
    [AudioEngine::LoadSound("AH.wav", false, true, true)], then
    [AudioEngine::PlaySound("AH.wav")], in this order, and nothing else.
    Whatever the world, the calls it makes are the first ones of this
    sequence (it stops at a call that throws); when no call throws it
    returns having made exactly the three. *)
Theorem AudioLayer_Initialize_calls (w : World) :
  let expected :=
    [Ev.AudioEngine_Init;
     Ev.AudioEngine_LoadSound "AH.wav" false true true;
     Ev.AudioEngine_PlaySound "AH.wav"] in
  (exists n, performed w (snd (AudioLayer.Initialize w)) (firstn n expected)) /\
  (no_faults w ->
   fst (AudioLayer.Initialize w) = Ok tt /\
   performed w (snd (AudioLayer.Initialize w)) expected).
Proof.
  unfold performed, no_faults; destruct w as [lg fs]; cbn; split.
  - unfold AudioLayer.Initialize, AudioEngine_Init, AudioEngine_LoadSound,
      AudioEngine_PlaySound, bind, call; cbn.
    destruct (fault_at fs (length lg)); cbn.
    + exists 1; reflexivity.
    + destruct (fault_at fs (S (length lg))); cbn.
      * exists 2; reflexivity.
      * exists 3; destruct (fault_at fs (S (S (length lg)))); reflexivity.
  - intros ->.
    split; reflexivity.
Qed.

Lemma AudioLayer_Initialize_calls_witness :
  no_faults (start [] (800, 600)%Z) /\
  fst (AudioLayer.Initialize (start [] (800, 600)%Z)) = Ok tt /\
  performed (start [] (800, 600)%Z)
    (snd (AudioLayer.Initialize (start [] (800, 600)%Z)))
    [Ev.AudioEngine_Init;
     Ev.AudioEngine_LoadSound "AH.wav" false true true;
     Ev.AudioEngine_PlaySound "AH.wav"].
Proof.
  split; [reflexivity|].
  apply (proj2 (AudioLayer_Initialize_calls (start [] (800, 600)%Z))).
  reflexivity.
Defined.

(* ===================================================================== *)
(** ** SceneBuilder::Initialize *)
(* ===================================================================== *)

(** C2. [SceneBuilder::Initialize] registers a scene under the name "main"
    and then makes "main" the current scene before it creates any entity,
    mesh, material or light: when no call throws, the calls it makes start
    with [Application::Get()], [RegisterScene("main")],
    [SetCurrentScene("main")], every creating call comes later, and there
    are some. *)
Theorem Initialize_registers_main_first (w : World) :
  no_faults w ->
  exists w' rest,
    SceneBuilder.Initialize w = (Ok tt, w') /\
    performed w w'
      (Ev.Application_Get :: Ev.SceneManager_RegisterScene "main"
         :: Ev.SceneManager_SetCurrentScene "main" :: rest) /\
    (forall i c,
       nth_error
         (Ev.Application_Get :: Ev.SceneManager_RegisterScene "main"
            :: Ev.SceneManager_SetCurrentScene "main" :: rest) i = Some c ->
       creates c = true -> 2 < i) /\
    existsb creates rest = true /\
    lookup_name "main" (scene_names w') = current_scene w' /\
    scene_named "main" w' <> None.
Proof.
  intros H.
  exists (Expected.world w).
  exists (skipn 3 (Expected.trace (length (scenes w)) (length (shaders w))
                     (length (materials w)) (length (textures w))
                     (length (meshes w)) (length (framebuffers w)) (window w))).
  split; [now apply Initialize_run|].
  split; [reflexivity|].
  split.
  - intros [|[|[|i]]] c E C; cbn in E; try lia;
      injection E as <-; discriminate C.
  - split; [reflexivity|].
    split; [reflexivity|].
    rewrite Expected_main; discriminate.
Qed.

Lemma Initialize_registers_main_first_witness :
  exists w' rest,
    SceneBuilder.Initialize (start [] (800, 600)%Z) = (Ok tt, w') /\
    performed (start [] (800, 600)%Z) w'
      (Ev.Application_Get :: Ev.SceneManager_RegisterScene "main"
         :: Ev.SceneManager_SetCurrentScene "main" :: rest) /\
    (forall i c,
       nth_error
         (Ev.Application_Get :: Ev.SceneManager_RegisterScene "main"
            :: Ev.SceneManager_SetCurrentScene "main" :: rest) i = Some c ->
       creates c = true -> 2 < i) /\
    existsb creates rest = true /\
    lookup_name "main" (scene_names w') = current_scene w' /\
    scene_named "main" w' <> None.
Proof.
  apply (Initialize_registers_main_first (start [] (800, 600)%Z)).
  reflexivity.
Defined.

(** The configuration of "main" after [Initialize] is the one a run from a
    world just started, with the same window, produces. *)
Lemma Expected_config_start (w : World) :
  scene_config "main" (Expected.world w) =
  scene_config "main" (Expected.world (start [] (window w))).
Proof.
  unfold scene_config. rewrite !Expected_main.
  unfold Expected.main_scene, Expected.rendered, Expected.main_camera.
  cbn [option_map map entities].
  unfold entity_config, renderable_config, camera_config, shadowlight_config,
    material_config, value_config, deref, Expected.world,
    Expected.new_meshes, Expected.new_materials, Expected.new_textures,
    Expected.new_shaders, Expected.new_framebuffers.
  cbn.
  rewrite ?nth_error_here, ?nth_error_plus; cbn.
  rewrite ?nth_error_here, ?nth_error_plus; cbn.
  reflexivity.
Qed.

(** C3, as stated, fails: the size of the main camera's framebuffers is
    read from the application window, so two runs in windows of different
    sizes configure the scene differently. *)
Lemma Initialize_config_differs_with_window :
  scene_config "main" (snd (SceneBuilder.Initialize (start [] (800, 600)%Z))) <>
  scene_config "main" (snd (SceneBuilder.Initialize (start [] (1024, 768)%Z))).
Proof.
  intros H.
  apply (f_equal back_buffer_width) in H.
  vm_compute in H.
  discriminate H.
Qed.

(** What a run of [Initialize] supplies is what a run from a world just
    started, with the same window, supplies. *)
Lemma skipn_length_app {T} (l r : list T) : skipn (length l) (l ++ r) = r.
Proof. induction l; cbn; [reflexivity | assumption]. Qed.

Lemma Expected_supplied_start (w : World) :
  supplied w (Expected.world w) =
  supplied (start [] (window w)) (Expected.world (start [] (window w))).
Proof.
  unfold supplied.
  rewrite (Expected_config_start w).
  f_equal.
  - change (framebuffers (Expected.world w))
      with (framebuffers w ++ Expected.new_framebuffers (window w)).
    now rewrite skipn_length_app.
  - change (shaders (Expected.world w)) with (shaders w ++ Expected.new_shaders).
    now rewrite skipn_length_app.
  - change (materials (Expected.world w))
      with (materials w ++
            Expected.new_materials (length (shaders w)) (length (textures w))).
    rewrite skipn_length_app.
    unfold Expected.new_materials. cbn [map].
    unfold material_config, value_config, deref, Expected.world,
      Expected.new_textures, Expected.new_shaders.
    cbn.
    rewrite ?nth_error_here, ?nth_error_plus; cbn.
    reflexivity.
  - change (textures (Expected.world w)) with (textures w ++ Expected.new_textures).
    now rewrite skipn_length_app.
  - change (meshes (Expected.world w)) with (meshes w ++ Expected.new_meshes).
    now rewrite skipn_length_app.
Qed.

(** C3, amended. Every value [SceneBuilder::Initialize] supplies is a
    constant of the source, except the width and the height of the main
    camera's framebuffers, which are those of the window: for any two runs
    in which no call throws, whatever the two worlds hold and whatever the
    sizes of their windows, what the second run supplies (the scene "main"
    and every framebuffer, shader, material, texture and mesh it makes,
    attached to an entity or not) is what the first supplies with the width
    and the height of the framebuffers replaced by those of the second
    window; the framebuffers made are the back and the front buffer of the
    camera; and in windows of the same size the two runs supply the same
    and configure "main" identically. *)
Theorem Initialize_config_depends_on_window_only (w1 w2 : World) :
  no_faults w1 -> no_faults w2 ->
  exists w1' w2' c,
    SceneBuilder.Initialize w1 = (Ok tt, w1') /\
    SceneBuilder.Initialize w2 = (Ok tt, w2') /\
    supplied w2 w2' = with_size (window w2) (supplied w1 w1') /\
    camera_buffers (su_scene (supplied w1 w1')) =
      map Some (su_framebuffers (supplied w1 w1')) /\
    length (su_framebuffers (supplied w1 w1')) = 2 /\
    scene_config "main" w1' = Some c /\
    (window w1 = window w2 ->
       supplied w1 w1' = supplied w2 w2' /\
       scene_config "main" w2' = Some c).
Proof.
  intros H1 H2.
  exists (Expected.world w1), (Expected.world w2).
  rewrite (Initialize_run w1 H1), (Initialize_run w2 H2).
  rewrite (Expected_supplied_start w1), (Expected_supplied_start w2).
  rewrite (Expected_config_start w1), (Expected_config_start w2).
  destruct (window w1) as [a b], (window w2) as [c d].
  eexists.
  split; [reflexivity|].
  split; [reflexivity|].
  split; [vm_compute; reflexivity|].
  split; [vm_compute; reflexivity|].
  split; [reflexivity|].
  split; [vm_compute; reflexivity|].
  intros W. injection W as -> ->. split; reflexivity.
Qed.

Lemma Initialize_config_depends_on_window_only_witness :
  exists w1' w2' c,
    SceneBuilder.Initialize (start [] (800, 600)%Z) = (Ok tt, w1') /\
    SceneBuilder.Initialize one_scene = (Ok tt, w2') /\
    supplied one_scene w2' =
      with_size (window one_scene) (supplied (start [] (800, 600)%Z) w1') /\
    camera_buffers (su_scene (supplied (start [] (800, 600)%Z) w1')) =
      map Some (su_framebuffers (supplied (start [] (800, 600)%Z) w1')) /\
    length (su_framebuffers (supplied (start [] (800, 600)%Z) w1')) = 2 /\
    scene_config "main" w1' = Some c /\
    (window (start [] (800, 600)%Z) = window one_scene ->
       supplied (start [] (800, 600)%Z) w1' = supplied one_scene w2' /\
       scene_config "main" w2' = Some c).
Proof.
  apply (Initialize_config_depends_on_window_only (start [] (800, 600)%Z) one_scene);
    reflexivity.
Defined.

(** C4. After [SceneBuilder::Initialize] the scene "main" has exactly one
    entity with a [CameraComponent]; that camera is the main camera, its
    projection is [glm::perspective(glm::radians(60.0f), 1.0f, 0.1f,
    1000.0f)], and its back and front buffers are two different
    framebuffers, the front one obtained by [Clone] from the back one, with
    the same size, samples and attachments. *)
Theorem Initialize_main_camera (w : World) :
  no_faults w ->
  exists w' sc e cam back front fbb fbf,
    SceneBuilder.Initialize w = (Ok tt, w') /\
    scene_named "main" w' = Some sc /\
    carrying CameraC sc = [(e, cam)] /\
    cam_IsMainCamera cam = Some true /\
    cam_Projection cam =
      Some (perspective (FRadians (lit 60)) (lit 1) (FLit 1 10) (lit 1000)) /\
    cam_BackBuffer cam = Some back /\
    cam_FrontBuffer cam = Some front /\
    back <> front /\
    nth_error (framebuffers w') back = Some fbb /\
    nth_error (framebuffers w') front = Some fbf /\
    In (Ev.FrameBuffer_Clone back) (log w') /\
    length (framebuffers w') = S front /\
    (fb_width fbf, fb_height fbf, fb_samples fbf, fb_attachments fbf) =
    (fb_width fbb, fb_height fbb, fb_samples fbb, fb_attachments fbb).
Proof.
  intros H.
  exists (Expected.world w),
    (Expected.main_scene (length (materials w)) (length (meshes w))
       (length (framebuffers w))),
    3, (Expected.main_camera (length (framebuffers w))),
    (length (framebuffers w)), (length (framebuffers w) + 1),
    (Expected.main_buffer (window w) (Some "MainBuffer")),
    (Expected.main_buffer (window w) None).
  split; [now apply Initialize_run|].
  split; [apply Expected_main|].
  repeat (split; [reflexivity|]).
  split; [lia|].
  split; [apply nth_error_here|].
  split; [apply (nth_error_plus (framebuffers w) (Expected.new_framebuffers (window w)) 1)|].
  split.
  - unfold Expected.world; cbn [log]. apply in_or_app; left. apply -> in_rev.
    unfold Expected.trace. repeat (first [left; reflexivity | right]).
  - split; [|reflexivity].
    unfold Expected.world; cbn [framebuffers]. rewrite length_app; cbn; lia.
Qed.

Lemma Initialize_main_camera_witness :
  exists w' sc e cam back front fbb fbf,
    SceneBuilder.Initialize (start [] (800, 600)%Z) = (Ok tt, w') /\
    scene_named "main" w' = Some sc /\
    carrying CameraC sc = [(e, cam)] /\
    cam_IsMainCamera cam = Some true /\
    cam_Projection cam =
      Some (perspective (FRadians (lit 60)) (lit 1) (FLit 1 10) (lit 1000)) /\
    cam_BackBuffer cam = Some back /\
    cam_FrontBuffer cam = Some front /\
    back <> front /\
    nth_error (framebuffers w') back = Some fbb /\
    nth_error (framebuffers w') front = Some fbf /\
    In (Ev.FrameBuffer_Clone back) (log w') /\
    length (framebuffers w') = S front /\
    (fb_width fbf, fb_height fbf, fb_samples fbf, fb_attachments fbf) =
    (fb_width fbb, fb_height fbb, fb_samples fbb, fb_attachments fbb).
Proof.
  apply (Initialize_main_camera (start [] (800, 600)%Z)).
  reflexivity.
Defined.

(** C5 does not hold of the code: the loop announced as creating a ring of
    point lights runs for [i < 1], and [CreateShadowCaster] is never called,
    so "main" ends up with exactly one entity that carries a light. *)
Theorem Initialize_creates_one_light :
  exists w' sc,
    SceneBuilder.Initialize (start [] (800, 600)%Z) = (Ok tt, w') /\
    scene_named "main" w' = Some sc /\
    length (filter is_light (entities sc)) = 1 /\
    length (carrying PointLightC sc) = 1 /\
    carrying ShadowLightC sc = [].
Proof.
  eexists; eexists.
  split; [apply Initialize_run; reflexivity|].
  split; [apply Expected_main|].
  repeat split; reflexivity.
Qed.

(** C6. [SceneBuilder::Initialize] loads "paddle.obj" and "ball.obj"; the
    entities of "main" that render a mesh are one ball and two paddles, and
    each has behaviours: a [ControlBehaviour] on the ball, a
    [RotateBehaviour] and a [RandomBehaviour] on each paddle. *)
Theorem Initialize_paddle_ball (w : World) :
  no_faults w ->
  exists w' tr sc,
    SceneBuilder.Initialize w = (Ok tt, w') /\
    performed w w' tr /\
    (exists c, In (Ev.ObjLoader_LoadObj "paddle.obj" c) tr) /\
    (exists c, In (Ev.ObjLoader_LoadObj "ball.obj" c) tr) /\
    scene_named "main" w' = Some sc /\
    map (fun en => option_map md_file (mesh_of w' en)) (entities sc) =
      [Some "ball.obj"; Some "paddle.obj"; Some "paddle.obj"; None; None] /\
    (forall en d,
       In en (entities sc) -> mesh_of w' en = Some d ->
       e_behaviours en <> [] /\
       (md_file d = "ball.obj" ->
        exists v, In (ControlBehaviour v) (e_behaviours en)) /\
       (md_file d = "paddle.obj" ->
        (exists v, In (RotateBehaviour v) (e_behaviours en)) /\
        In RandomBehaviour (e_behaviours en))).
Proof.
  intros H.
  exists (Expected.world w),
    (Expected.trace (length (scenes w)) (length (shaders w))
       (length (materials w)) (length (textures w))
       (length (meshes w)) (length (framebuffers w)) (window w)),
    (Expected.main_scene (length (materials w)) (length (meshes w))
       (length (framebuffers w))).
  split; [now apply Initialize_run|].
  split; [reflexivity|].
  split; [exists Expected.white; cbn; tauto|].
  split; [exists Expected.white; cbn; tauto|].
  split; [apply Expected_main|].
  assert (M0 : nth_error (meshes (Expected.world w)) (length (meshes w)) =
               Some {| mesh_data := Expected.ball |})
    by apply nth_error_here.
  assert (M1 : nth_error (meshes (Expected.world w)) (length (meshes w) + 1) =
               Some {| mesh_data := Expected.paddle |})
    by apply (nth_error_plus (meshes w) Expected.new_meshes 1).
  assert (M2 : nth_error (meshes (Expected.world w)) (length (meshes w) + 2) =
               Some {| mesh_data := Expected.paddle |})
    by apply (nth_error_plus (meshes w) Expected.new_meshes 2).
  split.
  - unfold mesh_of, deref; cbn [map entities Expected.main_scene Expected.rendered
      e_renderable rc_Mesh option_map].
    rewrite M0, M1, M2; reflexivity.
  - intros en d [<-|[<-|[<-|[<-|[<-|[]]]]]];
      unfold mesh_of, deref; cbn [Expected.rendered e_renderable rc_Mesh option_map];
      rewrite ?M0, ?M1, ?M2; cbn; intros E; try discriminate E;
      injection E as <-; (split; [discriminate|]); split; intros F;
      try discriminate F.
    + eexists; left; reflexivity.
    + split; [eexists; left; reflexivity | right; left; reflexivity].
    + split; [eexists; left; reflexivity | right; left; reflexivity].
Qed.

Lemma Initialize_paddle_ball_witness :
  exists w' tr sc,
    SceneBuilder.Initialize (start [] (800, 600)%Z) = (Ok tt, w') /\
    performed (start [] (800, 600)%Z) w' tr /\
    (exists c, In (Ev.ObjLoader_LoadObj "paddle.obj" c) tr) /\
    (exists c, In (Ev.ObjLoader_LoadObj "ball.obj" c) tr) /\
    scene_named "main" w' = Some sc /\
    map (fun en => option_map md_file (mesh_of w' en)) (entities sc) =
      [Some "ball.obj"; Some "paddle.obj"; Some "paddle.obj"; None; None] /\
    (forall en d,
       In en (entities sc) -> mesh_of w' en = Some d ->
       e_behaviours en <> [] /\
       (md_file d = "ball.obj" ->
        exists v, In (ControlBehaviour v) (e_behaviours en)) /\
       (md_file d = "paddle.obj" ->
        (exists v, In (RotateBehaviour v) (e_behaviours en)) /\
        In RandomBehaviour (e_behaviours en))).
Proof.
  apply (Initialize_paddle_ball (start [] (800, 600)%Z)).
  reflexivity.
Defined.

(* ===================================================================== *)
(** ** Exceptions are not handled *)
(* ===================================================================== *)

Lemma silent_transparent {A} (m : M A) : silent m -> transparent m.
Proof.
  intros S w r w' E.
  destruct (S w) as (L & F & T); rewrite E in L, F, T; cbn in L, F, T.
  split; [exact F|]. split.
  - exists []. split; [exact L|]. intros N; contradiction.
  - intros i [Lo Hi]. rewrite L in Hi. lia.
Qed.

Lemma silent_ret {A} (a : A) : silent (ret a).
Proof. intros w; repeat split. Qed.

Lemma silent_gets {A} (g : World -> A) : silent (gets g).
Proof. intros w; repeat split. Qed.

Lemma silent_undefined {A} : silent (@undefined A).
Proof. intros w; repeat split. Qed.

Lemma silent_modify (g : World -> World) :
  (forall w, log (g w) = log w /\ faults (g w) = faults w) -> silent (modify g).
Proof. intros H w; destruct (H w); repeat split; assumption. Qed.

Lemma silent_bind {A B} (m : M A) (k : A -> M B) :
  silent m -> (forall a, silent (k a)) -> silent (bind m k).
Proof.
  intros Sm Sk w. unfold bind.
  destruct (Sm w) as (L & F & T).
  destruct (m w) as [[a|e|] w1]; cbn in *.
  - destruct (Sk a w1) as (L' & F' & T').
    repeat split; congruence.
  - discriminate T.
  - repeat split; assumption.
Qed.

Lemma transparent_call (c : Ev.Call) : transparent (call c).
Proof.
  intros w r w' E. unfold call in E.
  assert (W : w' = set_log (cons c) w)
    by (destruct (fault_at (faults w) (length (log w))); congruence).
  subst w'. cbn.
  split; [reflexivity|]. split.
  - exists [c]. split; [reflexivity|]. discriminate.
  - intros i [Lo Hi]; cbn in Hi.
    assert (i = length (log w)) by lia; subst i.
    rewrite Nat.eqb_refl.
    destruct (fault_at (faults w) (length (log w))); injection E as <-; reflexivity.
Qed.

Lemma transparent_bind {A B} (m : M A) (k : A -> M B) :
  transparent m -> (forall a, transparent (k a)) -> transparent (bind m k).
Proof.
  intros Hm Hk w r w' E. unfold bind in E.
  destruct (m w) as [[a|e|] w1] eqn:Em.
  - destruct (Hm _ _ _ Em) as (F1 & (tr1 & L1 & N1) & Q1).
    destruct (Hk a _ _ _ E) as (F2 & (tr2 & L2 & N2) & Q2).
    assert (G1 : length (log w1) = length tr1 + length (log w))
      by (rewrite L1, length_app; reflexivity).
    assert (G2 : length (log w') = length tr2 + length (log w1))
      by (rewrite L2, length_app; reflexivity).
    split; [congruence|]. split.
    + exists (tr2 ++ tr1). rewrite L2, L1, app_assoc. split; [reflexivity|].
      intros T; specialize (N2 T). destruct tr2; [congruence | discriminate].
    + intros i [Lo Hi].
      destruct (Nat.lt_ge_cases i (length (log w1))) as [Lt|Ge].
      * rewrite (Q1 i) by (split; lia).
        assert (X : (if Nat.eqb (S i) (length (log w1))
                     then thrown (Ok a) else None) = None)
          by (destruct (Nat.eqb (S i) (length (log w1))); reflexivity).
        rewrite X.
        destruct (Nat.eqb_spec (S i) (length (log w'))) as [Eq|]; [|reflexivity].
        destruct (thrown r) eqn:T; [|reflexivity].
        assert (tr2 <> []) by (apply N2; discriminate).
        destruct tr2; [contradiction | cbn in G2; lia].
      * rewrite <- F1. apply Q2. split; lia.
  - injection E as <- <-.
    destruct (Hm _ _ _ Em) as (F1 & (tr1 & L1 & N1) & Q1).
    split; [exact F1|]. split; [exists tr1; split; [exact L1 | exact N1] | exact Q1].
  - injection E as <- <-.
    destruct (Hm _ _ _ Em) as (F1 & (tr1 & L1 & N1) & Q1).
    split; [exact F1|]. split; [exists tr1; split; [exact L1 | exact N1] | exact Q1].
Qed.

Lemma transparent_propagates {A} (m : M A) : transparent m -> propagates m.
Proof.
  intros T w.
  destruct (m w) as [r w'] eqn:E; cbn.
  destruct (T _ _ _ E) as (F & (tr & L & N) & Q).
  split.
  - intros i e Mi Fi. rewrite (Q i Mi) in Fi.
    destruct (Nat.eqb_spec (S i) (length (log w'))); [split; assumption | discriminate].
  - intros e Th.
    assert (NE : tr <> []) by (apply N; congruence).
    assert (G : length (log w') = length tr + length (log w))
      by (rewrite L, length_app; reflexivity).
    assert (0 < length tr) by (destruct tr; [contradiction | cbn; lia]).
    exists (length (log w') - 1).
    assert (Mi : made w w' (length (log w') - 1)) by (unfold made; lia).
    split; [exact Mi|].
    rewrite (Q _ Mi).
    replace (S (length (log w') - 1)) with (length (log w')) by lia.
    rewrite Nat.eqb_refl. exact Th.
Qed.

(** Statements that make no call. *)
Ltac quiet :=
  cbv zeta;
  lazymatch goal with
  | |- silent (bind _ _) => apply silent_bind; [ quiet | intros; quiet ]
  | |- silent (ret _) => apply silent_ret
  | |- silent (gets _) => apply silent_gets
  | |- silent undefined => apply silent_undefined
  | |- silent (modify _) => apply silent_modify; intros; split; reflexivity
  | |- silent (call _) => fail "a call"
  | |- silent (match ?x with _ => _ end) => destruct x; quiet
  | |- silent (fun _ => _) =>
      let w := fresh "w" in
      intros w; cbv beta;
      repeat match goal with
             | |- context [match ?x with _ => _ end] => destruct x
             end;
      repeat split; reflexivity
  | |- silent ?m => let m' := eval red in m in change (silent m'); quiet
  end.

(** Statements whose only source of exceptions is the calls they make. *)
Ltac transp :=
  cbv zeta;
  lazymatch goal with
  | |- transparent (bind _ _) => apply transparent_bind; [ transp | intros; transp ]
  | |- transparent (call _) => apply transparent_call
  | |- transparent (match ?x with _ => _ end) => destruct x; transp
  | |- transparent (for_int ?n ?i ?b ?body) =>
      let n' := eval vm_compute in n in
      lazymatch n' with
      | O => change (transparent (@ret unit tt))
      | S ?k =>
          let c := eval vm_compute in (Z.ltb i b) in
          lazymatch c with
          | true =>
              change (transparent (bind (body i) (fun _ => for_int k (i + 1)%Z b body)))
          | false => change (transparent (@ret unit tt))
          end
      end;
      transp
  | |- transparent ?m =>
      first [ apply silent_transparent; quiet
            | let m' := eval red in m in change (transparent m'); transp ]
  end.

Lemma AudioLayer_transparent :
  transparent AudioLayer.Initialize /\ transparent AudioLayer.Shutdown /\
  transparent AudioLayer.Update.
Proof. split; [|split]; transp. Qed.

Lemma CreateShadowCaster_transparent scene entityOut pos target up distance fov
    bufferSize name :
  transparent
    (CreateShadowCaster scene entityOut pos target up distance fov bufferSize name).
Proof. transp. Qed.

Lemma CreateSolidTexture_transparent color : transparent (CreateSolidTexture color).
Proof. transp. Qed.

Lemma Initialize_transparent : transparent SceneBuilder.Initialize.
Proof. transp. Qed.

(** C7. None of [AudioLayer::Initialize], [Update], [Shutdown],
    [SceneBuilder::Initialize], [CreateShadowCaster] and
    [CreateSolidTexture] handles an error: whenever a call one of them makes
    throws, the function ends right there with the exception that was
    thrown, unchanged; and it ends with an exception only when one of its
    calls threw it. *)
Theorem no_custom_error_handling :
  propagates AudioLayer.Initialize /\
  propagates AudioLayer.Update /\
  propagates AudioLayer.Shutdown /\
  propagates SceneBuilder.Initialize /\
  (forall scene entityOut pos target up distance fov bufferSize name,
     propagates
       (CreateShadowCaster scene entityOut pos target up distance fov bufferSize name)) /\
  (forall color, propagates (CreateSolidTexture color)).
Proof.
  destruct AudioLayer_transparent as (I & S & U).
  split; [|split; [|split; [|split; [|split]]]];
    intros; apply transparent_propagates;
    auto using Initialize_transparent, CreateShadowCaster_transparent,
      CreateSolidTexture_transparent.
Qed.

Lemma no_custom_error_handling_witness :
  made second_call_throws (snd (AudioLayer.Initialize second_call_throws)) 1 /\
  fault_at (faults second_call_throws) 1 = Some missing_file /\
  thrown (fst (AudioLayer.Initialize second_call_throws)) = Some missing_file /\
  2 = length (log (snd (AudioLayer.Initialize second_call_throws))).
Proof.
  assert (M : made second_call_throws
                (snd (AudioLayer.Initialize second_call_throws)) 1)
    by (unfold made; vm_compute; lia).
  split; [exact M|].
  split; [reflexivity|].
  apply (proj1 (proj1 no_custom_error_handling second_call_throws) 1 missing_file M).
  reflexivity.
Defined.

(* ===================================================================== *)
(** ** CreateSolidTexture *)
(* ===================================================================== *)

Lemma float_eqb_refl (a : float) : is_nan a = false -> float_eqb a a = true.
Proof.
  destruct a as [s|s| |s m e]; cbn; intros H; try discriminate H.
  - reflexivity.
  - destruct s; reflexivity.
  - unfold float_eqb, SFeqb, SFcompare.
    rewrite Z.compare_refl, Pos.compare_cont_refl. destruct s; reflexivity.
Qed.

Lemma color4_eqb_refl (c : color4) : has_nan c = false -> color4_eqb c c = true.
Proof.
  destruct c as [[[r g] b] a]; cbn.
  intros H.
  apply orb_false_elim in H as [H Ha].
  apply orb_false_elim in H as [H Hb].
  apply orb_false_elim in H as [Hr Hg].
  rewrite !float_eqb_refl by assumption. reflexivity.
Qed.

Lemma um_find_app_miss (c : color4) (v : Sptr) (m : list (color4 * Sptr)) :
  um_find c m = None -> color4_eqb c c = true ->
  um_find c (m ++ [(c, v)]) = Some (length m).
Proof.
  intros N E. induction m as [|[k x] m IH]; cbn in *.
  - now rewrite E.
  - destruct (color4_eqb k c); [discriminate N|].
    destruct (um_find c m); [discriminate N|].
    now rewrite IH.
Qed.

Lemma um_find_some (c : color4) (m : list (color4 * Sptr)) (i : nat) :
  um_find c m = Some i -> exists k v, nth_error m i = Some (k, v).
Proof.
  revert i; induction m as [|[k x] m IH]; cbn; intros i H; [discriminate H|].
  destruct (color4_eqb k c).
  - injection H as <-. now exists k, x.
  - destruct (um_find c m) as [j|]; [|discriminate H].
    injection H as <-. cbn. now apply IH.
Qed.

Lemma CreateSolidTexture_hit c w i k v :
  no_faults w -> um_find c (cache w) = Some i ->
  nth_error (cache w) i = Some (k, v) ->
  CreateSolidTexture c w = (Ok v, after_hit c w).
Proof.
  unfold no_faults, after_hit; destruct w; cbn [faults cache]; intros -> F N.
  unfold CreateSolidTexture.
  eapply eq_trans; [ run_by ltac:(tidy; rewrite ?F; cbn) | ].
  reflexivity.
Qed.

Lemma CreateSolidTexture_miss c w :
  no_faults w -> um_find c (cache w) = None ->
  CreateSolidTexture c w = (Ok (Some (length (textures w))), after_miss c w).
Proof.
  unfold no_faults, after_miss; destruct w; cbn [faults cache]; intros -> F.
  cbn [textures set_textures set_log set_cache log faults window framebuffers shaders materials
       meshes scenes scene_names current_scene cache cells].
  rewrite <- (app_nil_r textures0).
  unfold CreateSolidTexture.
  eapply eq_trans; [ run_by ltac:(tidy; rewrite ?F; cbn) | ].
  rewrite !app_nil_r, !Nat.add_0_r.
  reflexivity.
Qed.

(** C9, as stated, fails: a color with a NaN component equals no key of the
    cache, itself included, so each call with it makes a new texture and
    adds an entry. *)
Lemma CreateSolidTexture_nan_not_cached :
  exists t1 w1 t2 w2,
    CreateSolidTexture nan_color (start [] (800, 600)%Z) = (Ok t1, w1) /\
    CreateSolidTexture nan_color w1 = (Ok t2, w2) /\
    t1 <> t2 /\
    length (textures w2) = S (length (textures w1)) /\
    length (cache w2) = 2.
Proof.
  do 4 eexists.
  split; [vm_compute; reflexivity|].
  split; [vm_compute; reflexivity|].
  split; [discriminate|].
  split; reflexivity.
Qed.

(** C9, amended. For a color [c] without NaN component, two successive
    calls [CreateSolidTexture(c)] return the same pointer, and the second
    makes no texture and leaves the cache as it is: it only looks [c] up.
    For every color, a call leaves the entries the cache had as they were
    and adds at most one entry, for [c]. *)
Theorem CreateSolidTexture_cached (c : color4) (w : World) :
  no_faults w ->
  exists t w1,
    CreateSolidTexture c w = (Ok t, w1) /\
    (cache w1 = cache w \/ exists t', cache w1 = cache w ++ [(c, Some t')]) /\
    (has_nan c = false ->
     exists w2,
       CreateSolidTexture c w1 = (Ok t, w2) /\
       textures w2 = textures w1 /\
       cache w2 = cache w1 /\
       performed w1 w2 [Ev.unordered_map_find c; Ev.unordered_map_index c]).
Proof.
  intros H.
  destruct (um_find c (cache w)) as [i|] eqn:F.
  - destruct (um_find_some _ _ _ F) as (k & v & N).
    exists v, (after_hit c w).
    split; [now apply (CreateSolidTexture_hit c w i k v)|].
    split; [left; reflexivity|].
    intros _. exists (after_hit c (after_hit c w)).
    split; [now apply (CreateSolidTexture_hit c (after_hit c w) i k v)|].
    repeat split; reflexivity.
  - exists (Some (length (textures w))), (after_miss c w).
    split; [now apply CreateSolidTexture_miss|].
    split; [right; eexists; reflexivity|].
    intros NN. exists (after_hit c (after_miss c w)).
    split.
    + apply (CreateSolidTexture_hit c (after_miss c w) (length (cache w)) c).
      * exact H.
      * apply um_find_app_miss; [exact F | now apply color4_eqb_refl].
      * apply nth_error_here.
    + repeat split; reflexivity.
Qed.

Lemma CreateSolidTexture_cached_witness :
  exists t w1,
    CreateSolidTexture red (start [] (800, 600)%Z) = (Ok t, w1) /\
    (cache w1 = cache (start [] (800, 600)%Z) \/
     exists t', cache w1 = cache (start [] (800, 600)%Z) ++ [(red, Some t')]) /\
    exists w2,
      CreateSolidTexture red w1 = (Ok t, w2) /\
      textures w2 = textures w1 /\
      cache w2 = cache w1 /\
      performed w1 w2 [Ev.unordered_map_find red; Ev.unordered_map_index red].
Proof.
  destruct (CreateSolidTexture_cached red (start [] (800, 600)%Z) eq_refl)
    as (t & w1 & R & C & S).
  exists t, w1. split; [exact R|]. split; [exact C|].
  apply S. reflexivity.
Defined.


(* ===================================================================== *)
(** ** CreateShadowCaster *)
(* ===================================================================== *)

Lemma nth_error_other {T} (l r : list T) (x y : T) (i : nat) :
  i <> length l -> nth_error (l ++ x :: r) i = nth_error (l ++ y :: r) i.
Proof.
  revert i; induction l; intros [|i] H; cbn in *; try reflexivity; try lia.
  apply IHl; lia.
Qed.

Lemma length_upd {T} (g : T -> T) (l : list T) (p : nat) :
  length (upd p g l) = length l.
Proof. revert p; induction l; intros [|p]; cbn; auto. Qed.

Lemma nth_error_upd_same {T} (g : T -> T) (l : list T) (p : nat) :
  nth_error (upd p g l) p = option_map g (nth_error l p).
Proof. revert p; induction l; intros [|p]; cbn; auto. Qed.

Lemma nth_error_upd_other {T} (g : T -> T) (l : list T) (p q : nat) :
  q <> p -> nth_error (upd p g l) q = nth_error l q.
Proof.
  revert p q; induction l; intros [|p] [|q] H; cbn; auto; try lia.
Qed.

(** C10. In a valid scene, [CreateShadowCaster] adds exactly one entity to
    the scene and touches no other scene; the reference it returns is to the
    [ShadowLight] of that entity; a null [entityOut] leaves the caller's
    memory as it is, a valid one receives the new entity and nothing else
    is written. *)
Theorem CreateShadowCaster_creates_one_entity
    (w : World) (scene : ptr) (entityOut : option ptr) (pos target up : vec3)
    (distance fov : fexpr) (bufferSize : Z * Z) (name : option string) (sc : Scene) :
  no_faults w ->
  nth_error (scenes w) scene = Some sc ->
  valid_out w entityOut ->
  exists w' light sc' en l,
    CreateShadowCaster scene entityOut pos target up distance fov bufferSize name w
      = (Ok light, w') /\
    performed w w'
      (shadow_caster_trace scene (length (entities sc)) (length (framebuffers w))
         pos target up bufferSize name) /\
    nth_error (scenes w') scene = Some sc' /\
    entities sc' = entities sc ++ [en] /\
    length (scenes w') = length (scenes w) /\
    (forall s, s <> scene -> nth_error (scenes w') s = nth_error (scenes w) s) /\
    light = {| ref_scene := scene; ref_entity := length (entities sc) |} /\
    e_shadowlight en = Some l /\
    l = shadow_light (length (framebuffers w)) distance fov bufferSize /\
    match entityOut with
    | None => cells w' = cells w
    | Some p =>
        nth_error (cells w') p = Some (length (entities sc)) /\
        length (cells w') = length (cells w) /\
        (forall q, q <> p -> nth_error (cells w') q = nth_error (cells w) q)
    end.
Proof.
  unfold no_faults; destruct w; cbn [faults scenes cells framebuffers].
  intros -> S V.
  apply nth_error_split in S as (pre & post & -> & <-).
  destruct sc as [ents].
  exists
    {| log := rev (shadow_caster_trace (length pre) (length ents) (length framebuffers0)
                     pos target up bufferSize name) ++ log0;
       faults := []; window := window0;
       framebuffers := framebuffers0 ++
         [ {| fb_width := fst bufferSize; fb_height := snd bufferSize; fb_samples := None;
              fb_attachments := [Expected.attachment Depth Depth32];
              fb_validated := true; fb_name := name |} ];
       shaders := shaders0; materials := materials0; textures := textures0;
       meshes := meshes0;
       scenes := pre ++
         {| entities := ents ++
              [shadow_caster (length framebuffers0) pos target up distance fov bufferSize] |}
         :: post;
       scene_names := scene_names0; current_scene := current_scene0;
       cache := cache0;
       cells := match entityOut with
                | Some p => upd p (fun _ => length ents) cells0
                | None => cells0
                end |}.
  exists {| ref_scene := length pre; ref_entity := length ents |}.
  exists {| entities := ents ++
              [shadow_caster (length framebuffers0) pos target up distance fov bufferSize] |}.
  exists (shadow_caster (length framebuffers0) pos target up distance fov bufferSize).
  exists (shadow_light (length framebuffers0) distance fov bufferSize).
  split.
  - rewrite <- (Nat.add_0_r (length pre)).
    rewrite <- (app_nil_r ents), <- (app_nil_r framebuffers0).
    unfold CreateShadowCaster.
    destruct name as [n|], entityOut as [p|]; cbn in V;
      (eapply eq_trans; [ run | ]);
      rewrite ?app_nil_r, ?Nat.add_0_r; reflexivity.
  - cbn [scenes cells entities].
    split; [reflexivity|].
    split; [apply nth_error_here|].
    split; [reflexivity|].
    split; [rewrite !length_app; reflexivity|].
    split; [intros s N; now apply nth_error_other|].
    split; [reflexivity|].
    split; [reflexivity|].
    split; [reflexivity|].
    destruct entityOut as [p|]; [|reflexivity].
    cbn in V.
    split; [|split].
    + rewrite nth_error_upd_same.
      destruct (nth_error cells0 p) eqn:E; [reflexivity|].
      apply nth_error_None in E; lia.
    + apply length_upd.
    + intros q N; now apply nth_error_upd_other.
Qed.

Lemma CreateShadowCaster_creates_one_entity_witness :
  exists w' light sc' en l,
    CreateShadowCaster 0 (Some 0) (lit 0, lit 5, lit 0) Expected.origin Expected.up
      (lit 10) (lit 60) (1024, 1024)%Z None one_scene = (Ok light, w') /\
    performed one_scene w'
      (shadow_caster_trace 0 0 0 (lit 0, lit 5, lit 0) Expected.origin Expected.up
         (1024, 1024)%Z None) /\
    nth_error (scenes w') 0 = Some sc' /\
    entities sc' = [] ++ [en] /\
    length (scenes w') = 1 /\
    (forall s, s <> 0 -> nth_error (scenes w') s = nth_error (scenes one_scene) s) /\
    light = {| ref_scene := 0; ref_entity := 0 |} /\
    e_shadowlight en = Some l /\
    l = shadow_light 0 (lit 10) (lit 60) (1024, 1024)%Z /\
    nth_error (cells w') 0 = Some 0 /\
    length (cells w') = 1 /\
    (forall q, q <> 0 -> nth_error (cells w') q = nth_error (cells one_scene) q).
Proof.
  apply (CreateShadowCaster_creates_one_entity one_scene 0 (Some 0)
           (lit 0, lit 5, lit 0) Expected.origin Expected.up
           (lit 10) (lit 60) (1024, 1024)%Z None {| entities := [] |}).
  - reflexivity.
  - reflexivity.
  - cbn; lia.
Defined.

(* ===================================================================== *)
(** ** CreateShadowCaster, further *)
(* ===================================================================== *)

Arguments set_faults _ _ /.

Lemma CreateShadowCaster_run (w : World) (scene : ptr) (entityOut : option ptr)
    (pos target up : vec3) (distance fov : fexpr) (bufferSize : Z * Z)
    (name : option string) (sc : Scene) :
  no_faults w ->
  nth_error (scenes w) scene = Some sc ->
  valid_out w entityOut ->
  CreateShadowCaster scene entityOut pos target up distance fov bufferSize name w =
  (Ok {| ref_scene := scene; ref_entity := length (entities sc) |},
   after_shadow_caster scene entityOut pos target up distance fov bufferSize name sc w).
Proof.
  unfold no_faults, after_shadow_caster; destruct w;
    cbn [faults scenes cells framebuffers log window shaders materials textures
         meshes scene_names current_scene cache].
  intros -> S V.
  apply nth_error_split in S as (pre & post & -> & <-).
  destruct sc as [ents]. cbn [entities].
  rewrite upd_here.
  rewrite <- (Nat.add_0_r (length pre)).
  rewrite <- (app_nil_r ents), <- (app_nil_r framebuffers0).
  unfold CreateShadowCaster.
  destruct name as [n|], entityOut as [p|]; cbn in V;
    (eapply eq_trans; [ run | ]);
    rewrite ?app_nil_r, ?Nat.add_0_r; reflexivity.
Qed.

(** X8. The light [CreateShadowCaster] returns has a shadow buffer of its
    own: a framebuffer made by this call, of the size asked for, with the
    one depth attachment (Depth32, readable by shaders), validated, named
    when a name is given; the framebuffers that existed are unchanged. *)
Theorem CreateShadowCaster_shadow_buffer (w : World) (scene : ptr)
    (entityOut : option ptr) (pos target up : vec3) (distance fov : fexpr)
    (bufferSize : Z * Z) (name : option string) (sc : Scene) :
  no_faults w ->
  nth_error (scenes w) scene = Some sc ->
  valid_out w entityOut ->
  exists light w' sc' en l fb,
    CreateShadowCaster scene entityOut pos target up distance fov bufferSize name w
      = (Ok light, w') /\
    nth_error (scenes w') (ref_scene light) = Some sc' /\
    nth_error (entities sc') (ref_entity light) = Some en /\
    e_shadowlight en = Some l /\
    sl_ShadowBuffer l = Some fb /\
    fb = length (framebuffers w) /\
    framebuffers w' = framebuffers w ++ [shadow_buffer bufferSize name] /\
    nth_error (framebuffers w') fb = Some (shadow_buffer bufferSize name).
Proof.
  intros H S V.
  exists {| ref_scene := scene; ref_entity := length (entities sc) |},
    (after_shadow_caster scene entityOut pos target up distance fov bufferSize name sc w),
    {| entities := entities sc ++
         [shadow_caster (length (framebuffers w)) pos target up distance fov bufferSize] |},
    (shadow_caster (length (framebuffers w)) pos target up distance fov bufferSize),
    (shadow_light (length (framebuffers w)) distance fov bufferSize),
    (length (framebuffers w)).
  split; [now apply CreateShadowCaster_run|].
  cbn [after_shadow_caster scenes framebuffers ref_scene ref_entity entities].
  split; [rewrite nth_error_upd_same, S; reflexivity|].
  split; [apply nth_error_here|].
  repeat (split; [reflexivity|]).
  apply nth_error_here.
Qed.

Lemma CreateShadowCaster_shadow_buffer_witness :
  exists light w' sc' en l fb,
    CreateShadowCaster 0 None (lit 0, lit 5, lit 0) Expected.origin Expected.up
      (lit 10) (lit 60) (1024, 1024)%Z (Some "sun") one_scene = (Ok light, w') /\
    nth_error (scenes w') (ref_scene light) = Some sc' /\
    nth_error (entities sc') (ref_entity light) = Some en /\
    e_shadowlight en = Some l /\
    sl_ShadowBuffer l = Some fb /\
    fb = length (framebuffers one_scene) /\
    framebuffers w' =
      framebuffers one_scene ++ [shadow_buffer (1024, 1024)%Z (Some "sun")] /\
    nth_error (framebuffers w') fb = Some (shadow_buffer (1024, 1024)%Z (Some "sun")).
Proof.
  apply (CreateShadowCaster_shadow_buffer one_scene 0 None
           (lit 0, lit 5, lit 0) Expected.origin Expected.up
           (lit 10) (lit 60) (1024, 1024)%Z (Some "sun") {| entities := [] |}).
  - reflexivity.
  - reflexivity.
  - exact I.
Defined.

(** X9. Two calls of [CreateShadowCaster] on the same scene make two
    different entities, appended in this order, whose lights have two
    different shadow buffers, each as its own call asked for. *)
Theorem CreateShadowCaster_twice (w : World) (scene : ptr) (sc : Scene)
    (out1 out2 : option ptr) (pos1 target1 up1 pos2 target2 up2 : vec3)
    (distance1 fov1 distance2 fov2 : fexpr) (size1 size2 : Z * Z)
    (name1 name2 : option string) :
  no_faults w ->
  nth_error (scenes w) scene = Some sc ->
  valid_out w out1 ->
  valid_out w out2 ->
  exists light1 w1 light2 w2 sc2 en1 en2 l1 l2,
    CreateShadowCaster scene out1 pos1 target1 up1 distance1 fov1 size1 name1 w
      = (Ok light1, w1) /\
    CreateShadowCaster scene out2 pos2 target2 up2 distance2 fov2 size2 name2 w1
      = (Ok light2, w2) /\
    ref_entity light1 <> ref_entity light2 /\
    nth_error (scenes w2) scene = Some sc2 /\
    entities sc2 = entities sc ++ [en1; en2] /\
    nth_error (entities sc2) (ref_entity light1) = Some en1 /\
    nth_error (entities sc2) (ref_entity light2) = Some en2 /\
    e_shadowlight en1 = Some l1 /\
    e_shadowlight en2 = Some l2 /\
    sl_ShadowBuffer l1 <> sl_ShadowBuffer l2 /\
    deref (framebuffers w2) (sl_ShadowBuffer l1) = Some (shadow_buffer size1 name1) /\
    deref (framebuffers w2) (sl_ShadowBuffer l2) = Some (shadow_buffer size2 name2).
Proof.
  intros H S V1 V2.
  pose (en1 := shadow_caster (length (framebuffers w)) pos1 target1 up1 distance1 fov1 size1).
  pose (sc1 := {| entities := entities sc ++ [en1] |}).
  pose (w1 := after_shadow_caster scene out1 pos1 target1 up1 distance1 fov1 size1
                name1 sc w).
  pose (en2 := shadow_caster (length (framebuffers w1)) pos2 target2 up2 distance2 fov2
                 size2).
  assert (S1 : nth_error (scenes w1) scene = Some sc1)
    by (unfold w1; cbn [after_shadow_caster scenes];
        rewrite nth_error_upd_same, S; reflexivity).
  assert (V : valid_out w1 out2).
  { destruct out2 as [p|]; [|exact I].
    unfold w1; cbn [valid_out after_shadow_caster cells] in *.
    destruct out1; [rewrite length_upd|]; exact V2. }
  exists {| ref_scene := scene; ref_entity := length (entities sc) |}, w1,
    {| ref_scene := scene; ref_entity := length (entities sc1) |},
    (after_shadow_caster scene out2 pos2 target2 up2 distance2 fov2 size2 name2 sc1 w1),
    {| entities := entities sc1 ++ [en2] |}, en1, en2,
    (shadow_light (length (framebuffers w)) distance1 fov1 size1),
    (shadow_light (length (framebuffers w1)) distance2 fov2 size2).
  split; [now apply CreateShadowCaster_run|].
  split; [now apply CreateShadowCaster_run|].
  assert (L : length (framebuffers w1) = length (framebuffers w) + 1)
    by (unfold w1; cbn [after_shadow_caster framebuffers]; now rewrite length_app).
  cbn [ref_entity entities sc1 after_shadow_caster scenes framebuffers].
  split; [rewrite length_app; cbn; lia|].
  split; [rewrite nth_error_upd_same, S1; reflexivity|].
  split; [now rewrite <- app_assoc|].
  split; [rewrite <- app_assoc; apply nth_error_here|].
  split; [apply nth_error_here|].
  split; [reflexivity|].
  split; [reflexivity|].
  split; [cbn [shadow_light sl_ShadowBuffer]; rewrite L; intros E; injection E; lia|].
  split.
  - cbn [shadow_light sl_ShadowBuffer deref].
    unfold w1; cbn [after_shadow_caster framebuffers].
    rewrite <- app_assoc. apply nth_error_here.
  - cbn [shadow_light sl_ShadowBuffer deref]. apply nth_error_here.
Qed.

Lemma CreateShadowCaster_twice_witness :
  exists light1 w1 light2 w2 sc2 en1 en2 l1 l2,
    CreateShadowCaster 0 (Some 0) (lit 0, lit 5, lit 0) Expected.origin Expected.up
      (lit 10) (lit 60) (1024, 1024)%Z None one_scene = (Ok light1, w1) /\
    CreateShadowCaster 0 None (lit 5, lit 5, lit 0) Expected.origin Expected.up
      (lit 20) (lit 45) (512, 512)%Z (Some "spot") w1 = (Ok light2, w2) /\
    ref_entity light1 <> ref_entity light2 /\
    nth_error (scenes w2) 0 = Some sc2 /\
    entities sc2 = [] ++ [en1; en2] /\
    nth_error (entities sc2) (ref_entity light1) = Some en1 /\
    nth_error (entities sc2) (ref_entity light2) = Some en2 /\
    e_shadowlight en1 = Some l1 /\
    e_shadowlight en2 = Some l2 /\
    sl_ShadowBuffer l1 <> sl_ShadowBuffer l2 /\
    deref (framebuffers w2) (sl_ShadowBuffer l1)
      = Some (shadow_buffer (1024, 1024)%Z None) /\
    deref (framebuffers w2) (sl_ShadowBuffer l2)
      = Some (shadow_buffer (512, 512)%Z (Some "spot")).
Proof.
  apply (CreateShadowCaster_twice one_scene 0 {| entities := [] |} (Some 0) None
           (lit 0, lit 5, lit 0) Expected.origin Expected.up
           (lit 5, lit 5, lit 0) Expected.origin Expected.up
           (lit 10) (lit 60) (lit 20) (lit 45) (1024, 1024)%Z (512, 512)%Z
           None (Some "spot")).
  - reflexivity.
  - reflexivity.
  - cbn; lia.
  - exact I.
Defined.

(* ===================================================================== *)
(** ** Frames: what a run leaves alone *)
(* ===================================================================== *)

Lemma preserves_bind (R : World -> World -> Prop) {A B} (m : M A) (k : A -> M B) :
  (forall x y z, R x y -> R y z -> R x z) ->
  preserves R m -> (forall a, preserves R (k a)) -> preserves R (bind m k).
Proof.
  intros T Hm Hk w. unfold bind.
  specialize (Hm w). destruct (m w) as [[a|e|] w1]; cbn in *; try exact Hm.
  exact (T _ _ _ Hm (Hk a w1)).
Qed.

Lemma unless_ok_bind (R : World -> World -> Prop) {A B} (m : M A) (k : A -> M B) :
  (forall x y z, R x y -> R y z -> R x z) ->
  preserves R m -> (forall a, unless_ok R (k a)) -> unless_ok R (bind m k).
Proof.
  intros T Hm Hk w. unfold bind.
  specialize (Hm w). destruct (m w) as [[a|e|] w1]; cbn in *;
    try (right; exact Hm).
  destruct (Hk a w1) as [O|K]; [left; exact O | right; exact (T _ _ _ Hm K)].
Qed.


Lemma same_cache_trans x y z : same_cache x y -> same_cache y z -> same_cache x z.
Proof. unfold same_cache; congruence. Qed.

Lemma same_manager_trans x y z :
  same_manager x y -> same_manager y z -> same_manager x z.
Proof. unfold same_manager; intros (A & B & C) (D & E & F); repeat split; try congruence; lia. Qed.

(** A primitive, unfolded to a function of the world, keeps a relation
    that holds between any two worlds equal on the fields it reads. *)
Ltac frame_base :=
  let w := fresh "w" in
  intros w; cbv beta;
  repeat match goal with
         | |- context [match ?x with _ => _ end] => destruct x
         end;
  cbn;
  first [ reflexivity
        | repeat split; cbn;
          first [ reflexivity | rewrite ?length_app, ?length_upd; cbn; lia ] ].

Ltac frame tr :=
  cbv zeta;
  lazymatch goal with
  | |- preserves _ (bind _ _) =>
      apply preserves_bind; [ exact tr | frame tr | intros; frame tr ]
  | |- preserves _ (match ?x with _ => _ end) => destruct x; frame tr
  | |- preserves ?R (for_int ?n ?i ?b ?body) =>
      let n' := eval vm_compute in n in
      lazymatch n' with
      | O => change (preserves R (@ret unit tt))
      | S ?k =>
          let c := eval vm_compute in (Z.ltb i b) in
          lazymatch c with
          | true =>
              change (preserves R (bind (body i) (fun _ => for_int k (i + 1)%Z b body)))
          | false => change (preserves R (@ret unit tt))
          end
      end;
      frame tr
  | |- preserves _ (fun _ => _) => frame_base
  | |- preserves ?R ?m => let m' := eval red in m in change (preserves R m'); frame tr
  end.



(* ===================================================================== *)
(** ** Runs in which a call throws follow the run in which none does *)
(* ===================================================================== *)

Lemma steady_bind {A B} (m : M A) (k : A -> M B) :
  steady m -> (forall a, steady (k a)) -> steady (bind m k).
Proof.
  intros Hm Hk w fs b w' E. unfold bind in *.
  destruct (m w) as [[a|e|] w1] eqn:Em; try discriminate E.
  destruct (Hm w fs a w1 Em) as [-> | (e & w'' & ->)].
  - exact (Hk a w1 fs b w' E).
  - right; exists e, w''; reflexivity.
Qed.

Lemma steady_call (c : Ev.Call) : steady (call c).
Proof.
  intros w fs a w' E. unfold call in *. cbn.
  destruct (fault_at (faults w) (length (log w))); [discriminate E|].
  injection E as <- <-.
  destruct (fault_at fs (length (log w))) as [e|].
  - right; eexists; eexists; reflexivity.
  - left; reflexivity.
Qed.

Ltac steady_base :=
  let w := fresh "w" in
  let fs := fresh "fs" in
  let a := fresh "a" in
  let w' := fresh "w'" in
  let E := fresh "E" in
  intros w fs a w' E; left; cbv beta in *; cbn in *;
  repeat match goal with
         | H : context [match ?x with _ => _ end] |- _ => destruct x
         end;
  try discriminate E; injection E as <- <-; reflexivity.

Ltac stead :=
  cbv zeta;
  lazymatch goal with
  | |- steady (bind _ _) => apply steady_bind; [ stead | intros; stead ]
  | |- steady (call _) => apply steady_call
  | |- steady (match ?x with _ => _ end) => destruct x; stead
  | |- steady (for_int ?n ?i ?b ?body) =>
      let n' := eval vm_compute in n in
      lazymatch n' with
      | O => change (steady (@ret unit tt))
      | S ?k =>
          let c := eval vm_compute in (Z.ltb i b) in
          lazymatch c with
          | true => change (steady (bind (body i) (fun _ => for_int k (i + 1)%Z b body)))
          | false => change (steady (@ret unit tt))
          end
      end;
      stead
  | |- steady (fun _ => _) => steady_base
  | |- steady ?m => let m' := eval red in m in change (steady m'); stead
  end.

Lemma set_faults_back (w : World) : set_faults (faults w) (set_faults [] w) = w.
Proof. destruct w; reflexivity. Qed.

(** From a run without faults that returns: with faults, no [Undefined]. *)
Lemma steady_defined {A} (m : M A) (w : World) (a : A) (w0 : World) :
  steady m -> m (set_faults [] w) = (Ok a, w0) -> fst (m w) <> Undefined.
Proof.
  intros S E.
  destruct (S _ (faults w) _ _ E) as [R | (e & w'' & R)];
    rewrite set_faults_back in R; rewrite R; discriminate.
Qed.

Lemma Initialize_steady : steady SceneBuilder.Initialize.
Proof. stead. Qed.


Lemma CreateSolidTexture_steady color : steady (CreateSolidTexture color).
Proof. stead. Qed.

(** X12. Where [Application::Get()], [GetWindow()] and
    [RegisterScene("main")] return pointers to objects, as they do in every
    world of the embedding: in any world and whichever call throws, every
    other pointer [SceneBuilder::Initialize] uses designates an object it
    has made itself, it assigns no component twice to an entity and gets no
    component an entity lacks; it returns or ends with the exception. *)
Theorem Initialize_never_undefined (w : World) :
  fst (SceneBuilder.Initialize w) <> Undefined.
Proof.
  apply (steady_defined SceneBuilder.Initialize w tt (Expected.world (set_faults [] w))).
  - exact Initialize_steady.
  - apply Initialize_run. reflexivity.
Qed.



(* ===================================================================== *)
(** ** CreateSolidTexture, further *)
(* ===================================================================== *)

Lemma cache_index_then_load (c : color4) :
  unless_ok same_cache (bind (cache_index c) (fun i => cache_load i)).
Proof.
  intros w. cbv [bind cache_index call gets modify ret cache_load same_cache]. cbn.
  destruct (fault_at (faults w) (length (log w))); [right; reflexivity|].
  cbn.
  destruct (um_find c (cache w)) as [i|]; cbn.
  - destruct (nth_error (cache w) i) as [[k v]|];
      [left; eexists; reflexivity | right; reflexivity].
  - rewrite nth_error_here. left; eexists; reflexivity.
Qed.

Lemma cache_index_then_store (c : color4) (v : Sptr) {A} (a : A) :
  unless_ok same_cache
    (bind (cache_index c) (fun i => bind (cache_store i v) (fun _ => ret a))).
Proof.
  intros w. cbv [bind cache_index call gets modify ret cache_store same_cache]. cbn.
  destruct (fault_at (faults w) (length (log w))); [right; reflexivity|].
  cbn.
  destruct (um_find c (cache w)) as [i|]; cbn; left; eexists; reflexivity.
Qed.

Lemma CreateSolidTexture_returns (c : color4) (w : World) :
  no_faults w -> exists t w', CreateSolidTexture c w = (Ok t, w').
Proof.
  intros H.
  destruct (um_find c (cache w)) as [i|] eqn:F.
  - destruct (um_find_some _ _ _ F) as (k & v & N).
    eexists; eexists. now apply (CreateSolidTexture_hit c w i k v).
  - eexists; eexists. now apply CreateSolidTexture_miss.
Qed.

(** X6. Whichever call throws, [CreateSolidTexture] never uses a pointer that
    designates nothing, and unless it returns it leaves the cache as it
    was: no entry is added for a texture that could not be made. *)
Theorem CreateSolidTexture_failure (c : color4) (w : World) :
  fst (CreateSolidTexture c w) <> Undefined /\
  ((exists t, fst (CreateSolidTexture c w) = Ok t) \/
   cache (snd (CreateSolidTexture c w)) = cache w).
Proof.
  split.
  - destruct (CreateSolidTexture_returns c (set_faults [] w) eq_refl) as (t & w' & E).
    exact (steady_defined _ w t w' (CreateSolidTexture_steady c) E).
  - revert w.
    change (unless_ok same_cache (CreateSolidTexture c)).
    unfold CreateSolidTexture.
    apply unless_ok_bind;
      [ exact same_cache_trans | frame same_cache_trans | intros [i|] ].
    + apply cache_index_then_load.
    + cbv zeta.
      do 2 (apply unless_ok_bind;
            [ exact same_cache_trans | frame same_cache_trans | intros ]).
      apply cache_index_then_store.
Qed.

(** X2. A color that is not in the cache gets a new texture:
    [CreateSolidTexture] makes it with the one-pixel description (1x1,
    RGBA8, nearest filters, one mip level, clamped), sets the color as its
    single float pixel, appends it to the textures without touching the
    others, and enters it in the cache under the color. *)
Theorem CreateSolidTexture_new_texture (c : color4) (w : World) :
  no_faults w ->
  um_find c (cache w) = None ->
  exists t w',
    CreateSolidTexture c w = (Ok (Some t), w') /\
    t = length (textures w) /\
    textures w' = textures w ++ [solid_texture c] /\
    nth_error (textures w') t = Some (solid_texture c) /\
    cache w' = cache w ++ [(c, Some t)] /\
    performed w w'
      [ Ev.unordered_map_find c;
        Ev.make_shared_Texture2D solid_desc;
        Ev.Texture2D_SetData t (solid_data c);
        Ev.unordered_map_index c ].
Proof.
  intros H F.
  exists (length (textures w)), (after_miss c w).
  split; [now apply CreateSolidTexture_miss|].
  split; [reflexivity|].
  split; [reflexivity|].
  split; [apply nth_error_here|].
  split; reflexivity.
Qed.

Lemma CreateSolidTexture_new_texture_witness :
  exists t w',
    CreateSolidTexture red (start [] (800, 600)%Z) = (Ok (Some t), w') /\
    t = length (textures (start [] (800, 600)%Z)) /\
    textures w' = textures (start [] (800, 600)%Z) ++ [solid_texture red] /\
    nth_error (textures w') t = Some (solid_texture red) /\
    cache w' = cache (start [] (800, 600)%Z) ++ [(red, Some t)] /\
    performed (start [] (800, 600)%Z) w'
      [ Ev.unordered_map_find red;
        Ev.make_shared_Texture2D solid_desc;
        Ev.Texture2D_SetData t (solid_data red);
        Ev.unordered_map_index red ].
Proof.
  apply (CreateSolidTexture_new_texture red (start [] (800, 600)%Z)); reflexivity.
Defined.

(** Floats that compare equal are the same float, or two zeros. *)
Lemma float_eqb_true (a b : float) :
  float_eqb a b = true ->
  a = b \/ exists s t, a = S754_zero s /\ b = S754_zero t.
Proof.
  unfold float_eqb, SFeqb, SFcompare.
  destruct a as [s|s| |s m e], b as [t|t| |t n f]; intros H;
    try discriminate H;
    try (right; eexists; eexists; split; reflexivity);
    try (destruct s; discriminate H);
    try (destruct t; discriminate H).
  - left; destruct s, t; (reflexivity || discriminate H).
  - left. destruct s, t; try discriminate H;
      destruct (Z.compare_spec e f) as [->| |]; try discriminate H;
      destruct (Pos.compare_cont Eq m n) eqn:C; try discriminate H;
      apply Pos.compare_eq in C; subst; reflexivity.
Qed.

Lemma float_eqb_not_nan (a b : float) : float_eqb a b = true -> is_nan a = false.
Proof. destruct a; try reflexivity. discriminate. Qed.

Lemma float_eqb_congr (a b k : float) :
  float_eqb a b = true -> float_eqb k a = float_eqb k b.
Proof.
  intros H. destruct (float_eqb_true a b H) as [->|(s & t & -> & ->)]; [reflexivity|].
  destruct k as [u|u| |u m e]; try reflexivity; destruct u; reflexivity.
Qed.

Lemma color4_eqb_congr (c1 c2 k : color4) :
  color4_eqb c1 c2 = true -> color4_eqb k c1 = color4_eqb k c2.
Proof.
  destruct c1 as [[[r1 g1] b1] a1], c2 as [[[r2 g2] b2] a2], k as [[[kr kg] kb] ka].
  cbn. intros H.
  apply andb_prop in H as [H Ha]. apply andb_prop in H as [H Hb].
  apply andb_prop in H as [Hr Hg].
  now rewrite (float_eqb_congr r1 r2), (float_eqb_congr g1 g2),
    (float_eqb_congr b1 b2), (float_eqb_congr a1 a2).
Qed.

Lemma color4_eqb_not_nan (c1 c2 : color4) :
  color4_eqb c1 c2 = true -> has_nan c1 = false.
Proof.
  destruct c1 as [[[r1 g1] b1] a1], c2 as [[[r2 g2] b2] a2].
  cbn. intros H.
  apply andb_prop in H as [H Ha]. apply andb_prop in H as [H Hb].
  apply andb_prop in H as [Hr Hg].
  now rewrite (float_eqb_not_nan r1 r2), (float_eqb_not_nan g1 g2),
    (float_eqb_not_nan b1 b2), (float_eqb_not_nan a1 a2).
Qed.

Lemma um_find_congr (c1 c2 : color4) (m : list (color4 * Sptr)) :
  color4_eqb c1 c2 = true -> um_find c1 m = um_find c2 m.
Proof.
  intros H. induction m as [|[k v] m IH]; cbn; [reflexivity|].
  now rewrite (color4_eqb_congr c1 c2 k H), IH.
Qed.

(** X3. The cache tells colors apart by [==]: after a call with [c1], a call
    with any [c2] such that [c1 == c2] returns the same texture, makes none
    and leaves the cache as it is, also when [c2] differs from [c1] as
    the two zeros do. *)
Theorem CreateSolidTexture_equal_colors_share (c1 c2 : color4) (w : World) :
  no_faults w ->
  color4_eqb c1 c2 = true ->
  exists t w1 w2,
    CreateSolidTexture c1 w = (Ok t, w1) /\
    CreateSolidTexture c2 w1 = (Ok t, w2) /\
    textures w2 = textures w1 /\
    cache w2 = cache w1.
Proof.
  intros H E.
  destruct (um_find c1 (cache w)) as [i|] eqn:F.
  - destruct (um_find_some _ _ _ F) as (k & v & N).
    exists v, (after_hit c1 w), (after_hit c2 (after_hit c1 w)).
    split; [now apply (CreateSolidTexture_hit c1 w i k v)|].
    split; [|split; reflexivity].
    apply (CreateSolidTexture_hit c2 (after_hit c1 w) i k v); [exact H | | exact N].
    cbn. now rewrite <- (um_find_congr c1 c2).
  - exists (Some (length (textures w))), (after_miss c1 w),
      (after_hit c2 (after_miss c1 w)).
    split; [now apply CreateSolidTexture_miss|].
    split; [|split; reflexivity].
    apply (CreateSolidTexture_hit c2 (after_miss c1 w) (length (cache w)) c1).
    + exact H.
    + cbn. rewrite <- (um_find_congr c1 c2 _ E).
      apply um_find_app_miss; [exact F|].
      apply color4_eqb_refl. now apply (color4_eqb_not_nan c1 c2).
    + apply nth_error_here.
Qed.

Lemma CreateSolidTexture_equal_colors_share_witness :
  black <> black_negative_zero /\
  exists t w1 w2,
    CreateSolidTexture black (start [] (800, 600)%Z) = (Ok t, w1) /\
    CreateSolidTexture black_negative_zero w1 = (Ok t, w2) /\
    textures w2 = textures w1 /\
    cache w2 = cache w1.
Proof.
  split; [discriminate|].
  apply (CreateSolidTexture_equal_colors_share black black_negative_zero
           (start [] (800, 600)%Z)); reflexivity.
Defined.

Lemma um_find_app_other (c1 c2 : color4) (v : Sptr) (m : list (color4 * Sptr)) :
  um_find c2 m = None -> color4_eqb c1 c2 = false ->
  um_find c2 (m ++ [(c1, v)]) = None.
Proof.
  intros N E. induction m as [|[k x] m IH]; cbn in *.
  - now rewrite E.
  - destruct (color4_eqb k c2); [discriminate N|].
    destruct (um_find c2 m); [discriminate N|].
    now rewrite IH.
Qed.

(** One call in a world whose cache is in order. *)
Lemma CreateSolidTexture_step (c : color4) (w : World) :
  no_faults w -> cache_ok w ->
  exists p w',
    CreateSolidTexture c w = (Ok (Some p), w') /\
    p < length (textures w') /\
    length (textures w) <= length (textures w') /\
    no_faults w' /\ cache_ok w' /\
    (cache w' = cache w \/ cache w' = cache w ++ [(c, Some p)]) /\
    (um_find c (cache w) = None -> p = length (textures w)).
Proof.
  intros H K.
  destruct (um_find c (cache w)) as [i|] eqn:F.
  - destruct (um_find_some _ _ _ F) as (k & v & N).
    destruct (K k v (nth_error_In _ _ N)) as (p & -> & P).
    exists p, (after_hit c w).
    split; [now apply (CreateSolidTexture_hit c w i k (Some p))|].
    split; [exact P|].
    split; [apply Nat.le_refl|].
    split; [exact H|].
    split; [exact K|].
    split; [left; reflexivity | discriminate].
  - exists (length (textures w)), (after_miss c w).
    split; [now apply CreateSolidTexture_miss|].
    assert (L : length (textures (after_miss c w)) = length (textures w) + 1)
      by (cbn; now rewrite length_app).
    split; [lia|]. split; [lia|].
    split; [exact H|].
    split; [|split; [right; reflexivity | reflexivity]].
    intros k v I. cbn in I. apply in_app_or in I as [I|[I|[]]].
    + destruct (K k v I) as (t & -> & T). exists t. split; [reflexivity | lia].
    + injection I as <- <-. eexists. split; [reflexivity | lia].
Qed.

Lemma CreateSolidTexture_each (cs : list color4) (w : World) :
  no_faults w -> cache_ok w ->
  exists ts w',
    each CreateSolidTexture cs w = (Ok ts, w') /\
    length ts = length cs /\
    Forall (fun t => exists p, t = Some p /\ p < length (textures w')) ts /\
    length (textures w) <= length (textures w') /\
    cache_ok w'.
Proof.
  revert w; induction cs as [|c cs IH]; intros w H K.
  - exists [], w. repeat split; auto.
  - destruct (CreateSolidTexture_step c w H K) as (p & w1 & E1 & P & L1 & H1 & K1 & _).
    destruct (IH w1 H1 K1) as (ts & w' & E2 & N & F & L2 & K').
    exists (Some p :: ts), w'.
    split.
    + cbn [each]. eapply run_bind; [exact E1|].
      eapply run_bind; [exact E2 | reflexivity].
    + split; [cbn; now rewrite N|].
      split; [|split; [lia | exact K']].
      constructor; [|exact F].
      exists p; split; [reflexivity | lia].
Qed.

(** X4. From a world where every pointer of the cache is non-null and
    designates a texture (an empty cache to begin with), any sequence of
    calls of [CreateSolidTexture], none throwing, returns non-null pointers
    to existing textures only, and leaves the cache in that state. *)
Theorem CreateSolidTexture_never_null (cs : list color4) (w : World) :
  no_faults w ->
  cache_ok w ->
  exists ts w',
    each CreateSolidTexture cs w = (Ok ts, w') /\
    length ts = length cs /\
    Forall (fun t => exists p, t = Some p /\ p < length (textures w')) ts /\
    cache_ok w'.
Proof.
  intros H K.
  destruct (CreateSolidTexture_each cs w H K) as (ts & w' & E & N & F & _ & K').
  exists ts, w'. repeat split; assumption.
Qed.

Lemma CreateSolidTexture_never_null_witness :
  exists ts w',
    each CreateSolidTexture [red; nan_color; black; red] (start [] (800, 600)%Z)
      = (Ok ts, w') /\
    length ts = 4 /\
    Forall (fun t => exists p, t = Some p /\ p < length (textures w')) ts /\
    cache_ok w'.
Proof.
  apply (CreateSolidTexture_never_null [red; nan_color; black; red]
           (start [] (800, 600)%Z)).
  - reflexivity.
  - intros k v [].
Defined.

(** X5. Two colors that are not [==] do not share a texture: when [c2] is not
    in the cache, a call with [c1] followed by a call with [c2] returns two
    different pointers. *)
Theorem CreateSolidTexture_distinct_colors (c1 c2 : color4) (w : World) :
  no_faults w ->
  cache_ok w ->
  um_find c2 (cache w) = None ->
  color4_eqb c1 c2 = false ->
  exists t1 w1 t2 w2,
    CreateSolidTexture c1 w = (Ok t1, w1) /\
    CreateSolidTexture c2 w1 = (Ok t2, w2) /\
    t1 <> t2.
Proof.
  intros H K F E.
  destruct (CreateSolidTexture_step c1 w H K) as (p & w1 & E1 & P & _ & H1 & K1 & C & _).
  assert (F1 : um_find c2 (cache w1) = None)
    by (destruct C as [-> | ->]; [exact F | now apply um_find_app_other]).
  exists (Some p), w1, (Some (length (textures w1))), (after_miss c2 w1).
  split; [exact E1|].
  split; [now apply CreateSolidTexture_miss|].
  intros Q; injection Q as Q; lia.
Qed.

Lemma CreateSolidTexture_distinct_colors_witness :
  exists t1 w1 t2 w2,
    CreateSolidTexture red (start [] (800, 600)%Z) = (Ok t1, w1) /\
    CreateSolidTexture black w1 = (Ok t2, w2) /\
    t1 <> t2.
Proof.
  apply (CreateSolidTexture_distinct_colors red black (start [] (800, 600)%Z)).
  - reflexivity.
  - intros k v [].
  - reflexivity.
  - reflexivity.
Defined.

(* ===================================================================== *)
(** ** SceneBuilder::Initialize, further *)
(* ===================================================================== *)

Lemma snd_bind {A B} (m : M A) (k : A -> M B) (w : World) (a : A) (w1 : World) :
  m w = (Ok a, w1) -> snd (bind m k w) = snd (k a w1).
Proof. unfold bind; intros ->; reflexivity. Qed.

(** As [run], in a world where the calls reached are known not to throw. *)
Ltac walk :=
  lazymatch goal with
  | |- bind _ _ _ = _ => eapply run_bind; [ walk | tidy; walk ]
  | |- ret _ _ = _ => reflexivity
  | |- gets _ _ = _ => reflexivity
  | |- modify _ _ = _ => reflexivity
  | |- call _ _ = _ => apply run_call; cbn; first [ reflexivity | assumption ]
  | |- new _ _ _ = _ => reflexivity
  | |- ?m ?w = ?r => let m' := eval red in m in change (m' w = r); walk
  end.

(** X13. The scene is not taken back: once its first three calls have gone
    through, [SceneBuilder::Initialize] leaves "main" registered, current
    and existing however it ends, also when a later call, such as the
    loading of an asset, throws. *)
Theorem Initialize_keeps_main (w : World) :
  (forall i, i < 3 -> fault_at (faults w) (length (log w) + i) = None) ->
  lookup_name "main" (scene_names (snd (SceneBuilder.Initialize w)))
    = Some (length (scenes w)) /\
  current_scene (snd (SceneBuilder.Initialize w)) = Some (length (scenes w)) /\
  scene_named "main" (snd (SceneBuilder.Initialize w)) <> None.
Proof.
  intros H.
  assert (H0 : fault_at (faults w) (length (log w)) = None)
    by (rewrite <- (Nat.add_0_r (length (log w))); apply H; lia).
  assert (H1 : fault_at (faults w) (S (length (log w))) = None)
    by (rewrite <- Nat.add_1_r; apply H; lia).
  assert (H2 : fault_at (faults w) (S (S (length (log w)))) = None)
    by (replace (S (S (length (log w)))) with (length (log w) + 2) by lia; apply H; lia).
  clear H.
  remember (snd (SceneBuilder.Initialize w)) as w' eqn:E.
  destruct w; cbn [faults log scenes] in *.
  unfold SceneBuilder.Initialize in E.
  erewrite snd_bind in E by walk. cbv beta in E.
  erewrite snd_bind in E by walk. cbv beta in E.
  erewrite snd_bind in E by walk. cbv beta in E.
  cbn in E.
  assert (K : same_manager
                {| log := Ev.SceneManager_SetCurrentScene "main"
                          :: Ev.SceneManager_RegisterScene "main"
                          :: Ev.Application_Get :: log0;
                   faults := faults0; window := window0;
                   framebuffers := framebuffers0; shaders := shaders0;
                   materials := materials0; textures := textures0; meshes := meshes0;
                   scenes := scenes0 ++ [ {| entities := [] |} ];
                   scene_names := ("main", length scenes0) :: scene_names0;
                   current_scene := Some (length scenes0);
                   cache := cache0; cells := cells0 |} w').
  { rewrite E.
    lazymatch goal with
    | |- same_manager _ (snd (?m ?W)) =>
        let P := fresh "P" in
        assert (P : preserves same_manager m) by frame same_manager_trans;
        exact (P W)
    end. }
  destruct K as (N & C & L); cbn in N, C, L.
  rewrite length_app in L; cbn in L.
  unfold scene_named. rewrite N, C. cbn.
  repeat split.
  apply nth_error_Some. lia.
Qed.

Lemma Initialize_keeps_main_witness :
  fst (SceneBuilder.Initialize paddle_missing) = Thrown missing_file /\
  lookup_name "main" (scene_names (snd (SceneBuilder.Initialize paddle_missing)))
    = Some (length (scenes paddle_missing)) /\
  current_scene (snd (SceneBuilder.Initialize paddle_missing))
    = Some (length (scenes paddle_missing)) /\
  scene_named "main" (snd (SceneBuilder.Initialize paddle_missing)) <> None.
Proof.
  split; [vm_compute; reflexivity|].
  apply (Initialize_keeps_main paddle_missing).
  intros [|[|[|i]]] L; [reflexivity | reflexivity | reflexivity | lia].
Defined.

Lemma firstn_length_app {T} (l r : list T) : firstn (length l) (l ++ r) = l.
Proof. induction l; cbn; [reflexivity | now f_equal]. Qed.

(** X14. [SceneBuilder::Initialize] changes no object that was there: when
    no call throws, every framebuffer, shader, material, texture, mesh and
    scene of the world it starts in is afterwards what it was; the one
    scene added is "main", with five entities, registered in front of the
    names there were; the texture cache, the caller's memory and the window
    are as they were. *)
Theorem Initialize_changes_no_object (w : World) :
  no_faults w ->
  exists w' sc,
    SceneBuilder.Initialize w = (Ok tt, w') /\
    firstn (length (framebuffers w)) (framebuffers w') = framebuffers w /\
    firstn (length (shaders w)) (shaders w') = shaders w /\
    firstn (length (materials w)) (materials w') = materials w /\
    firstn (length (textures w)) (textures w') = textures w /\
    firstn (length (meshes w)) (meshes w') = meshes w /\
    scenes w' = scenes w ++ [sc] /\ length (entities sc) = 5 /\
    scene_names w' = ("main", length (scenes w)) :: scene_names w /\
    cache w' = cache w /\ cells w' = cells w /\ window w' = window w.
Proof.
  intros H.
  exists (Expected.world w),
    (Expected.main_scene (length (materials w)) (length (meshes w))
       (length (framebuffers w))).
  split; [now apply Initialize_run|].
  unfold Expected.world;
    cbn [framebuffers shaders materials textures meshes scenes scene_names
         cache cells window].
  rewrite !firstn_length_app.
  repeat split; reflexivity.
Qed.

Lemma Initialize_changes_no_object_witness :
  exists w' sc,
    SceneBuilder.Initialize built_once = (Ok tt, w') /\
    firstn (length (framebuffers built_once)) (framebuffers w') = framebuffers built_once /\
    firstn (length (shaders built_once)) (shaders w') = shaders built_once /\
    firstn (length (materials built_once)) (materials w') = materials built_once /\
    firstn (length (textures built_once)) (textures w') = textures built_once /\
    firstn (length (meshes built_once)) (meshes w') = meshes built_once /\
    scenes w' = scenes built_once ++ [sc] /\ length (entities sc) = 5 /\
    scene_names w' = ("main", length (scenes built_once)) :: scene_names built_once /\
    cache w' = cache built_once /\ cells w' = cells built_once /\
    window w' = window built_once.
Proof.
  apply (Initialize_changes_no_object built_once). reflexivity.
Defined.

(** X15. The scene [SceneBuilder::Initialize] builds is complete: every
    renderable has a mesh and a material or neither, every material used
    has a linked shader with a vertex and a fragment stage and textures
    that exist, and both buffers of the camera exist and are validated. *)
Theorem Initialize_scene_ready (w : World) :
  no_faults w ->
  exists w' sc,
    SceneBuilder.Initialize w = (Ok tt, w') /\
    scene_named "main" w' = Some sc /\
    forallb (entity_ready w') (entities sc) = true.
Proof.
  intros H.
  exists (Expected.world w),
    (Expected.main_scene (length (materials w)) (length (meshes w))
       (length (framebuffers w))).
  split; [now apply Initialize_run|].
  split; [apply Expected_main|].
  unfold Expected.main_scene, Expected.rendered, Expected.main_camera.
  cbn [forallb entities].
  unfold entity_ready, buffer_ready, material_ready, deref, Expected.world,
    Expected.new_meshes, Expected.new_materials, Expected.new_textures,
    Expected.new_shaders, Expected.new_framebuffers.
  cbn.
  rewrite ?nth_error_here, ?nth_error_plus; cbn.
  rewrite ?nth_error_here, ?nth_error_plus; cbn.
  rewrite ?nth_error_here, ?nth_error_plus; cbn.
  reflexivity.
Qed.

Lemma Initialize_scene_ready_witness :
  exists w' sc,
    SceneBuilder.Initialize one_scene = (Ok tt, w') /\
    scene_named "main" w' = Some sc /\
    forallb (entity_ready w') (entities sc) = true.
Proof.
  apply (Initialize_scene_ready one_scene). reflexivity.
Defined.

(** *** What the scene holds on to *)

Lemma designated_app {T} (heap : list T) (ps qs : list ptr) :
  designated heap (ps ++ qs) = designated heap ps ++ designated heap qs.
Proof. unfold designated. apply flat_map_app. Qed.

Lemma designated_old {T} (l r : list T) (ps : list ptr) :
  Forall (fun p => p < length l) ps -> designated (l ++ r) ps = designated l ps.
Proof.
  unfold designated.
  induction 1 as [|p ps P _ IH]; cbn [flat_map]; [reflexivity|].
  rewrite nth_error_app1 by exact P. now rewrite IH.
Qed.

Lemma designated_in {T} (heap : list T) (ps : list ptr) (o : T) :
  In o (designated heap ps) -> In o heap.
Proof.
  unfold designated. intros I. apply in_flat_map in I as (p & _ & I).
  destruct (nth_error heap p) as [x|] eqn:E; [|destruct I].
  destruct I as [<-|[]]. exact (nth_error_In _ _ E).
Qed.

Ltac decide_eqb :=
  repeat match goal with
         | |- context [Nat.eqb ?a ?b] =>
             first [ replace (Nat.eqb a b) with true
                       by (symmetry; apply Nat.eqb_eq; lia)
                   | replace (Nat.eqb a b) with false
                       by (symmetry; apply Nat.eqb_neq; lia) ]
         end.

Lemma Expected_held_materials (w : World) :
  held_materials (Expected.world w) =
  held_materials w ++
  [length (materials w) + 1; length (materials w); length (materials w)].
Proof.
  unfold held_materials, Expected.world; cbn [scenes].
  rewrite flat_map_app. reflexivity.
Qed.

Lemma Expected_held_designated (w : World) :
  Forall (fun p => p < length (materials w)) (held_materials w) ->
  designated (materials (Expected.world w)) (held_materials (Expected.world w)) =
  designated (materials w) (held_materials w) ++
  designated (Expected.new_materials (length (shaders w)) (length (textures w)))
    [1; 0; 0].
Proof.
  intros F.
  rewrite Expected_held_materials, designated_app.
  unfold Expected.world; cbn [materials].
  rewrite designated_old by exact F.
  f_equal.
  unfold designated; cbn [flat_map].
  unfold Expected.new_materials.
  rewrite nth_error_plus, !nth_error_here.
  reflexivity.
Qed.

(** X16. Two of the four materials [SceneBuilder::Initialize] makes are
    attached to nothing.  In a world whose scenes refer to materials that
    exist, when no call throws: the run makes four materials, [marbleMat]
    third, with [shader], and [mat2] fourth, and sets on them the values of
    the source, a texture on [marbleMat], two textures and a strength on
    [mat2]; the entities it creates are rendered with [paddleMat] (the
    first) and [monkeyMat] (the other two), which is all it adds to the
    materials the scenes refer to; no entity of any scene refers to
    [marbleMat] or [mat2], so that they have no owner left when the
    function has returned. *)
Theorem Initialize_unused_materials (w : World) :
  no_faults w ->
  Forall (fun p => p < length (materials w)) (held_materials w) ->
  exists w' tr,
    SceneBuilder.Initialize w = (Ok tt, w') /\
    performed w w' tr /\
    filter makes_material tr =
      [ Ev.make_shared_Material (length (shaders w) + 1);
        Ev.make_shared_Material (length (shaders w) + 1);
        Ev.make_shared_Material (length (shaders w));
        Ev.make_shared_Material (length (shaders w) + 1) ] /\
    filter (sets_on (length (materials w) + 2)) tr =
      [ Ev.Material_Set (length (materials w) + 2) "s_Albedo"
          (MTexture (Some (length (textures w) + 4))) ] /\
    filter (sets_on (length (materials w) + 3)) tr =
      [ Ev.Material_Set (length (materials w) + 3) "s_Albedo"
          (MTexture (Some (length (textures w) + 5)));
        Ev.Material_Set (length (materials w) + 3) "s_Emissive"
          (MTexture (Some (length (textures w) + 6)));
        Ev.Material_Set (length (materials w) + 3) "a_EmissiveStrength"
          (MFloat (lit 1)) ] /\
    held_materials w' =
      held_materials w ++
      [length (materials w) + 1; length (materials w); length (materials w)] /\
    ~ In (length (materials w) + 2) (held_materials w') /\
    ~ In (length (materials w) + 3) (held_materials w').
Proof.
  intros H F.
  exists (Expected.world w),
    (Expected.trace (length (scenes w)) (length (shaders w)) (length (materials w))
       (length (textures w)) (length (meshes w)) (length (framebuffers w)) (window w)).
  split; [now apply Initialize_run|].
  split; [reflexivity|].
  split; [reflexivity|].
  split; [unfold Expected.trace; cbn [filter sets_on]; decide_eqb; reflexivity|].
  split; [unfold Expected.trace; cbn [filter sets_on]; decide_eqb; reflexivity|].
  split; [apply Expected_held_materials|].
  rewrite Expected_held_materials.
  rewrite Forall_forall in F.
  split; intros I; apply in_app_or in I as [I|I];
    solve [ apply F in I; lia | cbn in I; lia ].
Qed.

Lemma Initialize_unused_materials_witness :
  exists w' tr,
    SceneBuilder.Initialize built_once = (Ok tt, w') /\
    performed built_once w' tr /\
    filter makes_material tr =
      [ Ev.make_shared_Material (length (shaders built_once) + 1);
        Ev.make_shared_Material (length (shaders built_once) + 1);
        Ev.make_shared_Material (length (shaders built_once));
        Ev.make_shared_Material (length (shaders built_once) + 1) ] /\
    filter (sets_on (length (materials built_once) + 2)) tr =
      [ Ev.Material_Set (length (materials built_once) + 2) "s_Albedo"
          (MTexture (Some (length (textures built_once) + 4))) ] /\
    filter (sets_on (length (materials built_once) + 3)) tr =
      [ Ev.Material_Set (length (materials built_once) + 3) "s_Albedo"
          (MTexture (Some (length (textures built_once) + 5)));
        Ev.Material_Set (length (materials built_once) + 3) "s_Emissive"
          (MTexture (Some (length (textures built_once) + 6)));
        Ev.Material_Set (length (materials built_once) + 3) "a_EmissiveStrength"
          (MFloat (lit 1)) ] /\
    held_materials w' =
      held_materials built_once ++
      [length (materials built_once) + 1; length (materials built_once);
       length (materials built_once)] /\
    ~ In (length (materials built_once) + 2) (held_materials w') /\
    ~ In (length (materials built_once) + 3) (held_materials w').
Proof.
  apply (Initialize_unused_materials built_once).
  - reflexivity.
  - vm_compute. repeat constructor.
Defined.

(** X17. [SceneBuilder::Initialize] holds on to what its entities use and
    leaves no pointer dangling.  In a world in which every pointer held by
    a scene or by the texture cache designates an object, when no call
    throws: the same is true afterwards; the textures held are those held
    before and the two set on [monkeyMat] and the two set on [paddleMat];
    the shaders held are those held before and [emissiveShader].  The
    shader [shader], made, loaded from "shaders/lighting.vs.glsl" and
    "shaders/forward.fs.glsl" and linked, is held by nothing once the
    function has returned: the one material made with it is [marbleMat]. *)
Theorem Initialize_holds_what_it_uses (w : World) :
  no_faults w ->
  held_in_range w ->
  exists w' tr,
    SceneBuilder.Initialize w = (Ok tt, w') /\
    performed w w' tr /\
    held_in_range w' /\
    length (textures_set_on (length (materials w)) tr) = 2 /\
    length (textures_set_on (length (materials w) + 1) tr) = 2 /\
    (forall t, In t (held_textures w') <->
               In t (held_textures w) \/
               In t (textures_set_on (length (materials w)) tr ++
                     textures_set_on (length (materials w) + 1) tr)) /\
    (forall s, In s (held_shaders w') <->
               In s (held_shaders w) \/ s = length (shaders w) + 1) /\
    filter (on_shader (length (shaders w))) tr =
      [ Ev.Shader_LoadPart (length (shaders w)) VertexShader "shaders/lighting.vs.glsl";
        Ev.Shader_LoadPart (length (shaders w)) FragmentShader "shaders/forward.fs.glsl";
        Ev.Shader_Link (length (shaders w)) ] /\
    ~ In (length (shaders w)) (held_shaders w').
Proof.
  intros H (FM & FT & FS).
  exists (Expected.world w),
    (Expected.trace (length (scenes w)) (length (shaders w)) (length (materials w))
       (length (textures w)) (length (meshes w)) (length (framebuffers w)) (window w)).
  split; [now apply Initialize_run|].
  split; [reflexivity|].
  assert (T0 : textures_set_on (length (materials w))
                 (Expected.trace (length (scenes w)) (length (shaders w))
                    (length (materials w)) (length (textures w)) (length (meshes w))
                    (length (framebuffers w)) (window w))
               = [length (textures w); length (textures w) + 1]).
  { unfold textures_set_on, Expected.trace; cbn [filter sets_on]; decide_eqb.
    reflexivity. }
  assert (T1 : textures_set_on (length (materials w) + 1)
                 (Expected.trace (length (scenes w)) (length (shaders w))
                    (length (materials w)) (length (textures w)) (length (meshes w))
                    (length (framebuffers w)) (window w))
               = [length (textures w) + 2; length (textures w) + 3]).
  { unfold textures_set_on, Expected.trace; cbn [filter sets_on]; decide_eqb.
    reflexivity. }
  rewrite T0, T1.
  assert (HT : held_textures (Expected.world w) =
               material_textures (designated (materials w) (held_materials w)) ++
               [length (textures w) + 2; length (textures w) + 3;
                length (textures w); length (textures w) + 1;
                length (textures w); length (textures w) + 1] ++
               cached_textures w).
  { unfold held_textures. rewrite (Expected_held_designated w FM).
    unfold material_textures at 1. rewrite flat_map_app.
    rewrite <- app_assoc. reflexivity. }
  assert (HS : held_shaders (Expected.world w) =
               held_shaders w ++
               [length (shaders w) + 1; length (shaders w) + 1; length (shaders w) + 1]).
  { unfold held_shaders. rewrite (Expected_held_designated w FM).
    unfold material_shaders at 1. rewrite flat_map_app. reflexivity. }
  assert (IT : forall t, In t (held_textures (Expected.world w)) <->
                         In t (held_textures w) \/
                         In t ([length (textures w); length (textures w) + 1] ++
                               [length (textures w) + 2; length (textures w) + 3])).
  { intros t. rewrite HT. unfold held_textures.
    rewrite !in_app_iff. cbn [In]. tauto. }
  assert (IS : forall s, In s (held_shaders (Expected.world w)) <->
                         In s (held_shaders w) \/ s = length (shaders w) + 1).
  { intros s. rewrite HS, in_app_iff. cbn [In].
    split; [intros [I|[I|[I|[I|[]]]]]; auto | intros [I|I]; auto]. }
  rewrite Forall_forall in FM, FT, FS.
  split.
  { unfold held_in_range.
    rewrite !Forall_forall.
    assert (LM : length (materials (Expected.world w)) = length (materials w) + 4)
      by (unfold Expected.world; cbn [materials]; now rewrite length_app).
    assert (LT : length (textures (Expected.world w)) = length (textures w) + 7)
      by (unfold Expected.world; cbn [textures]; now rewrite length_app).
    assert (LS : length (shaders (Expected.world w)) = length (shaders w) + 2)
      by (unfold Expected.world; cbn [shaders]; now rewrite length_app).
    rewrite LM, LT, LS.
    split; [|split].
    - intros p I. rewrite Expected_held_materials in I.
      apply in_app_or in I as [I|I]; [apply FM in I | cbn in I]; lia.
    - intros t I. apply IT in I as [I|I]; [apply FT in I | cbn in I]; lia.
    - intros s0 I. apply IS in I as [I|I]; [apply FS in I|]; lia. }
  split; [reflexivity|].
  split; [reflexivity|].
  split; [exact IT|].
  split; [exact IS|].
  split; [unfold Expected.trace; cbn [filter on_shader]; decide_eqb; reflexivity|].
  intros J. apply IS in J as [J|J]; [apply FS in J|]; lia.
Qed.

Lemma Initialize_holds_what_it_uses_witness :
  exists w' tr,
    SceneBuilder.Initialize built_once = (Ok tt, w') /\
    performed built_once w' tr /\
    held_in_range w' /\
    length (textures_set_on (length (materials built_once)) tr) = 2 /\
    length (textures_set_on (length (materials built_once) + 1) tr) = 2 /\
    (forall t, In t (held_textures w') <->
               In t (held_textures built_once) \/
               In t (textures_set_on (length (materials built_once)) tr ++
                     textures_set_on (length (materials built_once) + 1) tr)) /\
    (forall s, In s (held_shaders w') <->
               In s (held_shaders built_once) \/ s = length (shaders built_once) + 1) /\
    filter (on_shader (length (shaders built_once))) tr =
      [ Ev.Shader_LoadPart (length (shaders built_once)) VertexShader
          "shaders/lighting.vs.glsl";
        Ev.Shader_LoadPart (length (shaders built_once)) FragmentShader
          "shaders/forward.fs.glsl";
        Ev.Shader_Link (length (shaders built_once)) ] /\
    ~ In (length (shaders built_once)) (held_shaders w').
Proof.
  apply (Initialize_holds_what_it_uses built_once).
  - reflexivity.
  - unfold held_in_range. vm_compute. repeat constructor.
Defined.

(* ===================================================================== *)
(** ** The audio layer over its life *)
(* ===================================================================== *)

Lemma repeat_snoc {T} (x : T) (n : nat) (l : list T) :
  repeat x n ++ x :: l = x :: repeat x n ++ l.
Proof. induction n; cbn; [reflexivity | now rewrite IHn]. Qed.

Lemma rev_repeat_same {T} (x : T) (n : nat) : rev (repeat x n) = repeat x n.
Proof.
  induction n; cbn; [reflexivity|].
  rewrite IHn. clear IHn. induction n; cbn; [reflexivity | now rewrite IHn].
Qed.

Lemma times_Update_run (n : nat) (w : World) :
  no_faults w ->
  times n AudioLayer.Update w =
  (Ok tt, set_log (fun l => repeat Ev.AudioEngine_Update n ++ l) w).
Proof.
  unfold no_faults. revert w; induction n as [|n IH]; intros w H.
  - destruct w; reflexivity.
  - cbn [times]. eapply run_bind.
    + apply run_call. rewrite H. reflexivity.
    + rewrite IH by exact H. cbn. now rewrite repeat_snoc.
Qed.

(** X1. Over the life of the audio layer, [Initialize], then any number of
    [Update]s, then [Shutdown], in a world where no call throws: the sound
    "AH.wav" is loaded and played once, at the start, each [Update] makes
    one call [AudioEngine::Update()] and nothing else, [Shutdown] makes the
    last call, and nothing but the log of calls changes. *)
Theorem session_calls (frames : nat) (w : World) :
  no_faults w ->
  exists w',
    session frames w = (Ok tt, w') /\
    performed w w'
      ([ Ev.AudioEngine_Init;
         Ev.AudioEngine_LoadSound "AH.wav" false true true;
         Ev.AudioEngine_PlaySound "AH.wav" ]
       ++ repeat Ev.AudioEngine_Update frames
       ++ [ Ev.AudioEngine_Shutdown ]) /\
    w' = set_log (fun _ => log w') w.
Proof.
  intros H. eexists. split; [|split].
  - unfold session. eapply run_bind.
    + unfold AudioLayer.Initialize.
      eapply run_bind; [apply run_call; rewrite H; reflexivity|].
      eapply run_bind; [apply run_call; cbn; rewrite H; reflexivity|].
      apply run_call; cbn; rewrite H; reflexivity.
    + eapply run_bind; [apply times_Update_run; exact H|].
      apply run_call; cbn; rewrite H; reflexivity.
  - unfold performed; cbn.
    rewrite !rev_app_distr, rev_repeat_same. cbn.
    rewrite <- !app_assoc. reflexivity.
  - reflexivity.
Qed.

Lemma session_calls_witness :
  exists w',
    session 3 (start [] (800, 600)%Z) = (Ok tt, w') /\
    performed (start [] (800, 600)%Z) w'
      ([ Ev.AudioEngine_Init;
         Ev.AudioEngine_LoadSound "AH.wav" false true true;
         Ev.AudioEngine_PlaySound "AH.wav" ]
       ++ repeat Ev.AudioEngine_Update 3
       ++ [ Ev.AudioEngine_Shutdown ]) /\
    w' = set_log (fun _ => log w') (start [] (800, 600)%Z).
Proof.
  apply (session_calls 3 (start [] (800, 600)%Z)). reflexivity.
Defined.

(* ===================================================================== *)
(** ** The texture a color gets, and a shadow caster in the main scene *)
(* ===================================================================== *)

Lemma um_find_some_eqb (c : color4) (m : list (color4 * Sptr)) (i : nat) :
  um_find c m = Some i ->
  exists k v, nth_error m i = Some (k, v) /\ color4_eqb k c = true.
Proof.
  revert i; induction m as [|[k x] m IH]; cbn; intros i H; [discriminate H|].
  destruct (color4_eqb k c) eqn:E.
  - injection H as <-. now exists k, x.
  - destruct (um_find c m) as [j|]; [|discriminate H].
    injection H as <-. cbn. now apply IH.
Qed.

(** X7. The texture returned for a color holds that color: if every entry of
    the cache leads to the one-pixel texture of its key, [CreateSolidTexture
    c] returns a texture whose pixel is [c] or a color [==] to [c], and the
    cache is again such. *)
Theorem CreateSolidTexture_holds_the_color (c : color4) (w : World) :
  no_faults w ->
  cache_solid w ->
  exists p k w',
    CreateSolidTexture c w = (Ok (Some p), w') /\
    nth_error (textures w') p = Some (solid_texture k) /\
    (k = c \/ color4_eqb k c = true) /\
    cache_solid w'.
Proof.
  intros H K.
  destruct (um_find c (cache w)) as [i|] eqn:F.
  - destruct (um_find_some_eqb _ _ _ F) as (k & v & N & E).
    destruct (K k v (nth_error_In _ _ N)) as (p & -> & P).
    exists p, k, (after_hit c w).
    split; [now apply (CreateSolidTexture_hit c w i k (Some p))|].
    split; [exact P|].
    split; [right; exact E | exact K].
  - exists (length (textures w)), c, (after_miss c w).
    split; [now apply CreateSolidTexture_miss|].
    split; [apply nth_error_here|].
    split; [left; reflexivity|].
    intros k v I. cbn in I. apply in_app_or in I as [I|[I|[]]].
    + destruct (K k v I) as (t & -> & T). exists t. split; [reflexivity|].
      cbn. rewrite nth_error_app1; [exact T|].
      apply nth_error_Some. rewrite T. discriminate.
    + injection I as <- <-. eexists. split; [reflexivity|].
      apply nth_error_here.
Qed.

Lemma CreateSolidTexture_holds_the_color_witness :
  exists p k w',
    CreateSolidTexture red (start [] (800, 600)%Z) = (Ok (Some p), w') /\
    nth_error (textures w') p = Some (solid_texture k) /\
    (k = red \/ color4_eqb k red = true) /\
    cache_solid w'.
Proof.
  apply (CreateSolidTexture_holds_the_color red (start [] (800, 600)%Z)).
  - reflexivity.
  - intros k v [].
Defined.

(** X18. The scene [SceneBuilder::Initialize] makes current can be handed to
    [CreateShadowCaster]: the call returns, the light is the sixth entity of
    "main", which then has one camera and two lights, a point light and a
    shadow light, and is still complete. *)
Theorem Initialize_then_CreateShadowCaster (w : World) (entityOut : option ptr)
    (pos target up : vec3) (distance fov : fexpr) (bufferSize : Z * Z)
    (name : option string) :
  no_faults w ->
  valid_out w entityOut ->
  exists w1 s light w2 sc,
    SceneBuilder.Initialize w = (Ok tt, w1) /\
    current_scene w1 = Some s /\
    CreateShadowCaster s entityOut pos target up distance fov bufferSize name w1
      = (Ok light, w2) /\
    scene_named "main" w2 = Some sc /\
    length (entities sc) = 6 /\
    ref_entity light = 5 /\
    length (carrying CameraC sc) = 1 /\
    length (carrying PointLightC sc) = 1 /\
    length (carrying ShadowLightC sc) = 1 /\
    length (filter is_light (entities sc)) = 2 /\
    forallb (entity_ready w2) (entities sc) = true.
Proof.
  intros H V.
  pose (main := Expected.main_scene (length (materials w)) (length (meshes w))
                  (length (framebuffers w))).
  assert (S : nth_error (scenes (Expected.world w)) (length (scenes w)) = Some main)
    by apply nth_error_here.
  exists (Expected.world w), (length (scenes w)),
    {| ref_scene := length (scenes w); ref_entity := length (entities main) |},
    (after_shadow_caster (length (scenes w)) entityOut pos target up distance fov
       bufferSize name main (Expected.world w)),
    {| entities := entities main ++
         [shadow_caster (length (framebuffers (Expected.world w))) pos target up
            distance fov bufferSize] |}.
  split; [now apply Initialize_run|].
  split; [reflexivity|].
  split.
  - apply CreateShadowCaster_run; [exact H | exact S |].
    destruct entityOut; exact V.
  - split.
    + unfold scene_named. cbn [after_shadow_caster scene_names Expected.world
        lookup_name String.eqb Ascii.eqb Bool.eqb deref scenes].
      cbn [Expected.world scenes] in S.
      rewrite nth_error_upd_same, S. reflexivity.
    + repeat (split; [reflexivity|]).
      unfold main, Expected.main_scene, Expected.rendered, Expected.main_camera,
        shadow_caster, shadow_light.
      cbn [forallb entities app].
      unfold entity_ready, buffer_ready, material_ready, deref, after_shadow_caster,
        Expected.world, Expected.new_meshes, Expected.new_materials,
        Expected.new_textures, Expected.new_shaders, Expected.new_framebuffers.
      cbn.
      rewrite ?length_app, <- ?app_assoc; cbn.
      rewrite ?nth_error_here, ?nth_error_plus; cbn.
      rewrite ?nth_error_here, ?nth_error_plus; cbn.
      rewrite ?nth_error_here, ?nth_error_plus; cbn.
      reflexivity.
Qed.

Lemma Initialize_then_CreateShadowCaster_witness :
  exists w1 s light w2 sc,
    SceneBuilder.Initialize one_scene = (Ok tt, w1) /\
    current_scene w1 = Some s /\
    CreateShadowCaster s (Some 0) (lit 0, lit 5, lit 0) Expected.origin Expected.up
      (lit 10) (lit 60) (1024, 1024)%Z None w1 = (Ok light, w2) /\
    scene_named "main" w2 = Some sc /\
    length (entities sc) = 6 /\
    ref_entity light = 5 /\
    length (carrying CameraC sc) = 1 /\
    length (carrying PointLightC sc) = 1 /\
    length (carrying ShadowLightC sc) = 1 /\
    length (filter is_light (entities sc)) = 2 /\
    forallb (entity_ready w2) (entities sc) = true.
Proof.
  apply (Initialize_then_CreateShadowCaster one_scene (Some 0)).
  - reflexivity.
  - cbn; lia.
Defined.
